(** * NHClinical patient-flow operations: a shallow embedding

    The activity types of [nh_clinical/operations.py] (movement, bed swap,
    placement, discharge, admission) are embedded as functions of a
    state-and-exception monad over an explicit store.  The store holds the
    ORM tables the operations read and write, and a journal of the engine
    calls in the order they were made. *)

From stdpp Require Import gmap strings list fin_maps sorting pretty.

Open Scope string_scope.
Open Scope list_scope.
Open Scope Z_scope.

(** ** Data model *)

(** Lifecycle states of an activity. *)
Inductive State := draft | scheduled | started | completed | cancelled.

(** The [data_model] tag of an activity: which workflow payload it carries. *)
Inductive DataModel :=
| patient_move | patient_swap_beds | patient_placement
| patient_discharge | patient_admission | spell.

Global Instance State_eq_dec : EqDecision State.
Proof. solve_decision. Defined.
Global Instance DataModel_eq_dec : EqDecision DataModel.
Proof. solve_decision. Defined.

(** [_name] of each model, as in the source. *)
Definition model_name (m : DataModel) : string :=
  match m with
  | patient_move => "nh.clinical.patient.move"
  | patient_swap_beds => "nh.clinical.patient.swap_beds"
  | patient_placement => "nh.clinical.patient.placement"
  | patient_discharge => "nh.clinical.patient.discharge"
  | patient_admission => "nh.clinical.patient.admission"
  | spell => "nh.clinical.spell"
  end.

(** A field value: a record id or a timestamp, [None] being Python's
    [False].  A [Vals] is the dict handed to [create], [write] and
    [submit]: a key can be absent, or present with the value [False]. *)
Abbreviation Value := (option Z).
Abbreviation Vals := (gmap string Value).

(** State is terminal: [state in ['completed', 'cancelled']]. *)
Definition terminal (st : State) : bool :=
  match st with completed | cancelled => true | _ => false end.

Record Activity := mkActivity {
  data_model : DataModel;
  state : State;
  parent_id : Value;
  creator_id : Value;
  sequence : Z;
  date_terminated : Value;
  data_ref : Value
}.

(** A row of one of the workflow payload tables. *)
Record Data := mkData {
  d_model : DataModel;
  d_fields : Vals
}.

Record Patient := mkPatient { current_location_id : Value }.

Record Location := mkLocation {
  loc_name : string;
  loc_code : string;
  usage : string;
  loc_parent_id : Value;
  is_available : bool
}.

Record Pos := mkPos { pos_location_id : Value }.

(** The dict written on an activity by [activity_pool.write]; [None] is an
    absent key. *)
Record ActivityVals := mkActivityVals {
  v_parent_id : option Value;
  v_creator_id : option Value;
  v_state : option State;
  v_date_terminated : option Value;
  v_data_ref : option Value
}.

Definition no_vals : ActivityVals := mkActivityVals None None None None None.

(** Calls into the engine and the ORM, as the journal records them. *)
Inductive Event :=
| EvCreateActivity (aid : Z) (m : DataModel)
| EvCreateRecord (rid : Z) (m : DataModel)
| EvBaseSubmit (aid : Z) (vals : Vals)
| EvBaseStart (aid : Z)
| EvBaseComplete (aid : Z)
| EvBaseCancel (aid : Z)
| EvWriteActivity (aid : Z) (vals : ActivityVals)
| EvWriteRecord (rid : Z) (vals : Vals)
| EvWritePatient (pid : Z) (location : Value)
| EvTriggerPolicy (aid : Z) (location : Value).

Record Store := mkStore {
  activities : gmap Z Activity;
  records : gmap Z Data;
  patients : gmap Z Patient;
  locations : gmap Z Location;
  poses : gmap Z Pos;
  clock : Z;
  journal : list Event
}.

(** ** Exceptions and the monad *)

Inductive Error :=
| except_osv (title message : string)
| engine_error (message : string).

(** The outcome of a call: a value or a raised exception, each with the
    store as it stands at that point. *)
Inductive Result (A : Type) :=
| Ok (a : A) (s : Store)
| Raise (e : Error) (s : Store).
Arguments Ok {A} a s.
Arguments Raise {A} e s.

Definition M (A : Type) : Type := Store → Result A.

Definition ret {A} (a : A) : M A := λ s, Ok a s.
Definition bind {A B} (m : M A) (k : A → M B) : M B :=
  λ s, match m s with
       | Ok a s' => k a s'
       | Raise e s' => Raise e s'
       end.
Definition raise {A} (e : Error) : M A := λ s, Raise e s.
Definition gets {A} (f : Store → A) : M A := λ s, Ok (f s) s.
Definition modify (f : Store → Store) : M unit := λ s, Ok tt (f s).

Declare Scope orm_scope.
Delimit Scope orm_scope with orm.
Notation "x <- m ;; k" := (bind m (λ x, k))
  (at level 100, m at next level, right associativity) : orm_scope.
Notation "m ;;; k" := (bind m (λ _, k))
  (at level 100, right associativity) : orm_scope.
Open Scope orm_scope.

(** [for x in l: f x] *)
Fixpoint for_each {A} (l : list A) (f : A → M unit) : M unit :=
  match l with
  | [] => ret tt
  | x :: l' => f x ;;; for_each l' f
  end.

(** The store of a result, and whether it is a normal return. *)
Definition store_of {A} (r : Result A) : Store :=
  match r with Ok _ s => s | Raise _ s => s end.

(** ** Store updates *)

Definition set_activities (f : gmap Z Activity → gmap Z Activity) (s : Store) :=
  mkStore (f (activities s)) (records s) (patients s) (locations s) (poses s)
          (clock s) (journal s).
Definition set_records (f : gmap Z Data → gmap Z Data) (s : Store) :=
  mkStore (activities s) (f (records s)) (patients s) (locations s) (poses s)
          (clock s) (journal s).
Definition set_patients (f : gmap Z Patient → gmap Z Patient) (s : Store) :=
  mkStore (activities s) (records s) (f (patients s)) (locations s) (poses s)
          (clock s) (journal s).
Definition log (e : Event) (s : Store) :=
  mkStore (activities s) (records s) (patients s) (locations s) (poses s)
          (clock s) (journal s ++ [e]).

(** [record.field]: an unset field reads as [False]. *)
Definition fld (d : Data) (k : string) : Value := default None (d_fields d !! k).

(** [vals.get(k)] *)
Definition vals_get (vals : Vals) (k : string) : Value := default None (vals !! k).

(** [k in vals] *)
Definition has_key (vals : Vals) (k : string) : bool :=
  bool_decide (is_Some (vals !! k)).

(** [if v:] on an id or [False]: [False] and [0] are falsy. *)
Definition truthy (v : Value) : bool :=
  match v with Some z => bool_decide (z ≠ 0) | None => false end.

(** ['%s' % id] *)
Definition fmt_id (v : Value) : string :=
  match v with Some z => pretty z | None => "False" end.

(** ** The ORM tables *)

(** Rows of a table in ascending id order: the order of a [search] that
    names no other. *)
Definition id_asc {A} (x y : Z * A) : Prop := x.1 ≤ y.1.
Global Instance id_asc_dec {A} (x y : Z * A) : Decision (id_asc x y).
Proof. unfold id_asc. apply _. Defined.

Definition rows {A} (m : gmap Z A) : list (Z * A) :=
  merge_sort id_asc (map_to_list m).

(** [pool.search(domain)] *)
Definition search {A} (dom : Z → A → bool) (m : gmap Z A) : list (Z * A) :=
  filter (λ x, dom x.1 x.2 = true) (rows m).

(** [order='sequence desc'] *)
Definition sequence_desc (x y : Z * Activity) : Prop :=
  sequence y.2 ≤ sequence x.2.
Global Instance sequence_desc_dec x y : Decision (sequence_desc x y).
Proof. unfold sequence_desc. apply _. Defined.

(** A datetime column in descending order: NULL sorts first. *)
Definition date_desc (d1 d2 : Value) : Prop :=
  match d1, d2 with
  | None, _ => True
  | Some _, None => False
  | Some t1, Some t2 => t2 ≤ t1
  end.
Global Instance date_desc_dec d1 d2 : Decision (date_desc d1 d2).
Proof. destruct d1, d2; simpl; apply _. Defined.

(** [order='date_terminated desc, sequence desc'] *)
Definition date_terminated_desc_sequence_desc (x y : Z * Activity) : Prop :=
  if decide (date_terminated x.2 = date_terminated y.2)
  then sequence y.2 ≤ sequence x.2
  else date_desc (date_terminated x.2) (date_terminated y.2).
Global Instance date_terminated_desc_sequence_desc_dec x y :
  Decision (date_terminated_desc_sequence_desc x y).
Proof. unfold date_terminated_desc_sequence_desc. case_decide; apply _. Defined.

(** The payload row an activity owns through [data_ref]. *)
Definition payload (s : Store) (a : Activity) : option Data :=
  data_ref a ≫= λ rid, records s !! rid.

(** Modelled from the spec: the engine's code that keeps the activity-level
    [patient_id] and [location_id] columns is missing; a payload is
    exclusively owned by its activity, and the activity-level columns are
    read as the payload's. *)
Definition activity_field (s : Store) (a : Activity) (k : string) : Value :=
  payload s a ≫= λ d, fld d k.

(** [activity.parent_id.state] *)
Definition parent_state (s : Store) (a : Activity) : option State :=
  state <$> (parent_id a ≫= λ p, activities s !! p).

(** [record.state], the related column [activity_id.state] of a payload
    row; a row without activity has none. *)
Definition record_state (s : Store) (d : Data) : option State :=
  state <$> (fld d "activity_id" ≫= λ aid, activities s !! aid).

(** Modelled from the spec: the next value of [sequence].  The engine's
    numbering is missing; the spec orders completed movements "by descending
    sequence" to find the most recently completed one, so [sequence] is the
    running count of state switches. *)
Definition next_sequence (s : Store) : Z :=
  1 + map_fold (λ _ a acc, Z.max (sequence a) acc) 0 (activities s).

(** [location.patient_ids]: the patients whose current location it is. *)
Definition patient_ids (s : Store) (loc : Z) : list Z :=
  (search (λ _ p, bool_decide (current_location_id p = Some loc)) (patients s)).*1.

(** Modelled from the spec: [location_pool.get_closest_parent_id], the
    nearest ancestor of the location with the given usage, [False] when
    there is none.  The walk is bounded by the number of locations. *)
Fixpoint closest_parent (locs : gmap Z Location) (fuel : nat)
    (lid : Value) (u : string) : Value :=
  match fuel with
  | O => None
  | S fuel' =>
      match lid ≫= λ l, locs !! l with
      | None => None
      | Some l =>
          match loc_parent_id l ≫= λ p, (λ pl, (p, pl)) <$> locs !! p with
          | None => None
          | Some (p, pl) =>
              if bool_decide (usage pl = u) then Some p
              else closest_parent locs fuel' (Some p) u
          end
      end
  end.
Definition get_closest_parent_id (lid : Value) (u : string) : M Value :=
  gets (λ s, closest_parent (locations s) (size (locations s)) lid u).

(** Modelled from the spec: [location_pool.get_available_location_ids],
    the locations of one of the usages whose availability flag is set. *)
Definition get_available_location_ids (usages : list string) : M (list Z) :=
  gets (λ s, (search (λ _ l, bool_decide (usage l ∈ usages) && is_available l)
                     (locations s)).*1).

(** [datetime_utils.get_current_time(as_string=True)] *)
Definition get_current_time : M Z := gets clock.

(** ** ORM primitives *)

(** [activity_pool.browse(activity_id)]; a missing row raises. *)
Definition browse (aid : Z) : M Activity :=
  λ s, match activities s !! aid with
       | Some a => Ok a s
       | None => Raise (engine_error "MissingError") s
       end.

(** [pool.browse(record_id)] on a payload table. *)
Definition browse_record (rid : Z) : M Data :=
  λ s, match records s !! rid with
       | Some d => Ok d s
       | None => Raise (engine_error "MissingError") s
       end.

(** An id that has to be there: [False] where a record is dereferenced. *)
Definition the_id (v : Value) : M Z :=
  match v with
  | Some z => ret z
  | None => raise (engine_error "AttributeError")
  end.

(** [activity.data_ref.id], read from the store as it stands. *)
Definition data_ref_id (aid : Z) : M Z :=
  a <- browse aid ;; the_id (data_ref a).

(** [activity.data_ref.<k>], read from the store as it stands. *)
Definition data_field (aid : Z) (k : string) : M Value :=
  rid <- data_ref_id aid ;;
  d <- browse_record rid ;;
  ret (fld d k).

Definition apply_vals (vals : ActivityVals) (sq : Z) (a : Activity) : Activity :=
  mkActivity (data_model a)
             (default (state a) (v_state vals))
             (default (parent_id a) (v_parent_id vals))
             (default (creator_id a) (v_creator_id vals))
             (match v_state vals with Some _ => sq | None => sequence a end)
             (default (date_terminated a) (v_date_terminated vals))
             (default (data_ref a) (v_data_ref vals)).

(** [activity_pool.write(activity_id, vals)]; writing [state] takes the
    next sequence number. *)
Definition write_activity (aid : Z) (vals : ActivityVals) : M unit :=
  a <- browse aid ;;
  sq <- gets next_sequence ;;
  modify (log (EvWriteActivity aid vals)) ;;;
  modify (set_activities (insert aid (apply_vals vals sq a))).

(** [self.write(record_id, vals)] on a payload table. *)
Definition write_record (rid : Z) (vals : Vals) : M unit :=
  d <- browse_record rid ;;
  modify (log (EvWriteRecord rid vals)) ;;;
  modify (set_records (insert rid (mkData (d_model d) (vals ∪ d_fields d)))).

(** The ORM's own [create] on a payload table. *)
Definition create_record (m : DataModel) (vals : Vals) : M Z :=
  rid <- gets (λ s, fresh (dom (records s))) ;;
  modify (log (EvCreateRecord rid m)) ;;;
  modify (set_records (insert rid (mkData m vals))) ;;;
  ret rid.

(** [patient_pool.write(patient_id, {'current_location_id': location})] *)
Definition write_patient (pid : Value) (location : Value) : M unit :=
  p <- the_id pid ;;
  known <- gets (λ s, bool_decide (is_Some (patients s !! p))) ;;
  if known : bool then
    modify (log (EvWritePatient p location)) ;;;
    modify (set_patients (insert p (mkPatient location)))
  else raise (engine_error "MissingError").

(** ** The Activity Engine *)

Definition set_state (st : State) (sq : Z) (terminated : Value) (a : Activity) :=
  mkActivity (data_model a) st (parent_id a) (creator_id a) sq terminated
             (data_ref a).

(** Modelled from the spec: the base [submit] of [nh.activity.data], which
    is missing.  It refuses an activity that is already terminal, creates the
    payload row through the model's own [create] on the first submission and
    writes the values on it afterwards. *)
Definition base_submit (create : Vals → M Z) (aid : Z) (vals : Vals) : M unit :=
  a <- browse aid ;;
  if terminal (state a) then raise (engine_error "invalid transition: submit")
  else
    modify (log (EvBaseSubmit aid vals)) ;;;
    match data_ref a with
    | None =>
        rid <- create (<["activity_id" := Some aid]> vals) ;;
        write_activity aid
          (mkActivityVals None None None None (Some (Some rid)))
    | Some rid => write_record rid vals
    end.

(** Modelled from the spec: the base [start], [complete] and [cancel] of
    [nh.activity.data], which are missing.  Each checks that the transition
    is valid, switches the state and timestamps the termination.  Nothing
    leaves the cancelled state, and a completed activity can only be
    cancelled: the spec has a completed discharge cancelled. *)
Definition base_start (aid : Z) : M unit :=
  a <- browse aid ;;
  if terminal (state a) || bool_decide (state a = started)
  then raise (engine_error "invalid transition: start")
  else
    sq <- gets next_sequence ;;
    modify (log (EvBaseStart aid)) ;;;
    modify (set_activities (insert aid (set_state started sq (date_terminated a) a))).

Definition base_complete (aid : Z) : M unit :=
  a <- browse aid ;;
  if terminal (state a) then raise (engine_error "invalid transition: complete")
  else
    sq <- gets next_sequence ;;
    now <- get_current_time ;;
    modify (log (EvBaseComplete aid)) ;;;
    modify (set_activities (insert aid (set_state completed sq (Some now) a))).

Definition base_cancel (aid : Z) : M unit :=
  a <- browse aid ;;
  if bool_decide (state a = cancelled)
  then raise (engine_error "invalid transition: cancel")
  else
    sq <- gets next_sequence ;;
    now <- get_current_time ;;
    modify (log (EvBaseCancel aid)) ;;;
    modify (set_activities (insert aid (set_state cancelled sq (Some now) a))).

(** Modelled from the spec: [trigger_policy], a hook the workflows call and
    whose result they ignore. *)
Definition trigger_policy (aid : Z) (location : Value) : M unit :=
  modify (log (EvTriggerPolicy aid location)).

(** Modelled from the spec: [create_activity] of [nh.activity.data], which
    is missing: a new activity of the model in its initial state, with the
    payload submitted to it when there is one. *)
Definition create_activity (activity_pool_submit : Z → Vals → M unit)
    (m : DataModel) (parent creator : Value) (vals_data : Vals) : M Z :=
  aid <- gets (λ s, fresh (dom (activities s))) ;;
  modify (log (EvCreateActivity aid m)) ;;;
  modify (set_activities
            (insert aid (mkActivity m draft parent creator 0 None None))) ;;;
  (if bool_decide (vals_data = ∅) then ret tt
   else activity_pool_submit aid vals_data) ;;;
  ret aid.

(** ** The Spell registry *)

(** The spells of a patient that are open: neither completed nor
    cancelled. *)
Definition open_spells (s : Store) (patient_id : Value) : list Z :=
  (search (λ _ d, bool_decide (d_model d = spell)
                  && bool_decide (fld d "patient_id" = patient_id)
                  && match record_state s d with
                     | Some st => negb (terminal st)
                     | None => false
                     end) (records s)).*1.

(** Modelled from the spec: [spell_pool.get_by_patient_id], which is
    missing.  It returns the patient's open spell; the flag [exception] is
    ['True'] (raise when one is found), ['False'] (raise when none is) or
    unset, as it is for [get_last]. *)
Definition get_by_patient_id (patient_id : Value) (exception : option bool)
    : M Value :=
  spell_ids <- gets (λ s, open_spells s patient_id) ;;
  match exception, spell_ids with
  | Some true, _ :: _ =>
      raise (except_osv "Patient Already Admitted!"
               ("Patient with id " +:+ fmt_id patient_id +:+ " is already admitted"))
  | Some false, [] =>
      raise (except_osv "Spell Not Found!"
               ("There is no open spell for patient with id " +:+ fmt_id patient_id))
  | _, _ => ret (head spell_ids)
  end.

(** ** [nh.clinical.patient.move] *)

Module nh_clinical_patient_move.
Section with_pool.
(** [activity_pool.submit], which dispatches on the activity's model. *)
Variable activity_pool_submit : Z → Vals → M unit.

Definition completed_moves (s : Store) (patient_id : Value) : list (Z * Activity) :=
  merge_sort sequence_desc
    (search (λ _ a, bool_decide (data_model a = patient_move)
                    && bool_decide (state a = completed)
                    && bool_decide (activity_field s a "patient_id" = patient_id))
            (activities s)).

Definition submit (activity_id : Z) (vals : Vals) : M unit :=
  let data := vals in
  (if has_key vals "patient_id" && negb (has_key vals "parent_id") then
     spell_id <- get_by_patient_id (vals_get vals "patient_id") None ;;
     match spell_id with
     | Some sid =>
         sp <- browse_record sid ;;
         write_activity activity_id
           (mkActivityVals (Some (fld sp "activity_id")) None None None None)
     | None => ret tt
     end
   else ret tt) ;;;
  base_submit (create_record patient_move) activity_id data.

Definition complete (activity_id : Z) : M unit :=
  activity <- browse activity_id ;;
  location <- gets (λ s, activity_field s activity "location_id") ;;
  match location with
  | None =>
      raise (except_osv "Patient Move Error!" "There is no destination location!")
  | Some _ =>
      patient <- gets (λ s, activity_field s activity "patient_id") ;;
      last_movement_id <- gets (λ s, (completed_moves s patient).*1) ;;
      location_id <- match head last_movement_id with
                     | Some last_movement => data_field last_movement "location_id"
                     | None => ret None
                     end ;;
      rid <- data_ref_id activity_id ;;
      write_record rid {[ "from_location_id" := location_id ]} ;;;
      pid <- data_field activity_id "patient_id" ;;
      dest <- data_field activity_id "location_id" ;;
      write_patient pid dest ;;;
      match parent_id activity with
      | Some parent =>
          dest <- data_field activity_id "location_id" ;;
          activity_pool_submit parent {[ "location_id" := dest ]}
      | None => ret tt
      end ;;;
      move_datetime <- data_field activity_id "move_datetime" ;;
      match move_datetime with
      | None =>
          now <- get_current_time ;;
          rid <- data_ref_id activity_id ;;
          write_record rid {[ "move_datetime" := Some now ]}
      | Some _ => ret tt
      end ;;;
      base_complete activity_id
  end.
End with_pool.
End nh_clinical_patient_move.

(** [location.name] and [location.usage]; nothing to read on an empty
  record. *)
Definition location_name (s : Store) (lid : Z) : string :=
default "" (loc_name <$> locations s !! lid).
Definition location_usage (s : Store) (lid : Value) : option string :=
usage <$> (lid ≫= λ l, locations s !! l).
Definition location_is_available (s : Store) (lid : Value) : bool :=
default false (is_available <$> (lid ≫= λ l, locations s !! l)).

(** [spell.activity_id.id] of the spell with the given id, [False] on an
  empty record. *)
Definition spell_activity_id (spell_id : Value) : M Value :=
match spell_id with
| Some sid => sp <- browse_record sid ;; ret (fld sp "activity_id")
| None => ret None
end.

(** [records[0]] *)
Definition first {A} (l : list A) : M A :=
match l with
| x :: _ => ret x
| [] => raise (engine_error "IndexError")
end.

(** ** [nh.clinical.patient.swap_beds] *)

Module nh_clinical_patient_swap_beds.
Section with_pool.
Variable activity_pool_submit : Z → Vals → M unit.
Variable activity_pool_complete : Z → M unit.

Definition check_occupied (location : Value) : M unit :=
  match location with
  | Some l =>
      occupants <- gets (λ s, patient_ids s l) ;;
      match occupants with
      | [] =>
          name <- gets (λ s, location_name s l) ;;
          raise (except_osv "Swap Patients Error!"
                   ("No patient in location " +:+ name))
      | _ :: _ => ret tt
      end
  | None => ret tt
  end.

Definition submit (activity_id : Z) (vals : Vals) : M unit :=
  base_submit (create_record patient_swap_beds) activity_id vals ;;;
  location1 <- data_field activity_id "location1_id" ;;
  location2 <- data_field activity_id "location2_id" ;;
  check_occupied location1 ;;;
  check_occupied location2 ;;;
  ward1_id <- get_closest_parent_id location1 "ward" ;;
  ward2_id <- get_closest_parent_id location2 "ward" ;;
  if bool_decide (ward1_id ≠ ward2_id) then
    raise (except_osv "Swap Patients Error!"
             "Trying to swap locations from different wards, should be using transfer instead")
  else ret tt.

Definition occupant (location : Value) : M Z :=
  occupants <- gets (λ s, match location with
                          | Some l => patient_ids s l
                          | None => []
                          end) ;;
  first occupants.

Definition complete (activity_id : Z) : M unit :=
  location1 <- data_field activity_id "location1_id" ;;
  location2 <- data_field activity_id "location2_id" ;;
  patient1 <- occupant location1 ;;
  patient2 <- occupant location2 ;;
  spell1_id <- get_by_patient_id (Some patient1) None ;;
  spell2_id <- get_by_patient_id (Some patient2) None ;;
  parent1 <- spell_activity_id spell1_id ;;
  move1_id <- create_activity activity_pool_submit patient_move
                parent1 (Some activity_id)
                (<["location_id" := location2]> {[ "patient_id" := Some patient1 ]}) ;;
  parent2 <- spell_activity_id spell2_id ;;
  move2_id <- create_activity activity_pool_submit patient_move
                parent2 (Some activity_id)
                (<["location_id" := location1]> {[ "patient_id" := Some patient2 ]}) ;;
  activity_pool_complete move1_id ;;;
  activity_pool_complete move2_id ;;;
  base_complete activity_id.
End with_pool.
End nh_clinical_patient_swap_beds.

(** ** [nh.clinical.patient.placement] *)

Module NhClinicalPatientPlacement.

(** The placements of a patient that are neither completed nor
    cancelled. *)
Definition open_placements (s : Store) (patient_id : Value) : list (Z * Data) :=
  search (λ _ d, bool_decide (d_model d = patient_placement)
                 && bool_decide (fld d "patient_id" = patient_id)
                 && match record_state s d with
                    | Some st => negb (terminal st)
                    | None => false
                    end) (records s).

(** [placement.cancel(placement.activity_id.id)]: the model does not
    override [cancel]. *)
Definition cancel (activity_id : Z) : M unit := base_cancel activity_id.

Definition cancel_open_placements (patient_id : Value)
    (placement_to_keep_open : option Z) : M unit :=
  placements <- gets (λ s, (open_placements s patient_id).*1) ;;
  let placements :=
    match placement_to_keep_open with
    | Some keep => filter (λ p, p ≠ keep) placements
    | None => placements
    end in
  for_each placements (λ placement,
    d <- browse_record placement ;;
    aid <- the_id (fld d "activity_id") ;;
    cancel aid).

Definition create (vals : Vals) : M Z :=
  new_placement <- create_record patient_placement vals ;;
  match vals !! "patient_id" with
  | Some patient_id =>
      cancel_open_placements patient_id (Some new_placement) ;;;
      ret new_placement
  | None => raise (engine_error "KeyError")
  end.

Section with_pool.
Variable activity_pool_submit : Z → Vals → M unit.
Variable activity_pool_complete : Z → M unit.

Definition complete (activity_id : Z) : M unit :=
  location <- data_field activity_id "location_id" ;;
  match location with
  | None =>
      raise (except_osv "Placement Error!"
               "Placement cannot be completed without location")
  | Some _ =>
      base_complete activity_id ;;;
      patient_id <- data_field activity_id "patient_id" ;;
      location_id <- data_field activity_id "location_id" ;;
      spell_id <- get_by_patient_id patient_id None ;;
      match spell_id with
      | None =>
          raise (except_osv "Placement Error!"
                   ("No open spell found for patient_id " +:+ fmt_id patient_id))
      | Some _ =>
          spell_activity <- spell_activity_id spell_id ;;
          move_activity_id <- create_activity activity_pool_submit patient_move
                                spell_activity (Some activity_id)
                                (<["patient_id" := patient_id]>
                                   {[ "location_id" := location_id ]}) ;;
          activity_pool_complete move_activity_id ;;;
          spell_aid <- the_id spell_activity ;;
          activity_pool_submit spell_aid {[ "location_id" := location_id ]} ;;;
          trigger_policy activity_id location_id
      end
  end.
End with_pool.

Definition submit (activity_id : Z) (vals : Vals) : M unit :=
  (if truthy (vals_get vals "location_id") then
     available_ids <- get_available_location_ids ["bed"] ;;
     match vals_get vals "location_id" with
     | Some l =>
         if bool_decide (l ∈ available_ids) then ret tt
         else raise (except_osv "Patient Placement Error!"
                       ("Location id=" +:+ pretty l +:+ " is not available"))
     | None => ret tt
     end
   else ret tt) ;;;
  base_submit create activity_id vals.

(** [get_activity_location_id]: the location where the patient waits to
    be placed. *)
Definition get_activity_location_id (activity_id : Z) : M Value :=
  data_field activity_id "suggested_location_id".

(** One dictionary of [_form_description]; the key [selection] is absent
    until [get_form_description] sets it. *)
Record FormField := mkFormField {
  field_name : string;
  field_type : string;
  field_label : string;
  initially_hidden : bool;
  selection : option (list (Z * string))
}.

(** The dictionaries of the class attribute [_form_description] are
    objects shared by every list that holds them: they are kept in a
    store of their own, and a list of dictionaries is a list of
    references (positions) into it. *)
Definition Forms := list FormField.

Definition form_description : Forms :=
  [mkFormField "location_id" "selection" "Location" false None].

(** [field['selection'] = location_selection] *)
Definition set_selection (f : FormField) (sel : list (Z * string)) : FormField :=
  mkFormField (field_name f) (field_type f) (field_label f)
              (initially_hidden f) (Some sel).


(** [('parent_id', 'child_of', root)] on locations: on a many2one to the
    model itself the ORM reads the leaf as [('id', 'child_of', root)], the
    ids of [root] and of everything below it through [parent_id].  A
    location matches when the walk up from the location itself reaches
    [root]; the walk visits each location at most once.  The column
    [suggested_location_id] is required; on an empty record nothing is
    listed. *)
Fixpoint reaches (locs : gmap Z Location) (fuel : nat) (root : Z) (l : Value) : bool :=
  match fuel with
  | O => false
  | S fuel =>
      match l with
      | None => false
      | Some i =>
          if bool_decide (i = root) then true
          else match locs !! i with
               | Some loc => reaches locs fuel root (loc_parent_id loc)
               | None => false
               end
      end
  end.
Definition child_of (locs : gmap Z Location) (root l : Value) : bool :=
  match root with
  | Some r => reaches locs (S (size locs)) r l
  | None => false
  end.

(** Modelled from the spec: [placement.location_id], the activity-level
    column the missing engine keeps for a placement, is read as what
    [get_activity_location_id] gives. The class attribute's dictionaries
    come in and go out beside the store. *)
Definition get_form_description (patient_id : Z) (dicts : Forms)
    : M (list nat * Forms) :=
  let form_desc := seq 0 (length dicts) in
  placement_ids <-
    gets (λ s, (reverse
                  (search (λ _ a,
                     bool_decide (activity_field s a "patient_id" = Some patient_id)
                     && negb (terminal (state a))
                     && bool_decide (data_model a = patient_placement))
                     (activities s))).*1) ;;
  location_selection <-
    match placement_ids with
    | placement :: _ =>
        root <- get_activity_location_id placement ;;
        location_ids <-
          gets (λ s, (search (λ i l,
                        bool_decide (usage l = "bed")
                        && child_of (locations s) root (Some i)
                        && is_available l) (locations s)).*1) ;;
        gets (λ s, (λ l, (l, location_name s l)) <$> location_ids)
    | [] => ret []
    end ;;
  ret (form_desc,
       foldl (λ dicts field,
                match dicts !! field with
                | Some f =>
                    if bool_decide (field_name f = "location_id")
                    then <[field := set_selection f location_selection]> dicts
                    else dicts
                | None => dicts
                end) dicts form_desc).

End NhClinicalPatientPlacement.

(** ** [nh.clinical.patient.admission] *)

Module nh_clinical_patient_admission.

Definition submit (activity_id : Z) (vals : Vals) : M unit :=
  match vals !! "patient_id" with
  | Some patient_id =>
      _ <- get_by_patient_id patient_id (Some true) ;; ret tt
  | None =>
      raise (except_osv "Admission Error!" "Patient required for admission!")
  end ;;;
  base_submit (create_record patient_admission) activity_id vals.

(** The completed admissions of a patient whose parent is [started],
    latest first. *)
Definition active_admissions (s : Store) (patient_id : Value) : list (Z * Activity) :=
  merge_sort date_terminated_desc_sequence_desc
    (search (λ _ a, bool_decide (activity_field s a "patient_id" = patient_id)
                    && bool_decide (data_model a = patient_admission)
                    && bool_decide (state a = completed)
                    && bool_decide (parent_state s a = Some started))
            (activities s)).

Definition get_last (patient_id : Value) (exception : option bool) : M Value :=
  admission_ids <- gets (λ s, (active_admissions s patient_id).*1) ;;
  match exception, admission_ids with
  | Some true, _ :: _ =>
      raise (except_osv "Patient Already Admitted!"
               ("There is already an active admission for patient with id "
                  +:+ fmt_id patient_id))
  | Some false, [] =>
      raise (except_osv "Admission Not Found!"
               ("There is no active admission for patient with id "
                  +:+ fmt_id patient_id))
  | _, _ => ret (head admission_ids)
  end.

Section with_pool.
Variable activity_pool_submit : Z → Vals → M unit.
Variable activity_pool_complete : Z → M unit.

(** The doctor reference sets of the admission are not part of the store
    and are left out of the spell's values. *)
Definition complete (activity_id : Z) : M unit :=
  base_complete activity_id ;;;
  patient_id <- data_field activity_id "patient_id" ;;
  location_id <- data_field activity_id "location_id" ;;
  pos_id <- data_field activity_id "pos_id" ;;
  code <- data_field activity_id "code" ;;
  start_date <- data_field activity_id "start_date" ;;
  spell_activity_id <- create_activity activity_pool_submit spell
                         None (Some activity_id)
                         (<["patient_id" := patient_id]>
                            (<["location_id" := location_id]>
                               (<["pos_id" := pos_id]>
                                  (<["code" := code]>
                                     {[ "start_date" := start_date ]})))) ;;
  base_start spell_activity_id ;;;
  write_activity activity_id
    (mkActivityVals (Some (Some spell_activity_id)) None None None None) ;;;
  patient_id <- data_field activity_id "patient_id" ;;
  location_id <- data_field activity_id "location_id" ;;
  start_date <- data_field activity_id "start_date" ;;
  move_activity_id <- create_activity activity_pool_submit patient_move
                        (Some spell_activity_id) (Some activity_id)
                        (<["patient_id" := patient_id]>
                           (<["location_id" := location_id]>
                              {[ "move_datetime" := start_date ]})) ;;
  activity_pool_complete move_activity_id ;;;
  location_id <- data_field activity_id "location_id" ;;
  trigger_policy activity_id location_id.
End with_pool.
End nh_clinical_patient_admission.

(** ** [nh.clinical.patient.discharge] *)

Module nh_clinical_patient_discharge.

Definition submit (activity_id : Z) (vals : Vals) : M unit :=
  match vals !! "patient_id" with
  | Some patient_id =>
      spell_id <- get_by_patient_id patient_id (Some false) ;;
      sid <- the_id spell_id ;;
      sp <- browse_record sid ;;
      let data := <["location_id" := fld sp "location_id"]> vals in
      parent <- spell_activity_id spell_id ;;
      write_activity activity_id
        (mkActivityVals (Some parent) None None None None) ;;;
      base_submit (create_record patient_discharge) activity_id data
  | None =>
      raise (except_osv "Discharge Error!" "Patient required for discharge!")
  end.

(** The completed discharges of a patient whose parent is [completed],
    latest first. *)
Definition completed_discharges (s : Store) (patient_id : Value) : list (Z * Activity) :=
  merge_sort date_terminated_desc_sequence_desc
    (search (λ _ a, bool_decide (activity_field s a "patient_id" = patient_id)
                    && bool_decide (data_model a = patient_discharge)
                    && bool_decide (state a = completed)
                    && bool_decide (parent_state s a = Some completed))
            (activities s)).

Definition get_last (patient_id : Value) (exception : option bool) : M Value :=
  discharge_ids <- gets (λ s, (completed_discharges s patient_id).*1) ;;
  match exception, discharge_ids with
  | Some true, _ :: _ =>
      raise (except_osv "Patient Already Discharged!"
               ("Patient with id " +:+ fmt_id patient_id
                  +:+ " has already been discharged"))
  | Some false, [] =>
      raise (except_osv "Discharge Not Found!"
               ("There is no completed discharge for patient with id "
                  +:+ fmt_id patient_id))
  | _, _ => ret (head discharge_ids)
  end.

(** The code of the discharge location. *)
Definition discharge_location_code : string := "GDL0987654321".

Section with_pool.
Variable activity_pool_submit : Z → Vals → M unit.
Variable activity_pool_complete : Z → M unit.

(** [activity.parent_id.data_ref.pos_id.location_id.id] *)
Definition pos_default_location (activity_id : Z) : M Value :=
  activity <- browse activity_id ;;
  parent <- the_id (parent_id activity) ;;
  pos_id <- data_field parent "pos_id" ;;
  gets (λ s, pos_id ≫= λ p, poses s !! p ≫= pos_location_id).

Definition complete (activity_id : Z) : M unit :=
  base_complete activity_id ;;;
  activity <- browse activity_id ;;
  discharge_location_id <-
    gets (λ s, (search (λ _ l, bool_decide (loc_code l = discharge_location_code))
                       (locations s)).*1) ;;
  loc_id <- match discharge_location_id with
            | l :: _ => ret (Some l)
            | [] => pos_default_location activity_id
            end ;;
  patient_id <- data_field activity_id "patient_id" ;;
  discharge_date <- data_field activity_id "discharge_date" ;;
  move_activity_id <- create_activity activity_pool_submit patient_move
                        (parent_id activity) (Some activity_id)
                        (<["patient_id" := patient_id]>
                           (<["location_id" := loc_id]>
                              {[ "move_datetime" := discharge_date ]})) ;;
  activity_pool_complete move_activity_id ;;;
  parent <- the_id (parent_id activity) ;;
  activity_pool_complete parent ;;;
  discharge_date <- data_field activity_id "discharge_date" ;;
  match discharge_date with
  | Some _ =>
      write_activity parent
        (mkActivityVals None None None (Some discharge_date) None)
  | None => ret tt
  end.

Definition cancel (activity_id : Z) : M unit :=
  activity <- browse activity_id ;;
  patient_id <- data_field activity_id "patient_id" ;;
  _ <- nh_clinical_patient_admission.get_last patient_id (Some true) ;;
  base_cancel activity_id ;;;
  parent <- the_id (parent_id activity) ;;
  write_activity parent
    (mkActivityVals None None (Some started) (Some None) None) ;;;
  patient_id <- data_field activity_id "patient_id" ;;
  location_id <- data_field activity_id "location_id" ;;
  discharge_date <- data_field activity_id "discharge_date" ;;
  move_activity_id <- create_activity activity_pool_submit patient_move
                        (parent_id activity) (Some activity_id)
                        (<["patient_id" := patient_id]>
                           (<["location_id" := location_id]>
                              {[ "move_datetime" := discharge_date ]})) ;;
  location_id <- data_field activity_id "location_id" ;;
  usage_ <- gets (λ s, location_usage s location_id) ;;
  available <- gets (λ s, location_is_available s location_id) ;;
  if bool_decide (usage_ = Some "bed") && available then
    activity_pool_complete move_activity_id
  else
    ward_id <- (if bool_decide (usage_ ≠ Some "ward")
                then get_closest_parent_id location_id "ward"
                else ret location_id) ;;
    activity_pool_submit move_activity_id {[ "location_id" := ward_id ]} ;;;
    activity_pool_complete move_activity_id ;;;
    trigger_policy activity_id ward_id.
End with_pool.
End nh_clinical_patient_discharge.

(** ** [nh.activity]: dispatch on the activity's model *)

Module nh_activity.

(** [activity_pool.submit]: the [submit] of the activity's model.  The
    spell model is missing and takes the base [submit]. *)
Definition submit (activity_id : Z) (vals : Vals) : M unit :=
  activity <- browse activity_id ;;
  match data_model activity with
  | patient_move => nh_clinical_patient_move.submit activity_id vals
  | patient_swap_beds => nh_clinical_patient_swap_beds.submit activity_id vals
  | patient_placement => NhClinicalPatientPlacement.submit activity_id vals
  | patient_discharge => nh_clinical_patient_discharge.submit activity_id vals
  | patient_admission => nh_clinical_patient_admission.submit activity_id vals
  | spell => base_submit (create_record spell) activity_id vals
  end.

(** [activity_pool.complete]: the [complete] of the activity's model, which
    may complete further activities in turn; [depth] bounds the nesting of
    these calls, as the interpreter's recursion limit does. *)
Fixpoint complete (depth : nat) (activity_id : Z) : M unit :=
  match depth with
  | O => raise (engine_error "RuntimeError: maximum recursion depth exceeded")
  | S depth' =>
      activity <- browse activity_id ;;
      match data_model activity with
      | patient_move => nh_clinical_patient_move.complete submit activity_id
      | patient_swap_beds =>
          nh_clinical_patient_swap_beds.complete submit (complete depth') activity_id
      | patient_placement =>
          NhClinicalPatientPlacement.complete submit (complete depth') activity_id
      | patient_discharge =>
          nh_clinical_patient_discharge.complete submit (complete depth') activity_id
      | patient_admission =>
          nh_clinical_patient_admission.complete submit (complete depth') activity_id
      | spell => base_complete activity_id
      end
  end.

(** [activity_pool.cancel] of a discharge. *)
Definition cancel_discharge (depth : nat) (activity_id : Z) : M unit :=
  nh_clinical_patient_discharge.cancel submit (complete depth) activity_id.

End nh_activity.

(** * Specification-level definitions *)

Definition is_open_spell (s : Store) (patient_id : Value) (rid : Z) : Prop :=
  ∃ d aid a, records s !! rid = Some d ∧ d_model d = spell ∧
    fld d "patient_id" = patient_id ∧ fld d "activity_id" = Some aid ∧
    activities s !! aid = Some a ∧ terminal (state a) = false.

Definition linked (rid : Z) : ActivityVals :=
  mkActivityVals None None None None (Some (Some rid)).

Definition with_data_ref (rid : Z) (a : Activity) : Activity :=
  mkActivity (data_model a) (state a) (parent_id a) (creator_id a) (sequence a)
             (date_terminated a) (Some rid).

Definition submitted (m : DataModel) (aid : Z) (a : Activity) (vals : Vals) (s : Store) : Store :=
  match data_ref a with
  | None =>
      let rid := fresh (dom (records s)) in
      mkStore (<[aid := with_data_ref rid a]> (activities s))
              (<[rid := mkData m (<["activity_id" := Some aid]> vals)]> (records s))
              (patients s) (locations s) (poses s) (clock s)
              (journal s ++ [EvBaseSubmit aid vals; EvCreateRecord rid m;
                             EvWriteActivity aid (linked rid)])
  | Some rid =>
      mkStore (activities s)
              (alter (λ d, mkData (d_model d) (vals ∪ d_fields d)) rid (records s))
              (patients s) (locations s) (poses s) (clock s)
              (journal s ++ [EvBaseSubmit aid vals; EvWriteRecord rid vals])
  end.

Definition last_move_location (s : Store) (pidv : Value) : Value :=
  head (nh_clinical_patient_move.completed_moves s pidv) ≫=
    λ x, activity_field s x.2 "location_id".

Definition written (vals : Vals) (d : Data) : Data :=
  mkData (d_model d) (vals ∪ d_fields d).

Definition parent_ready (s : Store) (a : Activity) (rid : Z)
    (par : option (Z * Z * Data)) : Prop :=
  match par with
  | Some (P, rp, dp) =>
      parent_id a = Some P ∧ rp ≠ rid ∧
      ∃ ap, activities s !! P = Some ap ∧ data_model ap = spell ∧
            terminal (state ap) = false ∧ data_ref ap = Some rp ∧
            records s !! rp = Some dp
  | None => parent_id a = None
  end.

Definition move_completed (aid : Z) (a : Activity) (rid : Z) (d : Data)
    (pid dest : Z) (par : option (Z * Z * Data)) (s : Store) : Store :=
  let from := last_move_location s (Some pid) in
  let d1 := written {[ "from_location_id" := from ]} d in
  let r1 := <[rid := d1]> (records s) in
  let r2 := match par with
            | Some (P, rp, dp) => <[rp := written {[ "location_id" := Some dest ]} dp]> r1
            | None => r1
            end in
  let r3 := match fld d "move_datetime" with
            | None => <[rid := written {[ "move_datetime" := Some (clock s) ]} d1]> r2
            | Some _ => r2
            end in
  mkStore (<[aid := set_state completed (next_sequence s) (Some (clock s)) a]> (activities s))
          r3 (<[pid := mkPatient (Some dest)]> (patients s))
          (locations s) (poses s) (clock s)
          (journal s
             ++ [EvWriteRecord rid {[ "from_location_id" := from ]};
                 EvWritePatient pid (Some dest)]
             ++ match par with
                | Some (P, rp, _) =>
                    [EvBaseSubmit P {[ "location_id" := Some dest ]};
                     EvWriteRecord rp {[ "location_id" := Some dest ]}]
                | None => []
                end
             ++ match fld d "move_datetime" with
                | None => [EvWriteRecord rid {[ "move_datetime" := Some (clock s) ]}]
                | Some _ => []
                end
             ++ [EvBaseComplete aid]).

Definition is_completed_move (s : Store) (pid : Z) (i : Z) (a : Activity) : Prop :=
  activities s !! i = Some a ∧ data_model a = patient_move ∧
  state a = completed ∧ activity_field s a "patient_id" = Some pid.

Definition latest_completed_move (s : Store) (pid : Z) (l : Z) (la : Activity) : Prop :=
  is_completed_move s pid l la ∧
  ∀ i ai, is_completed_move s pid i ai → i ≠ l → sequence ai < sequence la.

(** [e1] is in the journal with [e2] after it. *)
Global Instance ActivityVals_eq_dec : EqDecision ActivityVals.
Proof. solve_decision. Defined.
Global Instance Event_eq_dec : EqDecision Event.
Proof. solve_decision. Defined.

Fixpoint precedes (e1 e2 : Event) (j : list Event) : bool :=
  match j with
  | [] => false
  | e :: j' => if decide (e = e1) then bool_decide (e2 ∈ j') else precedes e1 e2 j'
  end.

Definition parent_row (par : option (Z * Z * Data)) (r : Z) : Prop :=
  match par with Some (_, rp, _) => r = rp | None => False end.

(** The store once [create_activity] has made a movement with the values
    [vals], bound by [submit] to the spell activity [parent]. *)
Definition move_activity (parent creator : Value) (rid : Z) : Activity :=
  mkActivity patient_move draft parent creator 0 None (Some rid).

Definition move_row (aid : Z) (vals : Vals) : Data :=
  mkData patient_move (<["activity_id" := Some aid]> vals).

Definition move_created (parent creator : Value) (vals : Vals) (s : Store) : Store :=
  let aid := fresh (dom (activities s)) in
  let rid := fresh (dom (records s)) in
  mkStore (<[aid := move_activity parent creator rid]> (activities s))
          (<[rid := move_row aid vals]> (records s))
          (patients s) (locations s) (poses s) (clock s)
          (journal s
             ++ [EvCreateActivity aid patient_move;
                 EvWriteActivity aid (mkActivityVals (Some parent) None None None None);
                 EvBaseSubmit aid vals;
                 EvCreateRecord rid patient_move;
                 EvWriteActivity aid (linked rid)]).

(** The store with a new draft activity, as [create_activity] has it when it
    submits the payload. *)
Definition activity_created (m : DataModel) (parent creator : Value) (s : Store) : Store :=
  let aid := fresh (dom (activities s)) in
  mkStore (<[aid := mkActivity m draft parent creator 0 None None]> (activities s))
          (records s) (patients s) (locations s) (poses s) (clock s)
          (journal s ++ [EvCreateActivity aid m]).

(** Every payload row that names an activity names one that exists. *)
Definition rows_have_activities (s : Store) : Prop :=
  map_Forall (λ _ d, fld d "activity_id" = None
                     ∨ is_Some (fld d "activity_id" ≫= λ aid, activities s !! aid))
             (records s).

(** The locations that carry the code of the discharge location. *)
Definition discharge_location_ids (s : Store) : list Z :=
  (search (λ _ l, bool_decide (loc_code l = nh_clinical_patient_discharge.discharge_location_code))
          (locations s)).*1.

(** Where a discharge moves the patient: the discharge location, or without
    one the default location of the point of service of the spell row [dp]. *)
Definition discharge_destination (s : Store) (dp : Data) : Value :=
  match discharge_location_ids s with
  | l :: _ => Some l
  | [] => fld dp "pos_id" ≫= λ p, poses s !! p ≫= pos_location_id
  end.

(** A completed discharge of the patient whose parent is completed, and a
    completed admission of the patient whose parent is started: what the two
    [get_last] look for. *)
Definition is_completed_discharge (s : Store) (pidv : Value) (i : Z) (a : Activity) : Prop :=
  activities s !! i = Some a ∧ activity_field s a "patient_id" = pidv ∧
  data_model a = patient_discharge ∧ state a = completed ∧
  parent_state s a = Some completed.

Definition is_active_admission (s : Store) (pidv : Value) (i : Z) (a : Activity) : Prop :=
  activities s !! i = Some a ∧ activity_field s a "patient_id" = pidv ∧
  data_model a = patient_admission ∧ state a = completed ∧
  parent_state s a = Some started.

(** The body of the loop of [cancel_open_placements]. *)
Definition cancel_row (placement : Z) : M unit :=
  d <- browse_record placement ;;
  aid <- the_id (fld d "activity_id") ;;
  NhClinicalPatientPlacement.cancel aid.

(** ** A ward to run the operations on

    Ward A (1) holds bed 1 (2) and bed 2 (3); ward B (5) holds bed 3 (6),
    which is free; location 4 is the discharge location.  Patient 10 lies in
    bed 1 and patient 11 in bed 2, each with a started spell (activities 100
    and 101); patient 12 is known but not admitted. *)
(** [below locs root i]: the walk up from location [i] through the parents
    reaches [root]. *)
Inductive below (locs : gmap Z Location) (root : Z) : Z → Prop :=
| below_here : below locs root root
| below_up i loc p :
    locs !! i = Some loc → loc_parent_id loc = Some p →
    below locs root p → below locs root i.

(** [walk locs root n i]: the walk up from [i] first meets [root] after
    [n] steps. *)
Inductive walk (locs : gmap Z Location) (root : Z) : nat → Z → Prop :=
| walk_here : walk locs root 0 root
| walk_up n i loc p :
    i ≠ root → locs !! i = Some loc → loc_parent_id loc = Some p →
    walk locs root n p → walk locs root (S n) i.

(** A placement of the patient that is neither completed nor cancelled. *)
Definition is_open_placement_of (s : Store) (patient_id : Z) (a : Activity) : Prop :=
  data_model a = patient_placement ∧ state a ≠ completed ∧ state a ≠ cancelled
  ∧ activity_field s a "patient_id" = Some patient_id.

(** The patient's open placement with the highest id. *)
Definition latest_open_placement (s : Store) (patient_id pa : Z) (a : Activity) : Prop :=
  activities s !! pa = Some a ∧ is_open_placement_of s patient_id a
  ∧ ∀ pb b, activities s !! pb = Some b → is_open_placement_of s patient_id b →
            pb ≤ pa.

(** What [field['selection'] = sel] leaves in a dictionary of the class
    attribute. *)
Definition with_selection (sel : list (Z * string))
    (f : NhClinicalPatientPlacement.FormField) : NhClinicalPatientPlacement.FormField :=
  if bool_decide (NhClinicalPatientPlacement.field_name f = "location_id") then
    NhClinicalPatientPlacement.set_selection f sel
  else f.

Module Ward.

Definition fields (l : list (string * Value)) : Vals := list_to_map l.

Definition ward_locations : gmap Z Location :=
  list_to_map
    [(1, mkLocation "Ward A" "WA" "ward" None false);
     (2, mkLocation "Bed 1" "B1" "bed" (Some 1) false);
     (3, mkLocation "Bed 2" "B2" "bed" (Some 1) false);
     (4, mkLocation "Discharge Location" "GDL0987654321" "room" None true);
     (5, mkLocation "Ward B" "WB" "ward" None false);
     (6, mkLocation "Bed 3" "B3" "bed" (Some 5) true)].

Definition spell_of_10 : Activity := mkActivity spell started None None 1 None (Some 200).
Definition spell_of_11 : Activity := mkActivity spell started None None 2 None (Some 201).
Definition spell_row_10 : Data :=
  mkData spell (fields [("activity_id", Some 100); ("patient_id", Some 10);
                        ("location_id", Some 2); ("pos_id", Some 1)]).
Definition spell_row_11 : Data :=
  mkData spell (fields [("activity_id", Some 101); ("patient_id", Some 11);
                        ("location_id", Some 3); ("pos_id", Some 1)]).

(** A draft activity of a model, nothing submitted yet. *)
Definition blank (m : DataModel) : Activity :=
  mkActivity m draft None None 0 None None.

Definition ward : Store :=
  mkStore
    (list_to_map [(100, spell_of_10); (101, spell_of_11)])
    (list_to_map [(200, spell_row_10); (201, spell_row_11)])
    (list_to_map [(10, mkPatient (Some 2)); (11, mkPatient (Some 3));
                  (12, mkPatient None)])
    ward_locations
    (list_to_map [(1, mkPos (Some 1))])
    1000 [].

(** The ward with one more activity. *)
Definition with_activity (aid : Z) (a : Activity) (s : Store) : Store :=
  set_activities (insert aid a) s.
Definition with_record (rid : Z) (d : Data) (s : Store) : Store :=
  set_records (insert rid d) s.

(** A draft admission (activity 110). *)
Definition admitting : Store := with_activity 110 (blank patient_admission) ward.

(** A draft bed swap (activity 120). *)
Definition swapping : Store := with_activity 120 (blank patient_swap_beds) ward.

(** The swap of bed 1 and bed 2, submitted (activity 121, row 221). *)
Definition swap_121 : Activity :=
  mkActivity patient_swap_beds draft None None 0 None (Some 221).
Definition swap_row_221 : Data :=
  mkData patient_swap_beds
    (fields [("activity_id", Some 121); ("location1_id", Some 2);
             ("location2_id", Some 3)]).
Definition swap_submitted : Store :=
  with_record 221 swap_row_221 (with_activity 121 swap_121 ward).

(** A movement of patient 10 to the free bed 3, under the patient's
    spell, not yet completed (activity 104, row 204). *)
Definition move_104 : Activity :=
  mkActivity patient_move draft (Some 100) None 0 None (Some 204).
Definition move_row_204 : Data :=
  mkData patient_move (fields [("activity_id", Some 104); ("patient_id", Some 10);
                               ("location_id", Some 6)]).
Definition moving : Store :=
  with_record 204 move_row_204 (with_activity 104 move_104 ward).

(** The same with an earlier movement of patient 10 to bed 1, completed
    (activity 103, row 203). *)
Definition move_103 : Activity :=
  mkActivity patient_move completed (Some 100) None 3 (Some 900) (Some 203).
Definition move_row_203 : Data :=
  mkData patient_move (fields [("activity_id", Some 103); ("patient_id", Some 10);
                               ("location_id", Some 2); ("move_datetime", Some 900)]).
Definition moving_again : Store :=
  with_record 203 move_row_203 (with_activity 103 move_103 moving).

(** The discharge of patient 10, submitted under the patient's spell
    (activity 150, row 250). *)
Definition discharge_150 : Activity :=
  mkActivity patient_discharge draft (Some 100) None 0 None (Some 250).
Definition discharge_row_250 : Data :=
  mkData patient_discharge
    (fields [("activity_id", Some 150); ("patient_id", Some 10);
             ("location_id", Some 2); ("discharge_date", Some 900)]).
Definition discharging : Store :=
  with_record 250 discharge_row_250 (with_activity 150 discharge_150 ward).

(** A placement of patient 12, who has no spell, to bed 3 (activity 130,
    row 230). *)
Definition placement_130 : Activity :=
  mkActivity patient_placement draft None None 0 None (Some 230).
Definition placement_row_230 : Data :=
  mkData patient_placement
    (fields [("activity_id", Some 130); ("patient_id", Some 12);
             ("suggested_location_id", Some 5); ("location_id", Some 6)]).
Definition placing : Store :=
  with_record 230 placement_row_230 (with_activity 130 placement_130 ward).

(** Patient 10 with a placement that is still open (activity 131, row 231)
    and the activity of a new one (132). *)
Definition placement_131 : Activity :=
  mkActivity patient_placement draft (Some 100) None 0 None (Some 231).
Definition placement_row_231 : Data :=
  mkData patient_placement
    (fields [("activity_id", Some 131); ("patient_id", Some 10);
             ("suggested_location_id", Some 1)]).
Definition placing_again : Store :=
  with_activity 132 (blank patient_placement)
    (with_record 231 placement_row_231 (with_activity 131 placement_131 ward)).
Definition new_placement_vals : Vals :=
  fields [("activity_id", Some 132); ("patient_id", Some 10);
          ("suggested_location_id", Some 1)].

(** Patient 10 after a second visit: both spells (140, 100) are completed,
    each with its completed discharge (141, 143), and the patient is at the
    discharge location. *)
Definition discharge_row (aid : Z) : Data :=
  mkData patient_discharge
    (fields [("activity_id", Some aid); ("patient_id", Some 10);
             ("location_id", Some 2); ("discharge_date", Some 900)]).
Definition discharge_143 : Activity :=
  mkActivity patient_discharge completed (Some 100) None 4 (Some 900) (Some 243).
Definition discharged_twice : Store :=
  mkStore
    (list_to_map
       [(140, mkActivity spell completed None None 2 (Some 500) (Some 240));
        (141, mkActivity patient_discharge completed (Some 140) None 1 (Some 500)
                (Some 241));
        (100, mkActivity spell completed None None 5 (Some 900) (Some 200));
        (143, discharge_143)])
    (list_to_map
       [(240, mkData spell (fields [("activity_id", Some 140); ("patient_id", Some 10);
                                    ("location_id", Some 4); ("pos_id", Some 1)]));
        (241, discharge_row 141);
        (200, mkData spell (fields [("activity_id", Some 100); ("patient_id", Some 10);
                                    ("location_id", Some 4); ("pos_id", Some 1)]));
        (243, discharge_row 143)])
    (list_to_map [(10, mkPatient (Some 4))])
    ward_locations
    (list_to_map [(1, mkPos (Some 1))])
    1000 [].

(** Patient 10 in the ward with the completed admission of the running
    spell (activity 145) and a discharge that was submitted (activity 146). *)
Definition admission_145 : Activity :=
  mkActivity patient_admission completed (Some 100) None 3 (Some 100) (Some 245).
Definition discharge_146 : Activity :=
  mkActivity patient_discharge draft (Some 100) None 0 None (Some 246).
Definition admitted : Store :=
  with_record 246 (discharge_row 146)
    (with_activity 146 discharge_146
       (with_record 245 (mkData patient_admission
                           (fields [("activity_id", Some 145); ("patient_id", Some 10);
                                    ("location_id", Some 1); ("pos_id", Some 1)]))
          (with_activity 145 admission_145 ward))).

(** A movement of patient 10 with no destination (activity 105, row 205). *)
Definition move_105 : Activity :=
  mkActivity patient_move draft (Some 100) None 0 None (Some 205).
Definition move_row_205 : Data :=
  mkData patient_move (fields [("activity_id", Some 105); ("patient_id", Some 10)]).
Definition moving_nowhere : Store :=
  with_record 205 move_row_205 (with_activity 105 move_105 ward).

(** The swap of bed 1 with the free bed 3 (activity 122, row 222). *)
Definition swap_122 : Activity :=
  mkActivity patient_swap_beds draft None None 0 None (Some 222).
Definition swap_row_222 : Data :=
  mkData patient_swap_beds
    (fields [("activity_id", Some 122); ("location1_id", Some 2);
             ("location2_id", Some 6)]).
Definition swap_with_free_bed : Store :=
  with_record 222 swap_row_222 (with_activity 122 swap_122 ward).

(** A placement of patient 10 to the free bed 3, ready to be completed
    (activity 133, row 233). *)
Definition placement_133 : Activity :=
  mkActivity patient_placement draft (Some 100) None 0 None (Some 233).
Definition placement_row_233 : Data :=
  mkData patient_placement
    (fields [("activity_id", Some 133); ("patient_id", Some 10);
             ("suggested_location_id", Some 5); ("location_id", Some 6)]).
Definition placing_admitted : Store :=
  with_record 233 placement_row_233 (with_activity 133 placement_133 ward).

(** Two occupied beds of the discharge lounge, a room under no ward
    (locations 7 and 8 under room 4), with the draft swap 120. *)
Definition lounge_locations : gmap Z Location :=
  <[7 := mkLocation "Bed 4" "B4" "bed" (Some 4) false]>
    (<[8 := mkLocation "Bed 5" "B5" "bed" (Some 4) false]> ward_locations).
Definition swapping_in_lounge : Store :=
  mkStore (activities swapping) (records swapping)
    (list_to_map [(10, mkPatient (Some 7)); (11, mkPatient (Some 8))])
    lounge_locations (poses swapping) 1000 [].

(** Patient 10 discharged from bed 3, which is free (discharge 147, row 247,
    under the completed spell 100). *)
Definition discharge_147 : Activity :=
  mkActivity patient_discharge completed (Some 100) None 4 (Some 900) (Some 247).
Definition discharge_row_247 : Data :=
  mkData patient_discharge
    (fields [("activity_id", Some 147); ("patient_id", Some 10);
             ("location_id", Some 6); ("discharge_date", Some 900)]).
Definition closed_spell_100 : Activity :=
  mkActivity spell completed None None 5 (Some 900) (Some 200).
Definition closed_spell_row_200 : Data :=
  mkData spell (fields [("activity_id", Some 100); ("patient_id", Some 10);
                        ("location_id", Some 4); ("pos_id", Some 1)]).
Definition discharged_from_free_bed : Store :=
  mkStore
    (list_to_map [(100, closed_spell_100); (147, discharge_147)])
    (list_to_map [(200, closed_spell_row_200); (247, discharge_row_247)])
    (list_to_map [(10, mkPatient (Some 4))])
    ward_locations
    (list_to_map [(1, mkPos (Some 1))])
    1000 [].

(** A placement of patient 11 whose suggested location is the free bed 3
    itself (activity 134, row 234). *)
Definition placement_134 : Activity :=
  mkActivity patient_placement draft (Some 101) None 0 None (Some 234).
Definition placement_row_234 : Data :=
  mkData patient_placement
    (fields [("activity_id", Some 134); ("patient_id", Some 11);
             ("suggested_location_id", Some 6)]).
Definition placing_at_bed : Store :=
  with_record 234 placement_row_234 (with_activity 134 placement_134 ward).

End Ward.

(** * Properties *)

Global Instance id_asc_total {A} : Total (@id_asc A).
Proof. intros x y. unfold id_asc. lia. Qed.

Lemma elem_of_rows {A} (m : gmap Z A) i a : (i, a) ∈ rows m ↔ m !! i = Some a.
Proof.
  unfold rows. rewrite merge_sort_Permutation. apply elem_of_map_to_list.
Qed.

Lemma NoDup_rows {A} (m : gmap Z A) : NoDup (rows m).*1.
Proof.
  unfold rows. rewrite merge_sort_Permutation. apply NoDup_fst_map_to_list.
Qed.

Lemma elem_of_search {A} (dom : Z → A → bool) (m : gmap Z A) i a :
  (i, a) ∈ search dom m ↔ m !! i = Some a ∧ dom i a = true.
Proof.
  unfold search. rewrite list_elem_of_filter, elem_of_rows. simpl. tauto.
Qed.

Lemma NoDup_search {A} (dom : Z → A → bool) (m : gmap Z A) : NoDup (search dom m).*1.
Proof.
  unfold search. generalize (NoDup_rows m). generalize (rows m). intros l.
  induction l as [|[i a] l IH]; simpl; [constructor|].
  intros Hnd. apply NoDup_cons in Hnd as [Hi Hnd].
  rewrite filter_cons. simpl. case_decide; [|auto].
  simpl. apply NoDup_cons. split; [|auto].
  intros Hin. apply Hi. apply list_elem_of_fmap in Hin as [[j b] [-> Hin]].
  apply list_elem_of_fmap. exists (j, b). split; [done|].
  apply list_elem_of_filter in Hin. tauto.
Qed.

Lemma search_nil {A} (dom : Z → A → bool) (m : gmap Z A) :
  search dom m = [] ↔ ∀ i a, m !! i = Some a → dom i a = false.
Proof.
  split.
  - intros Hnil i a Hi. destruct (dom i a) eqn:Hd; [|done].
    assert ((i, a) ∈ search dom m) as Hin by (by apply elem_of_search).
    rewrite Hnil in Hin. by apply elem_of_nil in Hin.
  - intros Hall. destruct (search dom m) as [|[i a] l] eqn:Hs; [done|].
    assert ((i, a) ∈ search dom m) as Hin by (rewrite Hs; left).
    apply elem_of_search in Hin as [Hi Hd]. rewrite (Hall _ _ Hi) in Hd. done.
Qed.

Lemma elem_of_open_spells s pid rid :
  rid ∈ open_spells s pid ↔ is_open_spell s pid rid.
Proof.
  unfold open_spells, is_open_spell. rewrite list_elem_of_fmap. split.
  - intros [[i d] [-> Hin]]. apply elem_of_search in Hin as [Hi Hd]. simpl.
    rewrite !andb_true_iff, !bool_decide_eq_true in Hd. destruct Hd as [[Hm Hp] Hst].
    unfold record_state in Hst.
    destruct (fld d "activity_id") as [aid|] eqn:Haid; simpl in Hst; [|done].
    destruct (activities s !! aid) as [a|] eqn:Ha; simpl in Hst; [|done].
    exists d, aid, a. by rewrite negb_true_iff in Hst.
  - intros (d & aid & a & Hr & Hm & Hp & Haid & Ha & Hst).
    exists (rid, d). split; [done|]. apply elem_of_search. split; [done|].
    rewrite !andb_true_iff, !bool_decide_eq_true. unfold record_state.
    rewrite Haid. simpl. rewrite Ha. simpl. by rewrite Hst.
Qed.

Lemma admission_submit_no_patient s aid (vals : Vals) :
  vals !! "patient_id" = None →
  nh_clinical_patient_admission.submit aid vals s
  = Raise (except_osv "Admission Error!" "Patient required for admission!") s.
Proof.
  intros Hv. unfold nh_clinical_patient_admission.submit. rewrite Hv. done.
Qed.

Lemma get_by_patient_id_true_found s pid rid :
  is_open_spell s pid rid →
  ∃ msg, get_by_patient_id pid (Some true) s = Raise (except_osv "Patient Already Admitted!" msg) s.
Proof.
  intros Hop%elem_of_open_spells. unfold get_by_patient_id, bind, gets.
  destruct (open_spells s pid); [by apply elem_of_nil in Hop|]. eauto.
Qed.

Lemma bind_ok {A B} (m : M A) (k : A → M B) s a s' :
  m s = Ok a s' → bind m k s = k a s'.
Proof. unfold bind. by intros ->. Qed.
Lemma bind_raise {A B} (m : M A) (k : A → M B) s e s' :
  m s = Raise e s' → bind m k s = Raise e s'.
Proof. unfold bind. by intros ->. Qed.

Lemma browse_ok s aid a : activities s !! aid = Some a → browse aid s = Ok a s.
Proof. unfold browse. by intros ->. Qed.
Lemma browse_record_ok s rid d : records s !! rid = Some d → browse_record rid s = Ok d s.
Proof. unfold browse_record. by intros ->. Qed.

Ltac msimpl :=
  cbv beta iota delta [bind ret gets modify raise get_current_time
                       log set_activities set_records set_patients];
  cbn [activities records patients locations poses clock journal].

Lemma alter_insert_lookup {A} (m : gmap Z A) i x (f : A → A) :
  m !! i = Some x → <[i := f x]> m = alter f i m.
Proof.
  intros H. apply map_eq. intros j. rewrite lookup_alter, lookup_insert.
  case_decide; subst; by rewrite ?H.
Qed.

Lemma base_submit_ok s aid a m vals :
  activities s !! aid = Some a →
  terminal (state a) = false →
  (∀ rid, data_ref a = Some rid → is_Some (records s !! rid)) →
  base_submit (create_record m) aid vals s = Ok tt (submitted m aid a vals s).
Proof.
  intros Ha Hst Hd. unfold base_submit, submitted, browse. msimpl.
  rewrite Ha, Hst. msimpl.
  destruct (data_ref a) as [rid|] eqn:Hr.
  - destruct (Hd rid eq_refl) as [d Hrd].
    unfold write_record, browse_record. msimpl.
    rewrite Hrd. msimpl. rewrite <-app_assoc. simpl.
    by rewrite (alter_insert_lookup _ _ _ (λ d, mkData (d_model d) (vals ∪ d_fields d)) Hrd).
  - unfold create_record, write_activity, browse. msimpl.
    rewrite Ha. msimpl. rewrite <-!app_assoc. simpl.
    done.
Qed.

(** Sorting keeps the elements. *)
Lemma elem_of_completed_moves s pidv i a :
  (i, a) ∈ nh_clinical_patient_move.completed_moves s pidv ↔
  activities s !! i = Some a ∧ data_model a = patient_move ∧ state a = completed
    ∧ activity_field s a "patient_id" = pidv.
Proof.
  unfold nh_clinical_patient_move.completed_moves.
  rewrite merge_sort_Permutation, elem_of_search.
  rewrite !andb_true_iff, !bool_decide_eq_true. tauto.
Qed.

Lemma data_field_ok s aid a rid d k :
  activities s !! aid = Some a → data_ref a = Some rid → records s !! rid = Some d →
  data_field aid k s = Ok (fld d k) s.
Proof.
  intros Ha Hr Hd. unfold data_field, data_ref_id, browse, browse_record, the_id.
  msimpl. rewrite Ha. msimpl. rewrite Hr. msimpl. rewrite Hd. done.
Qed.

Lemma data_ref_id_ok s aid a rid :
  activities s !! aid = Some a → data_ref a = Some rid →
  data_ref_id aid s = Ok rid s.
Proof.
  intros Ha Hr. unfold data_ref_id, browse, the_id.
  msimpl. rewrite Ha. msimpl. rewrite Hr. done.
Qed.

Lemma last_location_ok s pid :
  (match head (nh_clinical_patient_move.completed_moves s (Some pid)).*1 with
   | Some last_movement => data_field last_movement "location_id"
   | None => ret None
   end) s = Ok (last_move_location s (Some pid)) s.
Proof.
  unfold last_move_location.
  destruct (nh_clinical_patient_move.completed_moves s (Some pid)) as [|[i a] l] eqn:Hl;
    simpl; [done|].
  assert ((i, a) ∈ nh_clinical_patient_move.completed_moves s (Some pid)) as Hin
    by (rewrite Hl; left).
  apply elem_of_completed_moves in Hin as (Hi & _ & _ & Hp).
  unfold activity_field, payload in *.
  destruct (data_ref a) as [rid|] eqn:Hr; simpl in *; [|done].
  destruct (records s !! rid) as [d|] eqn:Hd; simpl in *; [|done].
  by rewrite (data_field_ok _ _ _ _ _ _ Hi Hr Hd).
Qed.

Lemma fld_written_singleton_ne k k' v d :
  k ≠ k' → fld (written {[ k := v ]} d) k' = fld d k'.
Proof.
  intros Hne. unfold fld, written. simpl.
  rewrite lookup_union, lookup_singleton_ne by done.
  by destruct (d_fields d !! k').
Qed.
Lemma fld_written_singleton k v d : fld (written {[ k := v ]} d) k = v.
Proof.
  unfold fld, written. simpl.
  rewrite lookup_union, lookup_singleton_eq.
  by destruct (d_fields d !! k).
Qed.

Lemma next_sequence_activities s s' :
  activities s' = activities s → next_sequence s' = next_sequence s.
Proof. unfold next_sequence. by intros ->. Qed.

Lemma write_record_ok s rid d vals :
  records s !! rid = Some d →
  write_record rid vals s
  = Ok tt (mkStore (activities s) (<[rid := written vals d]> (records s))
                   (patients s) (locations s) (poses s) (clock s)
                   (journal s ++ [EvWriteRecord rid vals])).
Proof.
  intros Hd. unfold write_record, browse_record. msimpl. by rewrite Hd.
Qed.

Lemma write_patient_ok s pid location :
  is_Some (patients s !! pid) →
  write_patient (Some pid) location s
  = Ok tt (mkStore (activities s) (records s)
                   (<[pid := mkPatient location]> (patients s))
                   (locations s) (poses s) (clock s)
                   (journal s ++ [EvWritePatient pid location])).
Proof.
  intros Hp. unfold write_patient, the_id. msimpl.
  by rewrite bool_decide_eq_true_2.
Qed.

Lemma base_complete_ok s aid a :
  activities s !! aid = Some a →
  terminal (state a) = false →
  base_complete aid s
  = Ok tt (mkStore (<[aid := set_state completed (next_sequence s) (Some (clock s)) a]>
                      (activities s))
                   (records s) (patients s) (locations s) (poses s) (clock s)
                   (journal s ++ [EvBaseComplete aid])).
Proof.
  intros Ha Hst. unfold base_complete, browse. msimpl. rewrite Ha. msimpl.
  by rewrite Hst.
Qed.

Lemma spell_submit_ok s P ap rp dp vals :
  activities s !! P = Some ap →
  data_model ap = spell →
  terminal (state ap) = false →
  data_ref ap = Some rp →
  records s !! rp = Some dp →
  nh_activity.submit P vals s
  = Ok tt (mkStore (activities s) (<[rp := written vals dp]> (records s))
                   (patients s) (locations s) (poses s) (clock s)
                   (journal s ++ [EvBaseSubmit P vals; EvWriteRecord rp vals])).
Proof.
  intros HP Hm Hst Hr Hd. unfold nh_activity.submit.
  rewrite (bind_ok _ _ _ _ _ (browse_ok _ _ _ HP)). rewrite Hm.
  unfold base_submit.
  rewrite (bind_ok _ _ _ _ _ (browse_ok _ _ _ HP)). rewrite Hst, Hr.
  unfold bind at 1. unfold modify at 1.
  erewrite write_record_ok by (simpl; exact Hd).
  simpl. by rewrite <-app_assoc.
Qed.

Ltac mstep H := rewrite (bind_ok _ _ _ _ _ H); simpl.

Lemma move_complete_ok s aid a rid d pid dest par :
  activities s !! aid = Some a →
  data_model a = patient_move →
  terminal (state a) = false →
  data_ref a = Some rid →
  records s !! rid = Some d →
  fld d "patient_id" = Some pid →
  fld d "location_id" = Some dest →
  is_Some (patients s !! pid) →
  parent_ready s a rid par →
  nh_clinical_patient_move.complete nh_activity.submit aid s
  = Ok tt (move_completed aid a rid d pid dest par s).
Proof.
  intros Ha Hm Hst Hr Hd Hpid Hdest Hpat Hpar.
  unfold nh_clinical_patient_move.complete.
  rewrite (bind_ok _ _ _ _ _ (browse_ok _ _ _ Ha)).
  unfold bind at 1. unfold gets at 1.
  assert (∀ k, activity_field s a k = fld d k) as Haf.
  { intros k. unfold activity_field, payload. rewrite Hr. simpl. by rewrite Hd. }
  rewrite Haf, Hdest.
  unfold bind at 1. unfold gets at 1. rewrite Haf, Hpid.
  unfold bind at 1. unfold gets at 1.
  rewrite (bind_ok _ _ _ _ _ (last_location_ok s pid)).
  rewrite (bind_ok _ _ _ _ _ (data_ref_id_ok _ _ _ _ Ha Hr)).
  set (from := last_move_location s (Some pid)).
  set (d1 := written {[ "from_location_id" := from ]} d).
  mstep (write_record_ok s rid d {[ "from_location_id" := from ]} Hd).
  fold d1.
  match goal with |- bind _ _ ?s1 = _ => set (s1' := s1) end.
  assert (activities s1' !! aid = Some a) as Ha1 by done.
  assert (records s1' !! rid = Some d1) as Hd1 by (simpl; apply lookup_insert_eq).
  mstep (data_field_ok s1' aid a rid d1 "patient_id" Ha1 Hr Hd1).
  mstep (data_field_ok s1' aid a rid d1 "location_id" Ha1 Hr Hd1).
  unfold d1 at 1 2. rewrite !fld_written_singleton_ne by done. rewrite Hpid, Hdest.
  mstep (write_patient_ok s1' pid (Some dest) Hpat).
  clear Ha1 Hd1. clear s1'.
  assert (fld d1 "move_datetime" = fld d "move_datetime") as Hmd
    by (by apply fld_written_singleton_ne).
  assert (fld d1 "location_id" = Some dest) as Hdest1
    by (unfold d1; by rewrite fld_written_singleton_ne).
  unfold move_completed. fold from. fold d1.
  destruct par as [[[P rp] dp]|]; simpl in Hpar.
  - destruct Hpar as (HP & Hne & ap & HPa & HPm & HPst & HPr & HPd).
    rewrite HP.
    match goal with |- bind _ _ ?s1 = _ => set (s2 := s1) end.
    assert (activities s2 !! aid = Some a) as Ha2 by done.
    assert (records s2 !! rid = Some d1) as Hd2 by (simpl; apply lookup_insert_eq).
    assert (records s2 !! rp = Some dp) as Hp2
      by (simpl; by rewrite lookup_insert_ne).
    unfold bind at 1. unfold bind at 1.
    rewrite (data_field_ok s2 aid a rid d1 "location_id" Ha2 Hr Hd2), Hdest1.
    rewrite (spell_submit_ok s2 P ap rp dp _ HPa HPm HPst HPr Hp2). simpl.
    match goal with |- bind _ _ ?s1 = _ => set (s3 := s1) end.
    assert (activities s3 !! aid = Some a) as Ha3 by done.
    assert (records s3 !! rid = Some d1) as Hd3
      by (simpl; rewrite lookup_insert_ne by done; apply lookup_insert_eq).
    mstep (data_field_ok s3 aid a rid d1 "move_datetime" Ha3 Hr Hd3).
    rewrite Hmd. destruct (fld d "move_datetime") as [t|].
    + unfold bind at 1, ret at 1.
      rewrite (base_complete_ok s3 aid a Ha3 Hst). simpl.
      rewrite <-!app_assoc. done.
    + unfold bind at 1. unfold bind at 1. unfold get_current_time, gets at 1.
      mstep (data_ref_id_ok s3 aid a rid Ha3 Hr).
      rewrite (write_record_ok s3 rid d1 _ Hd3). simpl.
      erewrite base_complete_ok by (simpl; eauto). simpl.
      rewrite <-!app_assoc. done.
  - rewrite Hpar.
    match goal with |- bind _ _ ?s1 = _ => set (s3 := s1) end.
    assert (activities s3 !! aid = Some a) as Ha3 by done.
    assert (records s3 !! rid = Some d1) as Hd3 by (simpl; apply lookup_insert_eq).
    unfold bind at 1. unfold ret at 1.
    mstep (data_field_ok s3 aid a rid d1 "move_datetime" Ha3 Hr Hd3).
    rewrite Hmd. destruct (fld d "move_datetime") as [t|].
    + unfold bind at 1, ret at 1.
      rewrite (base_complete_ok s3 aid a Ha3 Hst). simpl.
      rewrite <-!app_assoc. done.
    + unfold bind at 1. unfold bind at 1. unfold get_current_time, gets at 1.
      mstep (data_ref_id_ok s3 aid a rid Ha3 Hr).
      rewrite (write_record_ok s3 rid d1 _ Hd3). simpl.
      erewrite base_complete_ok by (simpl; eauto). simpl.
      rewrite <-!app_assoc. done.
Qed.

Global Instance sequence_desc_total : Total sequence_desc.
Proof. intros x y. unfold sequence_desc. lia. Qed.
Global Instance sequence_desc_trans : Transitive sequence_desc.
Proof. intros x y z. unfold sequence_desc. lia. Qed.

Lemma head_sorted_max {A} (R : relation A) `{!Transitive R} (l : list A) x :
  Sorted R l → head l = Some x → ∀ y, y ∈ l → y = x ∨ R x y.
Proof.
  intros Hs%Sorted_StronglySorted Hh y Hy; [|done].
  destruct l as [|x' l]; simplify_eq/=.
  apply StronglySorted_inv in Hs as [_ Hall].
  apply elem_of_cons in Hy as [->|Hy]; [by left|right].
  rewrite Forall_forall in Hall. auto.
Qed.

Lemma next_sequence_gt s i a :
  activities s !! i = Some a → sequence a < next_sequence s.
Proof.
  unfold next_sequence. generalize (activities s). intros m. revert i a.
  apply (map_fold_weak_ind
    (λ r m, ∀ i a, m !! i = Some a → sequence a < 1 + r)).
  - intros i a. by rewrite lookup_empty.
  - intros j b m' r Hj IH i a. rewrite lookup_insert. case_decide.
    + intros [= ->]. lia.
    + intros H'. specialize (IH _ _ H'). lia.
Qed.

Lemma last_move_location_latest s pid l la :
  latest_completed_move s pid l la →
  last_move_location s (Some pid) = activity_field s la "location_id".
Proof.
  intros [Hl Hmax]. unfold last_move_location.
  assert ((l, la) ∈ nh_clinical_patient_move.completed_moves s (Some pid)) as Hin
    by (by apply elem_of_completed_moves).
  destruct (head (nh_clinical_patient_move.completed_moves s (Some pid)))
    as [[i ai]|] eqn:Hh.
  - simpl. 
    assert ((i, ai) ∈ nh_clinical_patient_move.completed_moves s (Some pid)) as Hi
      by (by apply head_Some_elem_of).
    apply elem_of_completed_moves in Hi.
    destruct (decide (i = l)) as [->|Hne].
    + destruct Hi as [Hi _], Hl as [Hl _]. by simplify_eq.
    + specialize (Hmax _ _ Hi Hne).
      eapply (head_sorted_max sequence_desc) in Hin; [| | exact Hh].
      * destruct Hin as [[= -> ->]|Hle]; [done|].
        unfold sequence_desc in Hle. simpl in Hle. lia.
      * unfold nh_clinical_patient_move.completed_moves.
        apply (Sorted_merge_sort _).
  - apply head_None in Hh. rewrite Hh in Hin. by apply elem_of_nil in Hin.
Qed.

Lemma last_move_location_none s pid :
  (∀ i ai, ¬ is_completed_move s pid i ai) →
  last_move_location s (Some pid) = None.
Proof.
  intros Hno. unfold last_move_location.
  destruct (head (nh_clinical_patient_move.completed_moves s (Some pid)))
    as [[i ai]|] eqn:Hh; [|done].
  apply head_Some_elem_of, elem_of_completed_moves in Hh. by destruct (Hno i ai).
Qed.

(** C2: completing a movement writes as its [from_location_id] the
    destination of the patient's completed movement with the highest
    sequence, and [False] when the patient has no completed movement.  The
    movement then is itself the patient's latest completed movement, with its
    destination unchanged, so that the next movement completed for the
    patient takes this destination as its source; the other activities and
    payload rows stay as they were. *)
Theorem move_complete_from_location s aid a rid d pid dest par :
  activities s !! aid = Some a →
  data_model a = patient_move →
  terminal (state a) = false →
  data_ref a = Some rid →
  records s !! rid = Some d →
  fld d "patient_id" = Some pid →
  fld d "location_id" = Some dest →
  is_Some (patients s !! pid) →
  parent_ready s a rid par →
  ∃ s' a' d',
    nh_clinical_patient_move.complete nh_activity.submit aid s = Ok tt s' ∧
    activities s' !! aid = Some a' ∧ data_ref a' = Some rid ∧
    records s' !! rid = Some d' ∧
    (∀ l la, latest_completed_move s pid l la →
       fld d' "from_location_id" = activity_field s la "location_id") ∧
    ((∀ i ai, ¬ is_completed_move s pid i ai) →
       fld d' "from_location_id" = None) ∧
    latest_completed_move s' pid aid a' ∧
    fld d' "location_id" = Some dest ∧
    (∀ i, i ≠ aid → activities s' !! i = activities s !! i) ∧
    (∀ r, r ≠ rid → ¬ parent_row par r → records s' !! r = records s !! r).
Proof.
  intros Ha Hm Hst Hr Hd Hpid Hdest Hpat Hpar.
  pose proof (move_complete_ok s aid a rid d pid dest par
                Ha Hm Hst Hr Hd Hpid Hdest Hpat Hpar) as Hrun.
  set (from := last_move_location s (Some pid)).
  set (d1 := written {[ "from_location_id" := from ]} d).
  set (d' := match fld d "move_datetime" with
             | None => written {[ "move_datetime" := Some (clock s) ]} d1
             | Some _ => d1
             end).
  set (a' := set_state completed (next_sequence s) (Some (clock s)) a).
  assert (records (move_completed aid a rid d pid dest par s) !! rid = Some d') as Hd'.
  { unfold move_completed, d'. simpl. fold from. fold d1.
    destruct (fld d "move_datetime"); [|apply lookup_insert_eq].
    destruct par as [[[P rp] dp]|]; simpl in Hpar.
    - destruct Hpar as (_ & Hne & _). rewrite lookup_insert_ne by done.
      apply lookup_insert_eq.
    - apply lookup_insert_eq. }
  assert (∀ k, k ≠ "from_location_id" → k ≠ "move_datetime" → fld d' k = fld d k) as Hk.
  { intros k H1 H2. unfold d', d1. destruct (fld d "move_datetime");
      by rewrite !fld_written_singleton_ne. }
  assert (fld d' "from_location_id" = from) as Hfrom.
  { unfold d', d1. destruct (fld d "move_datetime").
    - apply fld_written_singleton.
    - rewrite fld_written_singleton_ne by done. apply fld_written_singleton. }
  assert (activities (move_completed aid a rid d pid dest par s)
          = <[aid := a']> (activities s)) as Hacts by done.
  assert (∀ r, r ≠ rid → ¬ parent_row par r →
          records (move_completed aid a rid d pid dest par s) !! r = records s !! r)
    as Hframe.
  { intros r Hne Hnp. unfold move_completed. simpl.
    destruct par as [[[P rp] dp]|]; simpl in Hnp;
      destruct (fld d "move_datetime"); by rewrite !lookup_insert_ne. }
  revert Hrun Hd' Hacts Hframe.
  generalize (move_completed aid a rid d pid dest par s). intros s' Hrun Hd' Hacts Hframe.
  exists s', a', d'.
  split; [done|]. rewrite Hacts.
  split; [apply lookup_insert_eq|]. split; [done|].
  split; [done|]. split.
  { intros l la Hl. rewrite Hfrom. by apply (last_move_location_latest s pid l). }
  split.
  { intros Hno. rewrite Hfrom. by apply last_move_location_none. }
  split.
  { split.
    - unfold is_completed_move. rewrite Hacts.
      split; [apply lookup_insert_eq|]. split; [done|]. split; [done|].
      unfold activity_field, payload. simpl data_ref. rewrite Hr. simpl.
      rewrite Hd'. simpl. by rewrite Hk.
    - intros i ai (Hi & _) Hne. rewrite Hacts, lookup_insert_ne in Hi by done.
      simpl. by eapply next_sequence_gt. }
  split; [by rewrite Hk|]. split; [|done].
  intros i Hne. by rewrite lookup_insert_ne.
Qed.

Lemma open_spells_nil s pid :
  open_spells s pid = [] → ∀ rid, ¬ is_open_spell s pid rid.
Proof.
  intros Hnil rid Hop%elem_of_open_spells. rewrite Hnil in Hop.
  by apply elem_of_nil in Hop.
Qed.

Lemma get_by_patient_id_true_none s pid :
  (∀ rid, ¬ is_open_spell s pid rid) →
  get_by_patient_id pid (Some true) s = Ok None s.
Proof.
  intros Hno. unfold get_by_patient_id. msimpl.
  destruct (open_spells s pid) as [|rid l] eqn:Hl; [done|].
  destruct (Hno rid). apply elem_of_open_spells. rewrite Hl. left.
Qed.

(** ** Admission *)

(** C5: admission [submit] raises "Patient required for admission!" when
    [patient_id] is not among the submitted values, raises "Patient Already
    Admitted!" when the patient has an open spell, and otherwise goes through
    to the base [submit], which succeeds on an activity that can still be
    submitted to. *)
Theorem admission_submit_checks (s : Store) (aid : Z) (vals : Vals) :
  (vals !! "patient_id" = None →
   nh_clinical_patient_admission.submit aid vals s
   = Raise (except_osv "Admission Error!" "Patient required for admission!") s)
  ∧ (∀ pid rid,
       vals !! "patient_id" = Some pid →
       is_open_spell s pid rid →
       ∃ msg, nh_clinical_patient_admission.submit aid vals s
              = Raise (except_osv "Patient Already Admitted!" msg) s)
  ∧ (∀ pid a,
       vals !! "patient_id" = Some pid →
       (∀ rid, ¬ is_open_spell s pid rid) →
       activities s !! aid = Some a →
       terminal (state a) = false →
       (∀ rid, data_ref a = Some rid → is_Some (records s !! rid)) →
       nh_clinical_patient_admission.submit aid vals s
       = Ok tt (submitted patient_admission aid a vals s)).
Proof.
  split; [apply admission_submit_no_patient|]. split.
  - intros pid rid Hv Hop. unfold nh_clinical_patient_admission.submit.
    rewrite Hv. destruct (get_by_patient_id_true_found s pid rid Hop) as [msg Hr].
    exists msg. unfold bind. by rewrite Hr.
  - intros pid a Hv Hno Ha Hst Hd. unfold nh_clinical_patient_admission.submit.
    rewrite Hv. unfold bind at 1. unfold bind at 1.
    rewrite (get_by_patient_id_true_none s pid Hno). unfold ret at 1.
    by apply base_submit_ok.
Qed.

Lemma admission_submit_checks_witness :
  nh_clinical_patient_admission.submit 110
    (Ward.fields [("patient_id", Some 12); ("location_id", Some 1);
                     ("pos_id", Some 1)]) Ward.admitting
  = Ok tt (submitted patient_admission 110 (Ward.blank patient_admission)
             (Ward.fields [("patient_id", Some 12); ("location_id", Some 1);
                              ("pos_id", Some 1)]) Ward.admitting)
  ∧ ∃ msg, nh_clinical_patient_admission.submit 110
             (Ward.fields [("patient_id", Some 10)]) Ward.admitting
           = Raise (except_osv "Patient Already Admitted!" msg) Ward.admitting.
Proof.
  split.
  - apply (admission_submit_checks Ward.admitting 110 _) with (pid := Some 12).
    + reflexivity.
    + apply open_spells_nil. vm_compute. reflexivity.
    + reflexivity.
    + reflexivity.
    + intros rid Hr. discriminate Hr.
  - apply (admission_submit_checks Ward.admitting 110 _) with (pid := Some 10) (rid := 200).
    + reflexivity.
    + exists Ward.spell_row_10, 100, Ward.spell_of_10.
      repeat split; reflexivity.
Defined.

(** ** Bed swap *)

Lemma base_submit_inv s aid m vals s1 :
  base_submit (create_record m) aid vals s = Ok tt s1 →
  ∃ a, activities s !! aid = Some a ∧ terminal (state a) = false ∧
       s1 = submitted m aid a vals s.
Proof.
  intros Hrun. unfold base_submit, browse in Hrun. revert Hrun. msimpl.
  destruct (activities s !! aid) as [a|] eqn:Ha; [|done]. msimpl.
  destruct (terminal (state a)) eqn:Hst; [done|]. intros Hrun.
  exists a. split; [done|]. split; [done|].
  assert (∀ rid, data_ref a = Some rid → is_Some (records s !! rid)) as Hd.
  { intros rid Hr. rewrite Hr in Hrun. revert Hrun.
    unfold write_record, browse_record. msimpl.
    by destruct (records s !! rid). }
  pose proof (base_submit_ok s aid a m vals Ha Hst Hd) as Hok.
  unfold base_submit, browse in Hok. revert Hok. msimpl. rewrite Ha. msimpl.
  rewrite Hst. intros Hok. congruence.
Qed.

Lemma submitted_frame m aid a vals s :
  patients (submitted m aid a vals s) = patients s ∧
  locations (submitted m aid a vals s) = locations s ∧
  ∃ evs : list Event,
    journal (submitted m aid a vals s) = journal s ++ EvBaseSubmit aid vals :: evs.
Proof.
  unfold submitted. destruct (data_ref a); simpl; eauto.
Qed.

Lemma check_occupied_spec s l :
  nh_clinical_patient_swap_beds.check_occupied (Some l) s
  = match patient_ids s l with
    | [] => Raise (except_osv "Swap Patients Error!"
                     ("No patient in location " +:+ location_name s l)) s
    | _ :: _ => Ok tt s
    end.
Proof.
  unfold nh_clinical_patient_swap_beds.check_occupied. msimpl.
  by destruct (patient_ids s l).
Qed.

(** C4: swap [submit] goes through the base [submit] first; with both
    locations set on the payload, it then raises "No patient in location ..."
    for the first of the two that holds no patient, raises the
    different-wards error when the two nearest-ward lookups differ, and
    returns normally exactly when both locations hold a patient and the two
    lookups give the same result: the same ward, or no ward for either. *)
Theorem swap_submit_checks (s s1 : Store) (aid : Z) (vals : Vals) (l1 l2 : Z) :
  base_submit (create_record patient_swap_beds) aid vals s = Ok tt s1 →
  data_field aid "location1_id" s1 = Ok (Some l1) s1 →
  data_field aid "location2_id" s1 = Ok (Some l2) s1 →
  let ward1 := closest_parent (locations s) (size (locations s)) (Some l1) "ward" in
  let ward2 := closest_parent (locations s) (size (locations s)) (Some l2) "ward" in
  (∃ evs : list Event, journal s1 = journal s ++ EvBaseSubmit aid vals :: evs)
  ∧ (patient_ids s l1 = [] →
     nh_clinical_patient_swap_beds.submit aid vals s
     = Raise (except_osv "Swap Patients Error!"
                ("No patient in location " +:+ location_name s l1)) s1)
  ∧ (patient_ids s l1 ≠ [] → patient_ids s l2 = [] →
     nh_clinical_patient_swap_beds.submit aid vals s
     = Raise (except_osv "Swap Patients Error!"
                ("No patient in location " +:+ location_name s l2)) s1)
  ∧ (patient_ids s l1 ≠ [] → patient_ids s l2 ≠ [] → ward1 ≠ ward2 →
     nh_clinical_patient_swap_beds.submit aid vals s
     = Raise (except_osv "Swap Patients Error!"
                "Trying to swap locations from different wards, should be using transfer instead")
             s1)
  ∧ (nh_clinical_patient_swap_beds.submit aid vals s = Ok tt s1
     ↔ patient_ids s l1 ≠ [] ∧ patient_ids s l2 ≠ [] ∧ ward1 = ward2).
Proof.
  intros Hbase H1 H2 ward1 ward2.
  destruct (base_submit_inv _ _ _ _ _ Hbase) as (a & Ha & Hst & ->).
  destruct (submitted_frame patient_swap_beds aid a vals s) as (Hp & Hl & Hj).
  set (s1 := submitted patient_swap_beds aid a vals s) in *.
  assert (∀ l, patient_ids s1 l = patient_ids s l) as Hpi
    by (intros l; unfold patient_ids; by rewrite Hp).
  assert (∀ l, location_name s1 l = location_name s l) as Hln
    by (intros l; unfold location_name; by rewrite Hl).
  assert (nh_clinical_patient_swap_beds.submit aid vals s =
          (check_1 <- nh_clinical_patient_swap_beds.check_occupied (Some l1) ;;
           check_2 <- nh_clinical_patient_swap_beds.check_occupied (Some l2) ;;
           if bool_decide (ward1 ≠ ward2) then
             raise (except_osv "Swap Patients Error!"
                      "Trying to swap locations from different wards, should be using transfer instead")
           else ret tt) s1) as ->.
  { unfold nh_clinical_patient_swap_beds.submit.
    rewrite (bind_ok _ _ _ _ _ Hbase).
    rewrite (bind_ok _ _ _ _ _ H1). rewrite (bind_ok _ _ _ _ _ H2).
    unfold bind. destruct (nh_clinical_patient_swap_beds.check_occupied (Some l1) s1)
      as [[] s2|] eqn:Hc1; [|done].
    assert (s2 = s1) as ->.
    { revert Hc1. unfold nh_clinical_patient_swap_beds.check_occupied. msimpl.
      destruct (patient_ids s1 l1); [done|]. congruence. }
    destruct (nh_clinical_patient_swap_beds.check_occupied (Some l2) s1)
      as [[] s2|] eqn:Hc2; [|done].
    assert (s2 = s1) as ->.
    { revert Hc2. unfold nh_clinical_patient_swap_beds.check_occupied. msimpl.
      destruct (patient_ids s1 l2); [done|]. congruence. }
    unfold get_closest_parent_id, gets. rewrite Hl. done. }
  unfold bind. rewrite (check_occupied_spec s1 l1), Hpi, Hln.
  split; [done|]. split; [by intros ->|].
  destruct (patient_ids s l1) as [|p1 ps1].
  { split; [done|]. split; [done|]. split; [done|by intros [? _]]. }
  rewrite (check_occupied_spec s1 l2), Hpi, Hln.
  split; [by intros _ ->|].
  destruct (patient_ids s l2) as [|p2 ps2].
  { split; [done|]. split; [done|by intros (_ & ? & _)]. }
  split.
  { intros _ _ Hw. by rewrite bool_decide_eq_true_2. }
  case_bool_decide as Hw; split; try done.
  by intros (_ & _ & ?).
Qed.

Lemma swap_submit_checks_witness :
  nh_clinical_patient_swap_beds.submit 120
    (Ward.fields [("location1_id", Some 2); ("location2_id", Some 3)])
    Ward.swapping
  = Ok tt (submitted patient_swap_beds 120 (Ward.blank patient_swap_beds)
             (Ward.fields [("location1_id", Some 2); ("location2_id", Some 3)])
             Ward.swapping).
Proof.
  apply (swap_submit_checks Ward.swapping _ 120 _ 2 3).
  - vm_compute. reflexivity.
  - vm_compute. reflexivity.
  - vm_compute. reflexivity.
  - split; [|split]; vm_compute; congruence.
Defined.

(** C4, as stated, fails: beds 7 and 8 of the discharge lounge each hold a
    patient and neither has a ward above it, so they share no ward ancestor,
    and the swap of the two is accepted. *)
Lemma swap_submit_no_ward_counterexample :
  locations Ward.swapping_in_lounge !! 7
  = Some (mkLocation "Bed 4" "B4" "bed" (Some 4) false)
  ∧ locations Ward.swapping_in_lounge !! 8
    = Some (mkLocation "Bed 5" "B5" "bed" (Some 4) false)
  ∧ locations Ward.swapping_in_lounge !! 4
    = Some (mkLocation "Discharge Location" "GDL0987654321" "room" None true)
  ∧ patient_ids Ward.swapping_in_lounge 7 = [10]
  ∧ patient_ids Ward.swapping_in_lounge 8 = [11]
  ∧ closest_parent (locations Ward.swapping_in_lounge)
      (size (locations Ward.swapping_in_lounge)) (Some 7) "ward" = None
  ∧ closest_parent (locations Ward.swapping_in_lounge)
      (size (locations Ward.swapping_in_lounge)) (Some 8) "ward" = None
  ∧ nh_clinical_patient_swap_beds.submit 120
      (Ward.fields [("location1_id", Some 7); ("location2_id", Some 8)])
      Ward.swapping_in_lounge
    = Ok tt (submitted patient_swap_beds 120 (Ward.blank patient_swap_beds)
               (Ward.fields [("location1_id", Some 7); ("location2_id", Some 8)])
               Ward.swapping_in_lounge).
Proof. repeat split; vm_compute; reflexivity. Qed.

(** ** Placement *)

Lemma get_by_patient_id_unset_none s pid :
  (∀ rid, ¬ is_open_spell s pid rid) →
  get_by_patient_id pid None s = Ok None s.
Proof.
  intros Hno. unfold get_by_patient_id. msimpl.
  destruct (open_spells s pid) as [|rid l] eqn:Hl; [done|].
  destruct (Hno rid). apply elem_of_open_spells. rewrite Hl. left.
Qed.

(** C10: placement [complete] checks the location before the base
    completion and raises with the store untouched; it looks for the open
    spell after the base completion, so that "No open spell found" is raised
    with the placement activity already completed. *)
Theorem placement_complete_not_atomic (sub : Z → Vals → M unit) (comp : Z → M unit)
    (s : Store) (aid rid : Z) (a : Activity) (d : Data) :
  activities s !! aid = Some a →
  data_ref a = Some rid →
  records s !! rid = Some d →
  (fld d "location_id" = None →
   NhClinicalPatientPlacement.complete sub comp aid s
   = Raise (except_osv "Placement Error!"
              "Placement cannot be completed without location") s)
  ∧ (∀ l, fld d "location_id" = Some l →
       terminal (state a) = false →
       (∀ r, ¬ is_open_spell s (fld d "patient_id") r) →
       ∃ s', NhClinicalPatientPlacement.complete sub comp aid s
             = Raise (except_osv "Placement Error!"
                        ("No open spell found for patient_id "
                           +:+ fmt_id (fld d "patient_id"))) s'
             ∧ (∃ a', activities s' !! aid = Some a' ∧ state a' = completed)
             ∧ journal s' = journal s ++ [EvBaseComplete aid]).
Proof.
  intros Ha Hr Hd. unfold NhClinicalPatientPlacement.complete.
  rewrite (bind_ok _ _ _ _ _ (data_field_ok s aid a rid d _ Ha Hr Hd)).
  split; [by intros ->|].
  intros l -> Hst Hno.
  mstep (base_complete_ok s aid a Ha Hst).
  set (a' := set_state completed (next_sequence s) (Some (clock s)) a).
  match goal with |- ∃ _, bind _ _ ?s1 = _ ∧ _ => set (s1' := s1) end.
  assert (activities s1' !! aid = Some a') as Ha1 by apply lookup_insert_eq.
  assert (records s1' !! rid = Some d) as Hd1 by done.
  rewrite (bind_ok _ _ _ _ _ (data_field_ok s1' aid a' rid d _ Ha1 Hr Hd1)).
  rewrite (bind_ok _ _ _ _ _ (data_field_ok s1' aid a' rid d _ Ha1 Hr Hd1)).
  assert (∀ r, ¬ is_open_spell s1' (fld d "patient_id") r) as Hno1.
  { intros r (dr & ar & x & Hdr & Hm & Hp & Har & Hx & Hxs).
    apply (Hno r). exists dr, ar, x. repeat split; try done.
    simpl in Hx. rewrite lookup_insert in Hx. case_decide; [|done].
    by simplify_eq. }
  rewrite (bind_ok _ _ _ _ _ (get_by_patient_id_unset_none s1' _ Hno1)).
  eexists. split; [done|]. split; [|done]. by exists a'.
Qed.

Lemma placement_complete_not_atomic_witness :
  ∃ s', NhClinicalPatientPlacement.complete nh_activity.submit (nh_activity.complete 3)
          130 Ward.placing
        = Raise (except_osv "Placement Error!"
                   ("No open spell found for patient_id "
                      +:+ fmt_id (fld Ward.placement_row_230 "patient_id"))) s'
        ∧ (∃ a', activities s' !! 130 = Some a' ∧ state a' = completed)
        ∧ journal s' = journal Ward.placing ++ [EvBaseComplete 130].
Proof.
  apply (proj2 (placement_complete_not_atomic nh_activity.submit (nh_activity.complete 3)
                  Ward.placing 130 230 Ward.placement_130
                  Ward.placement_row_230 eq_refl eq_refl eq_refl) 6).
  - reflexivity.
  - reflexivity.
  - apply open_spells_nil. vm_compute. reflexivity.
Defined.

(** ** Movement *)

(** C9 (as amended): when the caller supplied no [move_datetime], movement
    [complete] writes the current time on the payload and only then calls the
    base completion, which is its last step: the back-fill comes before the
    activity is made terminal, not after.  A [move_datetime] that was
    supplied is kept. *)
Theorem move_complete_backfill_order s aid a rid d pid dest par :
  activities s !! aid = Some a →
  data_model a = patient_move →
  terminal (state a) = false →
  data_ref a = Some rid →
  records s !! rid = Some d →
  fld d "patient_id" = Some pid →
  fld d "location_id" = Some dest →
  is_Some (patients s !! pid) →
  parent_ready s a rid par →
  ∃ s' d' pre,
    nh_clinical_patient_move.complete nh_activity.submit aid s = Ok tt s' ∧
    records s' !! rid = Some d' ∧
    match fld d "move_datetime" with
    | None =>
        fld d' "move_datetime" = Some (clock s) ∧
        journal s' = journal s ++ pre
                       ++ [EvWriteRecord rid {[ "move_datetime" := Some (clock s) ]};
                           EvBaseComplete aid]
    | Some t =>
        fld d' "move_datetime" = Some t ∧
        journal s' = journal s ++ pre ++ [EvBaseComplete aid]
    end.
Proof.
  intros Ha Hm Hst Hr Hd Hpid Hdest Hpat Hpar.
  pose proof (move_complete_ok s aid a rid d pid dest par
                Ha Hm Hst Hr Hd Hpid Hdest Hpat Hpar) as Hrun.
  exists (move_completed aid a rid d pid dest par s).
  set (from := last_move_location s (Some pid)).
  set (d1 := written {[ "from_location_id" := from ]} d).
  assert (fld d1 "move_datetime" = fld d "move_datetime") as Hmd
    by (by apply fld_written_singleton_ne).
  destruct (fld d "move_datetime") as [t|] eqn:Ht.
  - exists d1.
    exists ([EvWriteRecord rid {[ "from_location_id" := from ]};
             EvWritePatient pid (Some dest)]
            ++ match par with
               | Some (P, rp, _) =>
                   [EvBaseSubmit P {[ "location_id" := Some dest ]};
                    EvWriteRecord rp {[ "location_id" := Some dest ]}]
               | None => []
               end).
    split; [done|]. unfold move_completed. simpl. rewrite Ht. fold from. fold d1.
    split; [|split; [done|]].
    + destruct par as [[[P rp] dp]|]; simpl in Hpar.
      * destruct Hpar as (_ & Hne & _). rewrite lookup_insert_ne by done.
        apply lookup_insert_eq.
      * apply lookup_insert_eq.
    + simpl. by rewrite <-?app_assoc.
  - exists (written {[ "move_datetime" := Some (clock s) ]} d1).
    exists ([EvWriteRecord rid {[ "from_location_id" := from ]};
             EvWritePatient pid (Some dest)]
            ++ match par with
               | Some (P, rp, _) =>
                   [EvBaseSubmit P {[ "location_id" := Some dest ]};
                    EvWriteRecord rp {[ "location_id" := Some dest ]}]
               | None => []
               end).
    split; [done|]. unfold move_completed. simpl. rewrite Ht. fold from. fold d1.
    split; [apply lookup_insert_eq|]. split; [apply fld_written_singleton|].
    simpl. by rewrite <-?app_assoc.
Qed.

Lemma move_complete_backfill_order_witness :
  ∃ s' d' pre,
    nh_clinical_patient_move.complete nh_activity.submit 104 Ward.moving = Ok tt s' ∧
    records s' !! 204 = Some d' ∧
    fld d' "move_datetime" = Some 1000 ∧
    journal s' = journal Ward.moving ++ pre
                   ++ [EvWriteRecord 204 {[ "move_datetime" := Some 1000 ]};
                       EvBaseComplete 104].
Proof.
  apply (move_complete_backfill_order Ward.moving 104 Ward.move_104 204
           Ward.move_row_204 10 6 (Some (100, 200, Ward.spell_row_10)));
    try reflexivity.
  - by eexists.
  - split; [reflexivity|]. split; [done|].
    exists Ward.spell_of_10. repeat split; reflexivity.
Defined.

(** C9, as stated, fails: on the ward, the journal of completing movement
    104 has the back-fill of [move_datetime] before the base completion, and
    no base completion before the back-fill. *)
Lemma move_complete_backfill_after_base_counterexample :
  precedes (EvBaseComplete 104) (EvWriteRecord 204 {[ "move_datetime" := Some 1000 ]})
    (journal (store_of (nh_clinical_patient_move.complete nh_activity.submit 104
                          Ward.moving))) = false
  ∧ precedes (EvWriteRecord 204 {[ "move_datetime" := Some 1000 ]}) (EvBaseComplete 104)
      (journal (store_of (nh_clinical_patient_move.complete nh_activity.submit 104
                            Ward.moving))) = true.
Proof. split; vm_compute; reflexivity. Qed.

Lemma move_complete_from_location_witness :
  ∃ s' a' d',
    nh_clinical_patient_move.complete nh_activity.submit 104 Ward.moving_again
    = Ok tt s' ∧
    activities s' !! 104 = Some a' ∧ data_ref a' = Some 204 ∧
    records s' !! 204 = Some d' ∧
    (∀ l la, latest_completed_move Ward.moving_again 10 l la →
       fld d' "from_location_id"
       = activity_field Ward.moving_again la "location_id") ∧
    ((∀ i ai, ¬ is_completed_move Ward.moving_again 10 i ai) →
       fld d' "from_location_id" = None) ∧
    latest_completed_move s' 10 104 a' ∧
    fld d' "location_id" = Some 6 ∧
    (∀ i, i ≠ 104 → activities s' !! i = activities Ward.moving_again !! i) ∧
    (∀ r, r ≠ 204 → ¬ parent_row (Some (100, 200, Ward.spell_row_10)) r →
       records s' !! r = records Ward.moving_again !! r).
Proof.
  apply (move_complete_from_location Ward.moving_again 104 Ward.move_104 204
           Ward.move_row_204 10 6 (Some (100, 200, Ward.spell_row_10)));
    try reflexivity.
  - by eexists.
  - split; [reflexivity|]. split; [done|].
    exists Ward.spell_of_10. repeat split; reflexivity.
Defined.

(** On the ward, movement 103 to bed 1 is the patient's latest completed
    one, and completing movement 104 records bed 1 as its source. *)
Example ward_move_records_source :
  latest_completed_move Ward.moving_again 10 103 Ward.move_103
  ∧ data_field 104 "from_location_id"
      (store_of (nh_clinical_patient_move.complete nh_activity.submit 104
                   Ward.moving_again))
    = Ok (Some 2)
         (store_of (nh_clinical_patient_move.complete nh_activity.submit 104
                      Ward.moving_again)).
Proof.
  split; [|vm_compute; reflexivity].
  split; [repeat split; reflexivity|].
  intros i ai Hi Hne.
  assert ((i, ai) ∈ nh_clinical_patient_move.completed_moves Ward.moving_again (Some 10))
    as Hin by (by apply elem_of_completed_moves).
  assert (nh_clinical_patient_move.completed_moves Ward.moving_again (Some 10)
          = [(103, Ward.move_103)]) as Hcm by (vm_compute; reflexivity).
  rewrite Hcm in Hin. apply list_elem_of_singleton in Hin. by simplify_eq.
Qed.

(** ** Discharge *)

(** C8 (as amended): discharge [cancel] first asks the admission model
    whether the patient has an active admission (a completed admission whose
    parent is started) and, when there is one, raises "Patient Already
    Admitted!" with the store untouched; completed discharges of the patient
    are not looked at. *)
Theorem discharge_cancel_checks_admission (sub : Z → Vals → M unit) (comp : Z → M unit)
    (s : Store) (aid rid : Z) (a : Activity) (d : Data) :
  activities s !! aid = Some a →
  data_ref a = Some rid →
  records s !! rid = Some d →
  nh_clinical_patient_admission.active_admissions s (fld d "patient_id") ≠ [] →
  ∃ msg, nh_clinical_patient_discharge.cancel sub comp aid s
         = Raise (except_osv "Patient Already Admitted!" msg) s.
Proof.
  intros Ha Hr Hd Hadm. unfold nh_clinical_patient_discharge.cancel.
  rewrite (bind_ok _ _ _ _ _ (browse_ok _ _ _ Ha)).
  rewrite (bind_ok _ _ _ _ _ (data_field_ok s aid a rid d _ Ha Hr Hd)).
  unfold nh_clinical_patient_admission.get_last. msimpl.
  destruct (nh_clinical_patient_admission.active_admissions s (fld d "patient_id"));
    [done|]. simpl. eauto.
Qed.

Lemma discharge_cancel_checks_admission_witness :
  ∃ msg, nh_clinical_patient_discharge.cancel nh_activity.submit (nh_activity.complete 3)
           146 Ward.admitted
         = Raise (except_osv "Patient Already Admitted!" msg) Ward.admitted.
Proof.
  apply (discharge_cancel_checks_admission nh_activity.submit (nh_activity.complete 3)
           Ward.admitted 146 246 Ward.discharge_146 (Ward.discharge_row 146));
    try reflexivity.
  vm_compute. discriminate.
Defined.

(** C8, as stated, fails: patient 10 has another completed discharge (141,
    of the earlier visit), and cancelling discharge 143 does not raise
    "Patient Already Discharged!": it returns normally. *)
Lemma discharge_cancel_already_discharged_counterexample :
  (nh_clinical_patient_discharge.completed_discharges Ward.discharged_twice (Some 10)).*1
  = [143; 141]
  ∧ ∃ s', nh_activity.cancel_discharge 3 143 Ward.discharged_twice = Ok tt s'.
Proof. split; [vm_compute; reflexivity|]. eexists. vm_compute. reflexivity. Qed.

(** ** Placement: one open placement per patient *)

Lemma base_cancel_ok s aid a :
  activities s !! aid = Some a →
  state a ≠ cancelled →
  base_cancel aid s
  = Ok tt (mkStore (<[aid := set_state cancelled (next_sequence s) (Some (clock s)) a]>
                      (activities s))
                   (records s) (patients s) (locations s) (poses s) (clock s)
                   (journal s ++ [EvBaseCancel aid])).
Proof.
  intros Ha Hst. unfold base_cancel, browse. msimpl. rewrite Ha. msimpl.
  by rewrite bool_decide_eq_false_2.
Qed.

Lemma cancel_rows_ok (l : list Z) : ∀ s,
  NoDup l →
  (∀ p, p ∈ l → ∃ d aid a, records s !! p = Some d ∧ fld d "activity_id" = Some aid ∧
                           activities s !! aid = Some a ∧ state a ≠ cancelled) →
  (∀ p1 p2 d1 d2 aid, p1 ∈ l → p2 ∈ l →
     records s !! p1 = Some d1 → records s !! p2 = Some d2 →
     fld d1 "activity_id" = Some aid → fld d2 "activity_id" = Some aid → p1 = p2) →
  ∃ s', for_each l cancel_row s = Ok tt s' ∧ records s' = records s ∧
        (∀ p d aid, p ∈ l → records s !! p = Some d → fld d "activity_id" = Some aid →
           ∃ a', activities s' !! aid = Some a' ∧ state a' = cancelled) ∧
        (∀ aid, (∀ p d, p ∈ l → records s !! p = Some d → fld d "activity_id" ≠ Some aid) →
           activities s' !! aid = activities s !! aid).
Proof.
  induction l as [|p l IH]; intros s Hnd Hrows Hinj.
  - exists s. split; [done|]. split; [done|]. split; [|done].
    intros p d aid Hp. by apply elem_of_nil in Hp.
  - apply NoDup_cons in Hnd as [Hp Hnd].
    destruct (Hrows p) as (d & aid & a & Hd & Haid & Ha & Hst); [left|].
    set (a' := set_state cancelled (next_sequence s) (Some (clock s)) a).
    set (s2 := mkStore (<[aid := a']> (activities s)) (records s) (patients s)
                 (locations s) (poses s) (clock s) (journal s ++ [EvBaseCancel aid])).
    assert (cancel_row p s = Ok tt s2) as Hrow.
    { unfold cancel_row. rewrite (bind_ok _ _ _ _ _ (browse_record_ok _ _ _ Hd)).
      rewrite Haid. unfold the_id, bind at 1, ret at 1.
      by apply base_cancel_ok. }
    simpl. rewrite (bind_ok _ _ _ _ _ Hrow).
    assert (∀ q dq aq, q ∈ l → records s !! q = Some dq →
                       fld dq "activity_id" = Some aq → aq ≠ aid) as Hother.
    { intros q dq aq Hq Hdq Haq ->. apply Hp.
      rewrite (Hinj p q d dq aid); [done|left|by right|done..]. }
    destruct (IH s2) as (s' & Hrun & Hrec & Hcan & Hframe); [done| | |].
    + intros q Hq. destruct (Hrows q) as (dq & aq & x & Hdq & Haq & Hx & Hxs); [by right|].
      exists dq, aq, x. split; [done|]. split; [done|]. split; [|done].
      simpl. rewrite lookup_insert_ne; [done|]. intros <-. by eapply Hother.
    + intros p1 p2 d1 d2 aid0 H1 H2. apply Hinj; by right.
    + exists s'. split; [done|]. split; [done|]. split.
      * intros q dq aq Hq Hdq Haq. apply elem_of_cons in Hq as [->|Hq].
        -- simplify_eq. exists a'. split; [|done].
           rewrite Hframe; [apply lookup_insert_eq|].
           intros q dq Hq Hdq Haq. by eapply Hother.
        -- by eapply Hcan.
      * intros aid0 Hno. rewrite Hframe.
        -- simpl. rewrite lookup_insert_ne; [done|].
           intros <-. by eapply (Hno p d); [left|..].
        -- intros q dq Hq. apply Hno. by right.
Qed.

Lemma create_record_ok s m vals :
  create_record m vals s
  = Ok (fresh (dom (records s)))
       (mkStore (activities s)
                (<[fresh (dom (records s)) := mkData m vals]> (records s))
                (patients s) (locations s) (poses s) (clock s)
                (journal s ++ [EvCreateRecord (fresh (dom (records s))) m])).
Proof. done. Qed.

Lemma fresh_record_None s : records s !! fresh (dom (records s)) = None.
Proof. apply not_elem_of_dom, is_fresh. Qed.

Lemma fresh_activity_None s : activities s !! fresh (dom (activities s)) = None.
Proof. apply not_elem_of_dom, is_fresh. Qed.

Lemma elem_of_open_placements s pid r d :
  (r, d) ∈ NhClinicalPatientPlacement.open_placements s pid ↔
  records s !! r = Some d ∧ d_model d = patient_placement ∧ fld d "patient_id" = pid ∧
  ∃ aid a, fld d "activity_id" = Some aid ∧ activities s !! aid = Some a ∧
           terminal (state a) = false.
Proof.
  unfold NhClinicalPatientPlacement.open_placements. rewrite elem_of_search.
  rewrite !andb_true_iff, !bool_decide_eq_true. unfold record_state. split.
  - intros (Hr & (Hm & Hp) & Hst). split; [done|]. split; [done|]. split; [done|].
    destruct (fld d "activity_id") as [aid|]; simpl in Hst; [|done].
    destruct (activities s !! aid) as [a|] eqn:Ha; simpl in Hst; [|done].
    exists aid, a. by rewrite negb_true_iff in Hst.
  - intros (Hr & Hm & Hp & aid & a & Haid & Ha & Hst). split; [done|].
    split; [done|]. rewrite Haid. simpl. rewrite Ha. simpl. by rewrite Hst.
Qed.

(** C1: creating a placement for a patient cancels every other placement
    of that patient that is neither completed nor cancelled, and leaves the
    activity of the new placement as it was.  Each activity owns its payload:
    no row shares its activity with another, and none has the activity of the
    new placement. *)
Theorem placement_create_single_open (s : Store) (vals : Vals) (pid : Value) :
  vals !! "patient_id" = Some pid →
  (∀ r d aid, records s !! r = Some d → fld d "activity_id" = Some aid →
     vals_get vals "activity_id" ≠ Some aid) →
  (∀ r1 r2 d1 d2 aid, records s !! r1 = Some d1 → records s !! r2 = Some d2 →
     fld d1 "activity_id" = Some aid → fld d2 "activity_id" = Some aid → r1 = r2) →
  ∃ s',
    NhClinicalPatientPlacement.create vals s = Ok (fresh (dom (records s))) s' ∧
    records s' = <[fresh (dom (records s)) := mkData patient_placement vals]> (records s) ∧
    (∀ r d aid a,
       records s !! r = Some d → d_model d = patient_placement →
       fld d "patient_id" = pid → fld d "activity_id" = Some aid →
       activities s !! aid = Some a → terminal (state a) = false →
       ∃ a', activities s' !! aid = Some a' ∧ state a' = cancelled) ∧
    (∀ aid, vals_get vals "activity_id" = Some aid →
       activities s' !! aid = activities s !! aid).
Proof.
  intros Hv Hnew Hinj. unfold NhClinicalPatientPlacement.create.
  rewrite (bind_ok _ _ _ _ _ (create_record_ok s patient_placement vals)).
  rewrite Hv. set (new := fresh (dom (records s))).
  pose proof (fresh_record_None s) as Hfresh. fold new in Hfresh.
  match goal with |- ∃ _, bind _ _ ?x = _ ∧ _ => set (s1 := x) end.
  unfold NhClinicalPatientPlacement.cancel_open_placements.
  unfold bind at 2. unfold gets at 1.
  set (l := filter (λ p, p ≠ new) (NhClinicalPatientPlacement.open_placements s1 pid).*1).
  assert (∀ p, p ∈ l ↔ p ≠ new ∧ ∃ d, records s !! p = Some d ∧
            d_model d = patient_placement ∧ fld d "patient_id" = pid ∧
            ∃ aid a, fld d "activity_id" = Some aid ∧ activities s !! aid = Some a ∧
                     terminal (state a) = false) as Hl.
  { intros p. unfold l. rewrite list_elem_of_filter, list_elem_of_fmap. split.
    - intros [Hne [[q d] [-> Hin]]]. split; [done|]. exists d.
      apply elem_of_open_placements in Hin. simpl in *.
      by rewrite lookup_insert_ne in Hin.
    - intros [Hne [d Hd]]. split; [done|]. exists (p, d). split; [done|].
      apply elem_of_open_placements. simpl. by rewrite lookup_insert_ne. }
  destruct (cancel_rows_ok l s1) as (s' & Hrun & Hrec & Hcan & Hframe).
  - apply NoDup_filter, NoDup_search.
  - intros p [Hne (d & Hd & _ & _ & aid & a & Haid & Ha & Hst)]%Hl.
    exists d, aid, a. simpl. rewrite lookup_insert_ne by done.
    repeat split; try done. intros Hc. by rewrite Hc in Hst.
  - intros p1 p2 d1 d2 aid [Hn1 _]%Hl [Hn2 _]%Hl. simpl.
    rewrite !lookup_insert_ne by done. apply Hinj.
  - exists s'. change (for_each l cancel_row s1 = Ok tt s') in Hrun.
    split.
    { unfold bind. fold l. change (for_each l _ s1) with (for_each l cancel_row s1).
      by rewrite Hrun. }
    split; [done|]. split.
    + intros r d aid a Hd Hm Hp Haid Ha Hst.
      assert (r ≠ new) as Hne by (intros ->; congruence).
      apply (Hcan r d aid); [|simpl; by rewrite lookup_insert_ne|done].
      apply Hl. split; [done|]. exists d. eauto 10.
    + intros aid Haid. rewrite Hframe; [done|].
      intros p d [Hne _]%Hl. simpl. rewrite lookup_insert_ne by done.
      intros Hd Hx. by apply (Hnew p d aid).
Qed.

Lemma placement_create_single_open_witness :
  ∃ s',
    NhClinicalPatientPlacement.create Ward.new_placement_vals Ward.placing_again
    = Ok (fresh (dom (records Ward.placing_again))) s' ∧
    records s'
    = <[fresh (dom (records Ward.placing_again))
          := mkData patient_placement Ward.new_placement_vals]>
        (records Ward.placing_again) ∧
    (∀ r d aid a,
       records Ward.placing_again !! r = Some d → d_model d = patient_placement →
       fld d "patient_id" = Some 10 → fld d "activity_id" = Some aid →
       activities Ward.placing_again !! aid = Some a → terminal (state a) = false →
       ∃ a', activities s' !! aid = Some a' ∧ state a' = cancelled) ∧
    (∀ aid, vals_get Ward.new_placement_vals "activity_id" = Some aid →
       activities s' !! aid = activities Ward.placing_again !! aid).
Proof.
  apply (placement_create_single_open Ward.placing_again Ward.new_placement_vals
           (Some 10)).
  - reflexivity.
  - assert (map_Forall (λ _ d, fld d "activity_id" ≠ Some 132)
              (records Ward.placing_again)) as Hall by compute_done.
    intros r d aid Hr Haid Hv. apply (Hall r d Hr).
    rewrite Haid, <-Hv. reflexivity.
  - assert (map_Forall (λ r1 d1, map_Forall (λ r2 d2,
              fld d1 "activity_id" = fld d2 "activity_id" →
              fld d1 "activity_id" = None ∨ r1 = r2) (records Ward.placing_again))
              (records Ward.placing_again)) as Hall by compute_done.
    intros r1 r2 d1 d2 aid H1 H2 Ha1 Ha2.
    destruct (Hall r1 d1 H1 r2 d2 H2) as [Hn|Heq]; [congruence|congruence|done].
Defined.

(** On the ward, creating the new placement of patient 10 cancels the
    open placement 131 and leaves activity 132 a draft. *)
Example ward_placement_cancelled :
  state <$> activities (store_of (NhClinicalPatientPlacement.create
                                    Ward.new_placement_vals Ward.placing_again))
              !! 131 = Some cancelled
  ∧ state <$> activities (store_of (NhClinicalPatientPlacement.create
                                      Ward.new_placement_vals Ward.placing_again))
                !! 132 = Some draft.
Proof. split; vm_compute; reflexivity. Qed.

(** ** Creating a movement *)

Lemma open_spells_unique s pidv sid :
  (∀ r, is_open_spell s pidv r ↔ r = sid) → open_spells s pidv = [sid].
Proof.
  intros Hiff.
  assert (NoDup (open_spells s pidv)) as Hnd by apply NoDup_search.
  assert (∀ r, r ∈ open_spells s pidv ↔ r = sid) as Hin
    by (intros r; by rewrite elem_of_open_spells).
  destruct (open_spells s pidv) as [|x l].
  - pose proof (proj2 (Hin sid) eq_refl) as Hsid. by apply elem_of_nil in Hsid.
  - assert (x = sid) as -> by (apply Hin; left).
    destruct l as [|y l]; [done|].
    assert (y = sid) as -> by (apply Hin; right; left).
    apply NoDup_cons in Hnd as [Hx _]. destruct Hx. left.
Qed.

Lemma open_spells_singleton_iff s pidv sid :
  open_spells s pidv = [sid] → ∀ r, is_open_spell s pidv r ↔ r = sid.
Proof.
  intros Hl r. rewrite <-elem_of_open_spells, Hl. apply list_elem_of_singleton.
Qed.

Lemma get_by_patient_id_unset_found s pidv sid :
  open_spells s pidv = [sid] → get_by_patient_id pidv None s = Ok (Some sid) s.
Proof. intros Hl. unfold get_by_patient_id. msimpl. by rewrite Hl. Qed.

Lemma write_activity_ok s aid a vals :
  activities s !! aid = Some a →
  write_activity aid vals s
  = Ok tt (mkStore (<[aid := apply_vals vals (next_sequence s) a]> (activities s))
                   (records s) (patients s) (locations s) (poses s) (clock s)
                   (journal s ++ [EvWriteActivity aid vals])).
Proof. intros Ha. unfold write_activity, browse. msimpl. by rewrite Ha. Qed.

Lemma create_move_ok s parent creator (vals : Vals) pidv sid dsp :
  vals !! "patient_id" = Some pidv →
  vals !! "parent_id" = None →
  open_spells (activity_created patient_move parent creator s) pidv = [sid] →
  records s !! sid = Some dsp →
  create_activity nh_activity.submit patient_move parent creator vals s
  = Ok (fresh (dom (activities s)))
       (move_created (fld dsp "activity_id") creator vals s).
Proof.
  intros Hp Hnp Hop Hsp. unfold create_activity. msimpl.
  set (aid := fresh (dom (activities s))) in *.
  set (a0 := mkActivity patient_move draft parent creator 0 None None).
  rewrite bool_decide_eq_false_2 by (intros ->; by rewrite lookup_empty in Hp).
  unfold nh_activity.submit, browse. msimpl. rewrite lookup_insert_eq. simpl. msimpl.
  unfold nh_clinical_patient_move.submit, has_key.
  rewrite bool_decide_eq_true_2 by (by rewrite Hp).
  rewrite bool_decide_eq_false_2 by (rewrite Hnp; by intros [? ?]).
  simpl. unfold vals_get. rewrite Hp. simpl.
  match goal with |- match bind _ _ ?x with _ => _ end = _ => set (s1 := x) end.
  change s1 with (activity_created patient_move parent creator s) in *.
  unfold bind at 1. unfold bind at 1.
  rewrite (get_by_patient_id_unset_found _ _ _ Hop).
  assert (records (activity_created patient_move parent creator s) !! sid = Some dsp)
    as Hsp1 by done.
  rewrite (bind_ok _ _ _ _ _ (browse_record_ok _ _ _ Hsp1)).
  assert (activities (activity_created patient_move parent creator s) !! aid = Some a0)
    as Ha0 by apply lookup_insert_eq.
  rewrite (write_activity_ok _ _ _ _ Ha0). simpl.
  unfold base_submit, browse. msimpl. rewrite lookup_insert_eq. simpl. msimpl.
  unfold create_record, write_activity, browse. msimpl. rewrite lookup_insert_eq.
  simpl. unfold move_created. fold aid.
  rewrite !insert_insert_eq. rewrite <-!app_assoc. simpl. done.
Qed.

Lemma open_spells_after s s' pidv sid dsp P ap :
  (∀ r d, d_model d = spell → records s' !! r = Some d ↔ records s !! r = Some d) →
  records s !! sid = Some dsp → d_model dsp = spell →
  fld dsp "patient_id" = pidv → fld dsp "activity_id" = Some P →
  activities s' !! P = Some ap → terminal (state ap) = false →
  (∀ r d aid a, records s !! r = Some d → d_model d = spell →
     fld d "patient_id" = pidv → fld d "activity_id" = Some aid →
     activities s' !! aid = Some a → terminal (state a) = false → r = sid) →
  open_spells s' pidv = [sid].
Proof.
  intros Hrows Hsid Hm Hp HP Hap Hst Huniq. apply open_spells_unique. intros r. split.
  - intros (d & aid & a & Hd & Hdm & Hdp & Hda & Ha & Has).
    apply (Huniq r d aid a); try done. by apply Hrows.
  - intros ->. exists dsp, P, ap. repeat split; try done. by apply Hrows.
Qed.

Lemma fresh_activity_ne s i a :
  activities s !! i = Some a → i ≠ fresh (dom (activities s)).
Proof. intros Hi ->. by rewrite fresh_activity_None in Hi. Qed.

Lemma fresh_record_ne s i d :
  records s !! i = Some d → i ≠ fresh (dom (records s)).
Proof. intros Hi ->. by rewrite fresh_record_None in Hi. Qed.

Lemma rows_have_activities_fresh s r d :
  rows_have_activities s → records s !! r = Some d →
  fld d "activity_id" ≠ Some (fresh (dom (activities s))).
Proof.
  intros Hwf Hr Heq. specialize (Hwf r d Hr). simpl in Hwf. rewrite Heq in Hwf.
  destruct Hwf as [?|[a Ha]]; [done|]. simpl in Ha.
  by rewrite fresh_activity_None in Ha.
Qed.

Lemma dom_insert_existing {A} (m : gmap Z A) i x y :
  m !! i = Some x → dom (<[i := y]> m) = dom m.
Proof.
  intros Hi. rewrite dom_insert_L.
  apply subseteq_union_1_L, singleton_subseteq_l, elem_of_dom. eauto.
Qed.

Lemma fld_move_row aid vals k :
  k ≠ "activity_id" → fld (move_row aid vals) k = vals_get vals k.
Proof.
  intros Hne. unfold fld, move_row, vals_get. simpl.
  by rewrite lookup_insert_ne.
Qed.

(** Completing, through the dispatcher, the movement that [create_activity]
    has just made under the spell activity [P]. *)
Lemma complete_created_move n s P creator (vals : Vals) pid dest ap rp dp :
  vals_get vals "patient_id" = Some pid →
  vals_get vals "location_id" = Some dest →
  is_Some (patients s !! pid) →
  activities s !! P = Some ap →
  data_model ap = spell →
  terminal (state ap) = false →
  data_ref ap = Some rp →
  records s !! rp = Some dp →
  nh_activity.complete (S n) (fresh (dom (activities s)))
    (move_created (Some P) creator vals s)
  = Ok tt (move_completed (fresh (dom (activities s)))
             (move_activity (Some P) creator (fresh (dom (records s))))
             (fresh (dom (records s)))
             (move_row (fresh (dom (activities s))) vals) pid dest
             (Some (P, rp, dp)) (move_created (Some P) creator vals s)).
Proof.
  intros Hp Hl Hpat HP Hm Hst Hr Hd.
  set (m := fresh (dom (activities s))). set (rm := fresh (dom (records s))).
  assert (activities (move_created (Some P) creator vals s) !! m
          = Some (move_activity (Some P) creator rm)) as Ham by apply lookup_insert_eq.
  simpl. rewrite (bind_ok _ _ _ _ _ (browse_ok _ _ _ Ham)). simpl.
  apply move_complete_ok; try done.
  - apply lookup_insert_eq.
  - by rewrite fld_move_row.
  - by rewrite fld_move_row.
  - simpl. split; [done|]. split; [by eapply fresh_record_ne|].
    exists ap. split.
    { rewrite lookup_insert_ne; [done|]. apply not_eq_sym. by eapply fresh_activity_ne. }
    repeat split; try done.
    rewrite lookup_insert_ne; [done|]. apply not_eq_sym. by eapply fresh_record_ne.
Qed.

Lemma complete_spell_ok n s P ap :
  activities s !! P = Some ap →
  data_model ap = spell →
  nh_activity.complete (S n) P s = base_complete P s.
Proof.
  intros HP Hm. simpl. rewrite (bind_ok _ _ _ _ _ (browse_ok _ _ _ HP)).
  by rewrite Hm.
Qed.

Lemma complete_move_dispatch n s m am :
  activities s !! m = Some am →
  data_model am = patient_move →
  nh_activity.complete (S n) m s
  = nh_clinical_patient_move.complete nh_activity.submit m s.
Proof.
  intros Hm Hmm. simpl. rewrite (bind_ok _ _ _ _ _ (browse_ok _ _ _ Hm)).
  by rewrite Hmm.
Qed.

Global Arguments nh_activity.complete : simpl never.
Global Arguments nh_activity.submit : simpl never.

(** What [move_created] and [move_completed] leave of the tables. *)
Lemma move_created_activities parent creator vals s :
  activities (move_created parent creator vals s)
  = <[fresh (dom (activities s))
        := move_activity parent creator (fresh (dom (records s)))]> (activities s).
Proof. done. Qed.

Lemma move_created_records parent creator vals s :
  records (move_created parent creator vals s)
  = <[fresh (dom (records s)) := move_row (fresh (dom (activities s))) vals]> (records s).
Proof. done. Qed.

Lemma move_completed_activities m am rm dm pid dest par s :
  activities (move_completed m am rm dm pid dest par s)
  = <[m := set_state completed (next_sequence s) (Some (clock s)) am]> (activities s).
Proof. done. Qed.

Lemma move_completed_patients m am rm dm pid dest par s :
  patients (move_completed m am rm dm pid dest par s)
  = <[pid := mkPatient (Some dest)]> (patients s).
Proof. done. Qed.

Lemma move_completed_records_ne m am rm dm pid dest par s r :
  r ≠ rm → ¬ parent_row par r →
  records (move_completed m am rm dm pid dest par s) !! r = records s !! r.
Proof.
  intros Hne Hnp. unfold move_completed. simpl.
  destruct par as [[[P rp] dp]|]; simpl in Hnp;
    destruct (fld dm "move_datetime"); by rewrite !lookup_insert_ne.
Qed.

Lemma move_completed_row m am rm dm pid dest P rp dp s :
  rp ≠ rm →
  ∃ dm', records (move_completed m am rm dm pid dest (Some (P, rp, dp)) s) !! rm = Some dm'
         ∧ (∀ k, k ≠ "from_location_id" → k ≠ "move_datetime" → fld dm' k = fld dm k).
Proof.
  intros Hne. unfold move_completed. simpl.
  destruct (fld dm "move_datetime").
  - eexists. split; [rewrite lookup_insert_ne by done; apply lookup_insert_eq|].
    intros k H1 H2. by rewrite fld_written_singleton_ne.
  - eexists. split; [apply lookup_insert_eq|].
    intros k H1 H2. by rewrite !fld_written_singleton_ne.
Qed.

Lemma move_completed_parent_row m am rm dm pid dest P rp dp s :
  rp ≠ rm →
  records (move_completed m am rm dm pid dest (Some (P, rp, dp)) s) !! rp
  = Some (written {[ "location_id" := Some dest ]} dp).
Proof.
  intros Hne. unfold move_completed. simpl.
  destruct (fld dm "move_datetime").
  - apply lookup_insert_eq.
  - rewrite lookup_insert_ne by done. apply lookup_insert_eq.
Qed.

Lemma move_completed_journal m am rm dm pid dest par s :
  ∃ mid, journal (move_completed m am rm dm pid dest par s)
         = journal s ++ mid ++ [EvBaseComplete m].
Proof.
  unfold move_completed. simpl.
  exists ([EvWriteRecord rm {[ "from_location_id" := last_move_location s (Some pid) ]};
           EvWritePatient pid (Some dest)]
          ++ match par with
             | Some (P, rp, _) =>
                 [EvBaseSubmit P {[ "location_id" := Some dest ]};
                  EvWriteRecord rp {[ "location_id" := Some dest ]}]
             | None => []
             end
          ++ match fld dm "move_datetime" with
             | None => [EvWriteRecord rm {[ "move_datetime" := Some (clock s) ]}]
             | Some _ => []
             end).
  by rewrite <-?app_assoc.
Qed.

(** C7: discharge [complete] calls the base completion first, then creates
    a movement under the parent spell to the discharge location (the one with
    the fixed code, or else the default location of the spell's point of
    service) with the [discharge_date] as [move_datetime], completes that
    movement, completes the parent spell and, exactly when a [discharge_date]
    was given, writes it as the spell activity's [date_terminated]. *)
Theorem discharge_complete_steps (n : nat) (s : Store) (aid rid pid P rp dest : Z)
    (a ap : Activity) (d dp : Data) :
  activities s !! aid = Some a →
  data_model a = patient_discharge →
  terminal (state a) = false →
  data_ref a = Some rid →
  records s !! rid = Some d →
  d_model d = patient_discharge →
  fld d "patient_id" = Some pid →
  is_Some (patients s !! pid) →
  parent_id a = Some P →
  activities s !! P = Some ap →
  data_model ap = spell →
  terminal (state ap) = false →
  data_ref ap = Some rp →
  records s !! rp = Some dp →
  d_model dp = spell →
  fld dp "patient_id" = Some pid →
  fld dp "activity_id" = Some P →
  open_spells s (Some pid) = [rp] →
  rows_have_activities s →
  discharge_destination s dp = Some dest →
  let m := fresh (dom (activities s)) in
  let rm := fresh (dom (records s)) in
  let vals : Vals := <["patient_id" := Some pid]>
                       (<["location_id" := Some dest]>
                          {[ "move_datetime" := fld d "discharge_date" ]}) in
  ∃ s' mid,
    nh_clinical_patient_discharge.complete nh_activity.submit
      (nh_activity.complete (S n)) aid s = Ok tt s'
    ∧ journal s'
      = journal s
          ++ [EvBaseComplete aid;
              EvCreateActivity m patient_move;
              EvWriteActivity m (mkActivityVals (Some (Some P)) None None None None);
              EvBaseSubmit m vals;
              EvCreateRecord rm patient_move;
              EvWriteActivity m (linked rm)]
          ++ mid
          ++ [EvBaseComplete m; EvBaseComplete P]
          ++ match fld d "discharge_date" with
             | Some t => [EvWriteActivity P
                            (mkActivityVals None None None (Some (Some t)) None)]
             | None => []
             end
    ∧ (∃ am dm, activities s' !! m = Some am ∧ data_model am = patient_move ∧
                state am = completed ∧ parent_id am = Some P ∧
                creator_id am = Some aid ∧ data_ref am = Some rm ∧
                records s' !! rm = Some dm ∧ fld dm "patient_id" = Some pid ∧
                fld dm "location_id" = Some dest)
    ∧ (∃ ap', activities s' !! P = Some ap' ∧ state ap' = completed ∧
              date_terminated ap' = Some (default (clock s) (fld d "discharge_date")))
    ∧ (∃ a', activities s' !! aid = Some a' ∧ state a' = completed)
    ∧ patients s' !! pid = Some (mkPatient (Some dest)).
Proof.
  intros Ha Hm Hst Hr Hd Hdm Hpid Hpat Hpar HP HPm HPst HPr Hdp Hdpm Hdpp Hdpa
    Hop Hwf Hdest m rm vals.
  assert (P ≠ aid) as HPaid by (intros ->; congruence).
  assert (rp ≠ rid) as Hrprid by (intros ->; congruence).
  unfold nh_clinical_patient_discharge.complete.
  mstep (base_complete_ok s aid a Ha Hst).
  set (a1 := set_state completed (next_sequence s) (Some (clock s)) a).
  match goal with |- ∃ _ _, bind _ _ ?x = _ ∧ _ => set (s1 := x) end.
  assert (activities s1 !! aid = Some a1) as Ha1 by apply lookup_insert_eq.
  assert (activities s1 !! P = Some ap) as HP1
    by (simpl; by rewrite lookup_insert_ne).
  assert (dom (activities s1) = dom (activities s)) as Hdom1
    by (by eapply dom_insert_existing).
  mstep (browse_ok _ _ _ Ha1).
  unfold bind at 1. unfold gets at 1.
  assert ((match (search (λ _ l, bool_decide
                     (loc_code l = nh_clinical_patient_discharge.discharge_location_code))
                    (locations s1)).*1 with
           | l :: _ => ret (Some l)
           | [] => nh_clinical_patient_discharge.pos_default_location aid
           end) s1 = Ok (Some dest) s1) as Hloc.
  { revert Hdest. unfold discharge_destination, discharge_location_ids.
    change (locations s1) with (locations s).
    destruct ((search _ (locations s)).*1) as [|l ls]; [|by intros ->].
    intros Hpos. unfold nh_clinical_patient_discharge.pos_default_location.
    rewrite (bind_ok _ _ _ _ _ (browse_ok _ _ _ Ha1)). simpl. rewrite Hpar.
    unfold the_id, bind at 1, ret at 1.
    rewrite (bind_ok _ _ _ _ _ (data_field_ok s1 P ap rp dp _ HP1 HPr Hdp)).
    unfold gets. simpl. by rewrite Hpos. }
  rewrite (bind_ok _ _ _ _ _ Hloc).
  rewrite (bind_ok _ _ _ _ _ (data_field_ok s1 aid a1 rid d _ Ha1 Hr Hd)), Hpid.
  rewrite (bind_ok _ _ _ _ _ (data_field_ok s1 aid a1 rid d _ Ha1 Hr Hd)).
  fold vals. simpl parent_id. rewrite Hpar.
  assert (open_spells (activity_created patient_move (Some P) (Some aid) s1) (Some pid)
          = [rp]) as Hop1.
  { apply (open_spells_after s _ (Some pid) rp dp P ap); try done.
    - simpl. rewrite lookup_insert_ne; [done|].
      apply not_eq_sym. by apply (fresh_activity_ne s1 P ap).
    - intros r dr ar x Hdr Hdrm Hdrp Hdra Hx Hxs.
      apply (open_spells_singleton_iff _ _ _ Hop).
      simpl in Hx.
      change (dom (<[aid:=a1]> (activities s))) with (dom (activities s1)) in Hx.
      rewrite Hdom1 in Hx. fold m in Hx.
      rewrite lookup_insert in Hx. case_decide as Hc1.
      { subst ar. by destruct (rows_have_activities_fresh s r dr Hwf Hdr). }
      rewrite lookup_insert in Hx. case_decide as Hc2.
      { by simplify_eq. }
      exists dr, ar, x. repeat split; done. }
  assert (vals !! "patient_id" = Some (Some pid)) as Hv1 by done.
  assert (vals !! "parent_id" = None) as Hv2 by done.
  rewrite (bind_ok _ _ _ _ _
             (create_move_ok s1 (Some P) (Some aid) vals (Some pid) rp dp
                Hv1 Hv2 Hop1 Hdp)).
  rewrite Hdpa.
  assert (vals_get vals "patient_id" = Some pid) as Hg1 by done.
  assert (vals_get vals "location_id" = Some dest) as Hg2 by done.
  assert (is_Some (patients s1 !! pid)) as Hpat1 by done.
  rewrite (bind_ok _ _ _ _ _
             (complete_created_move n s1 P (Some aid) vals pid dest ap rp dp
                Hg1 Hg2 Hpat1 HP1 HPm HPst HPr Hdp)).
  rewrite Hdom1. change (fresh (dom (records s1))) with rm. fold m.
  set (s2 := move_created (Some P) (Some aid) vals s1).
  set (am := move_activity (Some P) (Some aid) rm).
  set (s3 := move_completed m am rm (move_row m vals) pid dest (Some (P, rp, dp)) s2).
  assert (m ≠ P) as HmP by (apply not_eq_sym; by eapply fresh_activity_ne).
  assert (m ≠ aid) as Hmaid by (apply not_eq_sym; by eapply fresh_activity_ne).
  assert (rm ≠ rp) as Hrmrp by (apply not_eq_sym; by eapply fresh_record_ne).
  assert (rm ≠ rid) as Hrmrid by (apply not_eq_sym; by eapply fresh_record_ne).
  assert (activities s2 = <[m := am]> (<[aid := a1]> (activities s))) as Hact2.
  { unfold s2. rewrite move_created_activities, Hdom1. done. }
  assert (records s2 = <[rm := move_row m vals]> (records s)) as Hrec2.
  { unfold s2. rewrite move_created_records, Hdom1. done. }
  set (am3 := set_state completed (next_sequence s2) (Some (clock s2)) am).
  assert (activities s3 = <[m := am3]> (activities s2)) as Hact3 by done.
  destruct (move_completed_row m am rm (move_row m vals) pid dest P rp dp s2)
    as (dm' & Hdm' & Hdmk); [done|]. fold s3 in Hdm'.
  destruct (move_completed_journal m am rm (move_row m vals) pid dest
              (Some (P, rp, dp)) s2) as (mid & Hj3). fold s3 in Hj3.
  assert (records s3 !! rid = Some d) as Hd3.
  { unfold s3. rewrite move_completed_records_ne; [|done|simpl; congruence].
    rewrite Hrec2. by rewrite lookup_insert_ne. }
  assert (patients s3 !! pid = Some (mkPatient (Some dest))) as Hpat3.
  { unfold s3. rewrite move_completed_patients. apply lookup_insert_eq. }
  assert (clock s3 = clock s) as Hclock3 by done.
  assert (journal s2 = journal s
            ++ [EvBaseComplete aid;
                EvCreateActivity m patient_move;
                EvWriteActivity m (mkActivityVals (Some (Some P)) None None None None);
                EvBaseSubmit m vals;
                EvCreateRecord rm patient_move;
                EvWriteActivity m (linked rm)]) as Hj2.
  { unfold s2, move_created. rewrite Hdom1. simpl. by rewrite <-app_assoc. }
  clearbody s3. clearbody s2. clear Hloc Hop1.
  unfold the_id, bind at 1, ret at 1.
  assert (activities s3 !! P = Some ap) as HP3.
  { rewrite Hact3, Hact2. by rewrite !lookup_insert_ne. }
  rewrite (bind_ok _ _ _ _ _
             (eq_trans (complete_spell_ok n s3 P ap HP3 HPm)
                       (base_complete_ok s3 P ap HP3 HPst))).
  set (ap4 := set_state completed (next_sequence s3) (Some (clock s3)) ap).
  match goal with |- ∃ _ _, bind _ _ ?x = _ ∧ _ => set (s4 := x) end.
  assert (activities s4 !! aid = Some a1) as Ha4.
  { simpl. rewrite Hact3, Hact2. rewrite !lookup_insert_ne by done.
    apply lookup_insert_eq. }
  assert (records s4 !! rid = Some d) as Hd4 by done.
  rewrite (bind_ok _ _ _ _ _ (data_field_ok s4 aid a1 rid d _ Ha4 Hr Hd4)).
  assert (activities s4 !! m = Some am3) as Hm4.
  { simpl. rewrite lookup_insert_ne by done. rewrite Hact3. apply lookup_insert_eq. }
  assert (activities s4 !! P = Some ap4) as HP4 by apply lookup_insert_eq.
  assert (records s4 !! rm = Some dm') as Hrm4 by done.
  assert (patients s4 !! pid = Some (mkPatient (Some dest))) as Hpat4 by done.
  assert (journal s4 = journal s
            ++ [EvBaseComplete aid;
                EvCreateActivity m patient_move;
                EvWriteActivity m (mkActivityVals (Some (Some P)) None None None None);
                EvBaseSubmit m vals;
                EvCreateRecord rm patient_move;
                EvWriteActivity m (linked rm)]
            ++ mid ++ [EvBaseComplete m; EvBaseComplete P]) as Hj4.
  { simpl. rewrite Hj3, Hj2. by rewrite <-!app_assoc. }
  assert (fld dm' "patient_id" = Some pid) as Hdm1
    by (rewrite Hdmk by done; by rewrite fld_move_row).
  assert (fld dm' "location_id" = Some dest) as Hdm2
    by (rewrite Hdmk by done; by rewrite fld_move_row).
  assert (P ≠ m) as HPm' by (by apply not_eq_sym).
  clearbody s4.
  destruct (fld d "discharge_date") as [t|] eqn:Hdd.
  - rewrite (write_activity_ok s4 P ap4 _ HP4).
    eexists. exists mid. split; [done|].
    cbn [activities records patients journal].
    split. { rewrite Hj4. by rewrite <-?app_assoc. }
    split.
    { exists am3, dm'. rewrite lookup_insert_ne by done. by repeat split. }
    split. { eexists. split; [apply lookup_insert_eq|]. done. }
    split; [|done].
    exists a1. rewrite lookup_insert_ne by done. done.
  - unfold ret. exists s4, mid. split; [done|].
    split. { rewrite Hj4. by rewrite <-?app_assoc, ?app_nil_r. }
    split. { exists am3, dm'. by repeat split. }
    split. { exists ap4. split; [done|]. split; [done|]. simpl. by rewrite Hclock3. }
    split; [|done]. by exists a1.
Qed.

Lemma discharge_complete_steps_witness :
  ∃ s' mid,
    nh_clinical_patient_discharge.complete nh_activity.submit
      (nh_activity.complete 1) 150 Ward.discharging = Ok tt s'
    ∧ journal s'
      = journal Ward.discharging
          ++ [EvBaseComplete 150;
              EvCreateActivity (fresh (dom (activities Ward.discharging))) patient_move;
              EvWriteActivity (fresh (dom (activities Ward.discharging)))
                (mkActivityVals (Some (Some 100)) None None None None);
              EvBaseSubmit (fresh (dom (activities Ward.discharging)))
                (<["patient_id" := Some 10]>
                   (<["location_id" := Some 4]>
                      {[ "move_datetime" := fld Ward.discharge_row_250 "discharge_date" ]}));
              EvCreateRecord (fresh (dom (records Ward.discharging))) patient_move;
              EvWriteActivity (fresh (dom (activities Ward.discharging)))
                (linked (fresh (dom (records Ward.discharging))))]
          ++ mid
          ++ [EvBaseComplete (fresh (dom (activities Ward.discharging)));
              EvBaseComplete 100]
          ++ match fld Ward.discharge_row_250 "discharge_date" with
             | Some t => [EvWriteActivity 100
                            (mkActivityVals None None None (Some (Some t)) None)]
             | None => []
             end
    ∧ (∃ am dm, activities s' !! fresh (dom (activities Ward.discharging)) = Some am ∧
                data_model am = patient_move ∧
                state am = completed ∧ parent_id am = Some 100 ∧
                creator_id am = Some 150 ∧
                data_ref am = Some (fresh (dom (records Ward.discharging))) ∧
                records s' !! fresh (dom (records Ward.discharging)) = Some dm ∧
                fld dm "patient_id" = Some 10 ∧
                fld dm "location_id" = Some 4)
    ∧ (∃ ap', activities s' !! 100 = Some ap' ∧ state ap' = completed ∧
              date_terminated ap'
              = Some (default (clock Ward.discharging)
                        (fld Ward.discharge_row_250 "discharge_date")))
    ∧ (∃ a', activities s' !! 150 = Some a' ∧ state a' = completed)
    ∧ patients s' !! 10 = Some (mkPatient (Some 4)).
Proof.
  apply (discharge_complete_steps 0 Ward.discharging 150 250 10 100 200 4
           Ward.discharge_150 Ward.spell_of_10
           Ward.discharge_row_250 Ward.spell_row_10);
    try reflexivity.
  - by eexists.
  - compute_done.
Defined.

Lemma move_retarget_ok s m am rm dm (vals : Vals) :
  activities s !! m = Some am →
  data_model am = patient_move →
  terminal (state am) = false →
  data_ref am = Some rm →
  records s !! rm = Some dm →
  vals !! "patient_id" = None →
  nh_activity.submit m vals s
  = Ok tt (mkStore (activities s) (<[rm := written vals dm]> (records s))
                   (patients s) (locations s) (poses s) (clock s)
                   (journal s ++ [EvBaseSubmit m vals; EvWriteRecord rm vals])).
Proof.
  intros Hm Hmm Hst Hr Hd Hv. unfold nh_activity.submit.
  rewrite (bind_ok _ _ _ _ _ (browse_ok _ _ _ Hm)). rewrite Hmm.
  unfold nh_clinical_patient_move.submit, has_key.
  rewrite bool_decide_eq_false_2 by (rewrite Hv; by intros [? ?]).
  cbn [andb]. unfold bind at 1, ret at 1. unfold base_submit.
  rewrite (bind_ok _ _ _ _ _ (browse_ok _ _ _ Hm)). rewrite Hst, Hr.
  unfold bind at 1. unfold modify at 1.
  erewrite write_record_ok by (simpl; exact Hd).
  simpl. by rewrite <-app_assoc.
Qed.

Lemma get_last_true_none s pidv :
  nh_clinical_patient_admission.active_admissions s pidv = [] →
  nh_clinical_patient_admission.get_last pidv (Some true) s = Ok None s.
Proof.
  intros Hnil. unfold nh_clinical_patient_admission.get_last. msimpl.
  by rewrite Hnil.
Qed.

(** C6: cancelling a completed discharge puts the parent spell back to
    [started] with no termination date and creates a movement of the patient
    under that spell.  When the record of the location the patient was
    discharged from has usage [bed] and its availability flag set, the
    movement is completed to it and that is all; otherwise the movement is
    submitted again with the nearest ward ancestor of that location (the
    location itself when it is a ward), completed to that ward, and the
    policy trigger is fired for the ward. *)
Theorem discharge_cancel_reopens (n : nat) (s : Store) (aid rid pid P rp L target : Z)
    (a ap : Activity) (d dp : Data) (loc : Location) :
  activities s !! aid = Some a →
  data_model a = patient_discharge →
  state a = completed →
  data_ref a = Some rid →
  records s !! rid = Some d →
  d_model d = patient_discharge →
  fld d "patient_id" = Some pid →
  fld d "location_id" = Some L →
  locations s !! L = Some loc →
  is_Some (patients s !! pid) →
  nh_clinical_patient_admission.active_admissions s (Some pid) = [] →
  parent_id a = Some P →
  activities s !! P = Some ap →
  data_model ap = spell →
  state ap = completed →
  data_ref ap = Some rp →
  records s !! rp = Some dp →
  d_model dp = spell →
  fld dp "patient_id" = Some pid →
  fld dp "activity_id" = Some P →
  (∀ r dr, records s !! r = Some dr → fld dr "activity_id" = Some P → r = rp) →
  open_spells s (Some pid) = [] →
  rows_have_activities s →
  let direct := bool_decide (usage loc = "bed") && is_available loc in
  (if direct then target = L
   else (if bool_decide (usage loc ≠ "ward")
         then closest_parent (locations s) (size (locations s)) (Some L) "ward"
         else Some L) = Some target) →
  let m := fresh (dom (activities s)) in
  let rm := fresh (dom (records s)) in
  ∃ s' pre,
    nh_clinical_patient_discharge.cancel nh_activity.submit
      (nh_activity.complete (S n)) aid s = Ok tt s'
    ∧ (∃ a', activities s' !! aid = Some a' ∧ state a' = cancelled)
    ∧ (∃ ap', activities s' !! P = Some ap' ∧ state ap' = started ∧
              date_terminated ap' = None)
    ∧ (∃ am dm, activities s' !! m = Some am ∧ data_model am = patient_move ∧
                state am = completed ∧ parent_id am = Some P ∧
                creator_id am = Some aid ∧ data_ref am = Some rm ∧
                records s' !! rm = Some dm ∧ fld dm "patient_id" = Some pid ∧
                fld dm "location_id" = Some target)
    ∧ patients s' !! pid = Some (mkPatient (Some target))
    ∧ journal s'
      = journal s
          ++ [EvBaseCancel aid;
              EvWriteActivity P (mkActivityVals None None (Some started) (Some None) None);
              EvCreateActivity m patient_move]
          ++ pre
          ++ (if direct then [EvBaseComplete m]
              else [EvBaseComplete m; EvTriggerPolicy aid (Some target)])
    ∧ (direct = false →
       ∃ pre1 pre2, pre = pre1 ++ [EvBaseSubmit m {[ "location_id" := Some target ]}]
                            ++ pre2).
Proof.
  intros Ha Hm Hst Hr Hd Hdm Hpid HL Hloc Hpat Hadm Hpar HP HPm HPst HPr Hdp Hdpm Hdpp
    Hdpa Hown Hop Hwf.
  assert (location_usage s (Some L) = Some (usage loc)) as HlocU
    by (unfold location_usage; simpl; by rewrite Hloc).
  assert (location_is_available s (Some L) = is_available loc) as HlocA
    by (unfold location_is_available; simpl; by rewrite Hloc).
  replace (bool_decide (usage loc = "bed"))
    with (bool_decide (location_usage s (Some L) = Some "bed"))
    by (rewrite HlocU; apply bool_decide_ext; split; congruence).
  replace (bool_decide (usage loc ≠ "ward"))
    with (bool_decide (location_usage s (Some L) ≠ Some "ward"))
    by (rewrite HlocU; apply bool_decide_ext; split; congruence).
  rewrite <-HlocA. clear loc Hloc HlocU HlocA.
  intros direct Htarget m rm.
  assert (P ≠ aid) as HPaid by (intros ->; congruence).
  assert (rp ≠ rid) as Hrprid by (intros ->; congruence).
  unfold nh_clinical_patient_discharge.cancel.
  rewrite (bind_ok _ _ _ _ _ (browse_ok _ _ _ Ha)).
  rewrite (bind_ok _ _ _ _ _ (data_field_ok s aid a rid d _ Ha Hr Hd)), Hpid.
  rewrite (bind_ok _ _ _ _ _ (get_last_true_none s _ Hadm)).
  assert (state a ≠ cancelled) as Hnc by (rewrite Hst; done).
  rewrite (bind_ok _ _ _ _ _ (base_cancel_ok s aid a Ha Hnc)).
  set (a1 := set_state cancelled (next_sequence s) (Some (clock s)) a).
  match goal with |- ∃ _ _, bind _ _ ?x = _ ∧ _ => set (s1 := x) end.
  rewrite Hpar. unfold the_id, bind at 1, ret at 1.
  assert (activities s1 !! P = Some ap) as HP1 by (simpl; by rewrite lookup_insert_ne).
  rewrite (bind_ok _ _ _ _ _ (write_activity_ok s1 P ap _ HP1)).
  set (ap2 := apply_vals (mkActivityVals None None (Some started) (Some None) None)
                (next_sequence s1) ap).
  match goal with |- ∃ _ _, bind _ _ ?x = _ ∧ _ => set (s2 := x) end.
  assert (activities s2 = <[P := ap2]> (<[aid := a1]> (activities s))) as Hact2 by done.
  assert (records s2 = records s) as Hrec2 by done.
  assert (dom (activities s2) = dom (activities s)) as Hdom2.
  { rewrite Hact2. rewrite (dom_insert_existing _ P ap ap2).
    - by eapply dom_insert_existing.
    - by rewrite lookup_insert_ne. }
  assert (journal s2 = journal s
            ++ [EvBaseCancel aid;
                EvWriteActivity P (mkActivityVals None None (Some started) (Some None) None)])
    as Hj2 by (simpl; by rewrite <-app_assoc).
  assert (activities s2 !! aid = Some a1) as Ha2.
  { rewrite Hact2. rewrite lookup_insert_ne by done. apply lookup_insert_eq. }
  assert (activities s2 !! P = Some ap2) as HP2
    by (rewrite Hact2; apply lookup_insert_eq).
  assert (records s2 !! rid = Some d) as Hd2 by done.
  assert (records s2 !! rp = Some dp) as Hdp2 by done.
  assert (patients s2 = patients s) as Hpat2 by done.
  assert (locations s2 = locations s) as Hloc2 by done.
  rewrite (bind_ok _ _ _ _ _ (data_field_ok s2 aid a1 rid d _ Ha2 Hr Hd2)), Hpid.
  rewrite (bind_ok _ _ _ _ _ (data_field_ok s2 aid a1 rid d _ Ha2 Hr Hd2)), HL.
  rewrite (bind_ok _ _ _ _ _ (data_field_ok s2 aid a1 rid d _ Ha2 Hr Hd2)).
  set (vals := (<["patient_id" := Some pid]>
                  (<["location_id" := Some L]>
                     {[ "move_datetime" := fld d "discharge_date" ]})) : Vals).
  assert (m ≠ P) as HmP by (apply not_eq_sym; by eapply fresh_activity_ne).
  assert (m ≠ aid) as Hmaid by (apply not_eq_sym; by eapply fresh_activity_ne).
  assert (rm ≠ rp) as Hrmrp by (apply not_eq_sym; by eapply fresh_record_ne).
  assert (rm ≠ rid) as Hrmrid by (apply not_eq_sym; by eapply fresh_record_ne).
  assert (terminal (state ap2) = false) as HPst2 by done.
  assert (open_spells (activity_created patient_move (Some P) (Some aid) s2) (Some pid)
          = [rp]) as Hop2.
  { apply (open_spells_after s _ (Some pid) rp dp P ap2); try done.
    - unfold activity_created. cbn [activities]. rewrite Hdom2. fold m.
      by rewrite lookup_insert_ne.
    - intros r dr ar x Hdr Hdrm Hdrp Hdra Hx Hxs.
      unfold activity_created in Hx. cbn [activities] in Hx.
      rewrite Hdom2 in Hx. fold m in Hx.
      rewrite lookup_insert in Hx. case_decide as Hc1.
      { subst ar. by destruct (rows_have_activities_fresh s r dr Hwf Hdr). }
      rewrite Hact2 in Hx.
      rewrite lookup_insert in Hx. case_decide as Hc2.
      { subst ar. by apply (Hown r dr). }
      rewrite lookup_insert in Hx. case_decide as Hc3.
      { by simplify_eq. }
      destruct (open_spells_nil s (Some pid) Hop r).
      exists dr, ar, x. by repeat split. }
  assert (vals !! "patient_id" = Some (Some pid)) as Hv1 by done.
  assert (vals !! "parent_id" = None) as Hv2 by done.
  rewrite (bind_ok _ _ _ _ _
             (create_move_ok s2 (Some P) (Some aid) vals (Some pid) rp dp
                Hv1 Hv2 Hop2 Hdp2)).
  rewrite Hdpa. rewrite Hdom2. change (fresh (dom (records s2))) with rm. fold m.
  set (s3 := move_created (Some P) (Some aid) vals s2).
  set (am := move_activity (Some P) (Some aid) rm).
  assert (activities s3 = <[m := am]> (activities s2)) as Hact3.
  { unfold s3. rewrite move_created_activities, Hdom2. done. }
  assert (records s3 = <[rm := move_row m vals]> (records s)) as Hrec3.
  { unfold s3. rewrite move_created_records, Hdom2. done. }
  assert (journal s3 = journal s
            ++ [EvBaseCancel aid;
                EvWriteActivity P (mkActivityVals None None (Some started) (Some None) None);
                EvCreateActivity m patient_move]
            ++ [EvWriteActivity m (mkActivityVals (Some (Some P)) None None None None);
                EvBaseSubmit m vals;
                EvCreateRecord rm patient_move;
                EvWriteActivity m (linked rm)]) as Hj3.
  { unfold s3, move_created. rewrite Hdom2. cbn [journal]. rewrite Hj2.
    by rewrite <-?app_assoc. }
  assert (activities s3 !! aid = Some a1) as Ha3
    by (rewrite Hact3; by rewrite lookup_insert_ne).
  assert (records s3 !! rid = Some d) as Hd3
    by (rewrite Hrec3; by rewrite lookup_insert_ne).
  assert (patients s3 = patients s) as Hpat3 by done.
  assert (locations s3 = locations s) as Hloc3 by done.
  rewrite (bind_ok _ _ _ _ _ (data_field_ok s3 aid a1 rid d _ Ha3 Hr Hd3)), HL.
  unfold bind at 1. unfold gets at 1. unfold bind at 1. unfold gets at 1.
  unfold location_usage at 1 2, location_is_available at 1. rewrite Hloc3.
  change (usage <$> (Some L ≫= λ l, locations s !! l))
    with (location_usage s (Some L)).
  change (default false (is_available <$> (Some L ≫= λ l, locations s !! l)))
    with (location_is_available s (Some L)).
  fold direct.
  assert (activities s3 !! m = Some am) as Hm3
    by (rewrite Hact3; apply lookup_insert_eq).
  assert (records s3 !! rm = Some (move_row m vals)) as Hrm3
    by (rewrite Hrec3; apply lookup_insert_eq).
  assert (activities s3 !! P = Some ap2) as HP3
    by (rewrite Hact3; by rewrite lookup_insert_ne).
  assert (records s3 !! rp = Some dp) as Hdp3
    by (rewrite Hrec3; by rewrite lookup_insert_ne).
  assert (is_Some (patients s3 !! pid)) as Hpats3 by (by rewrite Hpat3).
  assert (P ≠ m) as HPm' by (by apply not_eq_sym).
  assert (aid ≠ m) as Haidm by (by apply not_eq_sym).
  clearbody s3. clear Hop2.
  destruct direct eqn:Hdirect.
  - subst target.
    assert (parent_ready s3 am rm (Some (P, rp, dp))) as Hready.
    { split; [done|]. split; [by apply not_eq_sym|]. by exists ap2. }
    rewrite (complete_move_dispatch n s3 m am Hm3 eq_refl).
    rewrite (move_complete_ok s3 m am rm (move_row m vals) pid L (Some (P, rp, dp))
               Hm3 eq_refl eq_refl eq_refl Hrm3 eq_refl eq_refl Hpats3 Hready).
    set (s4 := move_completed m am rm (move_row m vals) pid L (Some (P, rp, dp)) s3).
    destruct (move_completed_row m am rm (move_row m vals) pid L P rp dp s3)
      as (dm' & Hdm' & Hdmk); [by apply not_eq_sym|]. fold s4 in Hdm'.
    destruct (move_completed_journal m am rm (move_row m vals) pid L
                (Some (P, rp, dp)) s3) as (mid & Hj4). fold s4 in Hj4.
    assert (activities s4
            = <[m := set_state completed (next_sequence s3) (Some (clock s3)) am]>
                (activities s3)) as Hact4 by done.
    assert (patients s4 !! pid = Some (mkPatient (Some L))) as Hpat4
      by apply lookup_insert_eq.
    clearbody s4.
    exists s4.
    exists ([EvWriteActivity m (mkActivityVals (Some (Some P)) None None None None);
             EvBaseSubmit m vals; EvCreateRecord rm patient_move;
             EvWriteActivity m (linked rm)] ++ mid).
    split; [done|]. rewrite Hact4.
    split. { exists a1. by rewrite lookup_insert_ne. }
    split. { exists ap2. by rewrite lookup_insert_ne. }
    split.
    { eexists _, dm'. split; [apply lookup_insert_eq|]. repeat split; try done.
      - rewrite Hdmk by done. by rewrite fld_move_row.
      - rewrite Hdmk by done. by rewrite fld_move_row. }
    split; [done|]. split; [|done].
    rewrite Hj4, Hj3. by rewrite <-?app_assoc.
  - assert ((if bool_decide (location_usage s3 (Some L) ≠ Some "ward")
             then get_closest_parent_id (Some L) "ward"
             else ret (Some L)) s3 = Ok (Some target) s3) as Hward.
    { assert (location_usage s3 (Some L) = location_usage s (Some L)) as Hu
        by (unfold location_usage; by rewrite Hloc3).
      rewrite Hu.
      destruct (bool_decide (location_usage s (Some L) ≠ Some "ward")).
      - unfold get_closest_parent_id, gets. by rewrite Hloc3, Htarget.
      - unfold ret. by rewrite Htarget. }
    rewrite (bind_ok _ _ _ _ _ Hward).
    set (vals' := ({[ "location_id" := Some target ]} : Vals)).
    assert (vals' !! "patient_id" = None) as Hv' by done.
    rewrite (bind_ok _ _ _ _ _
               (move_retarget_ok s3 m am rm (move_row m vals) vals'
                  Hm3 eq_refl eq_refl eq_refl Hrm3 Hv')).
    set (dm4 := written vals' (move_row m vals)).
    match goal with |- ∃ _ _, bind _ _ ?x = _ ∧ _ => set (s4 := x) end.
    assert (activities s4 !! m = Some am) as Hm4 by done.
    assert (records s4 !! rm = Some dm4) as Hrm4 by apply lookup_insert_eq.
    assert (fld dm4 "patient_id" = Some pid) as Hp4.
    { unfold dm4, vals'. rewrite fld_written_singleton_ne by done.
      by rewrite fld_move_row. }
    assert (fld dm4 "location_id" = Some target) as Hl4
      by apply fld_written_singleton.
    assert (parent_ready s4 am rm (Some (P, rp, dp))) as Hready.
    { split; [done|]. split; [by apply not_eq_sym|]. exists ap2.
      split; [done|]. repeat split; try done.
      simpl. by rewrite lookup_insert_ne. }
    assert (is_Some (patients s4 !! pid)) as Hpats4 by done.
    rewrite (bind_ok _ _ _ _ _
               (eq_trans (complete_move_dispatch n s4 m am Hm4 eq_refl)
                  (move_complete_ok s4 m am rm dm4 pid target (Some (P, rp, dp))
                     Hm4 eq_refl eq_refl eq_refl Hrm4 Hp4 Hl4 Hpats4 Hready))).
    set (s5 := move_completed m am rm dm4 pid target (Some (P, rp, dp)) s4).
    destruct (move_completed_row m am rm dm4 pid target P rp dp s4)
      as (dm' & Hdm' & Hdmk); [by apply not_eq_sym|]. fold s5 in Hdm'.
    destruct (move_completed_journal m am rm dm4 pid target
                (Some (P, rp, dp)) s4) as (mid & Hj5). fold s5 in Hj5.
    assert (activities s5
            = <[m := set_state completed (next_sequence s4) (Some (clock s4)) am]>
                (activities s3)) as Hact5 by done.
    assert (patients s5 !! pid = Some (mkPatient (Some target))) as Hpat5
      by apply lookup_insert_eq.
    assert (journal s4 = journal s3 ++ [EvBaseSubmit m vals'; EvWriteRecord rm vals'])
      as Hj4 by done.
    clearbody s5. clearbody s4.
    unfold trigger_policy, modify.
    eexists.
    exists ([EvWriteActivity m (mkActivityVals (Some (Some P)) None None None None);
             EvBaseSubmit m vals; EvCreateRecord rm patient_move;
             EvWriteActivity m (linked rm)]
            ++ [EvBaseSubmit m vals'] ++ ([EvWriteRecord rm vals'] ++ mid)).
    split; [done|]. cbn [log activities records patients journal]. rewrite Hact5.
    split. { exists a1. by rewrite lookup_insert_ne. }
    split. { exists ap2. by rewrite lookup_insert_ne. }
    split.
    { eexists _, dm'. split; [apply lookup_insert_eq|]. repeat split; try done.
      - by rewrite Hdmk.
      - by rewrite Hdmk. }
    split; [done|]. split.
    + rewrite Hj5, Hj4, Hj3. rewrite <-?app_assoc. done.
    + intros _. eexists _, _. reflexivity.
Qed.

Lemma discharge_cancel_reopens_witness :
  (∃ s' pre,
     nh_clinical_patient_discharge.cancel nh_activity.submit
       (nh_activity.complete 1) 143 Ward.discharged_twice = Ok tt s'
     ∧ (∃ a', activities s' !! 143 = Some a' ∧ state a' = cancelled)
     ∧ (∃ ap', activities s' !! 100 = Some ap' ∧ state ap' = started ∧
               date_terminated ap' = None)
     ∧ (∃ am dm, activities s' !! fresh (dom (activities Ward.discharged_twice))
                 = Some am ∧ data_model am = patient_move ∧
                 state am = completed ∧ parent_id am = Some 100 ∧
                 creator_id am = Some 143 ∧
                 data_ref am = Some (fresh (dom (records Ward.discharged_twice))) ∧
                 records s' !! fresh (dom (records Ward.discharged_twice)) = Some dm ∧
                 fld dm "patient_id" = Some 10 ∧
                 fld dm "location_id" = Some 1)
     ∧ patients s' !! 10 = Some (mkPatient (Some 1))
     ∧ journal s'
       = journal Ward.discharged_twice
           ++ [EvBaseCancel 143;
               EvWriteActivity 100
                 (mkActivityVals None None (Some started) (Some None) None);
               EvCreateActivity (fresh (dom (activities Ward.discharged_twice)))
                 patient_move]
           ++ pre
           ++ [EvBaseComplete (fresh (dom (activities Ward.discharged_twice)));
               EvTriggerPolicy 143 (Some 1)]
     ∧ (false = false →
        ∃ pre1 pre2,
          pre = pre1
                  ++ [EvBaseSubmit (fresh (dom (activities Ward.discharged_twice)))
                        {[ "location_id" := Some 1 ]}]
                  ++ pre2))
  ∧ (∃ s' pre,
       nh_clinical_patient_discharge.cancel nh_activity.submit
         (nh_activity.complete 1) 147 Ward.discharged_from_free_bed = Ok tt s'
       ∧ (∃ a', activities s' !! 147 = Some a' ∧ state a' = cancelled)
       ∧ (∃ ap', activities s' !! 100 = Some ap' ∧ state ap' = started ∧
                 date_terminated ap' = None)
       ∧ (∃ am dm,
            activities s' !! fresh (dom (activities Ward.discharged_from_free_bed))
            = Some am ∧ data_model am = patient_move ∧
            state am = completed ∧ parent_id am = Some 100 ∧
            creator_id am = Some 147 ∧
            data_ref am = Some (fresh (dom (records Ward.discharged_from_free_bed))) ∧
            records s' !! fresh (dom (records Ward.discharged_from_free_bed)) = Some dm ∧
            fld dm "patient_id" = Some 10 ∧
            fld dm "location_id" = Some 6)
       ∧ patients s' !! 10 = Some (mkPatient (Some 6))
       ∧ journal s'
         = journal Ward.discharged_from_free_bed
             ++ [EvBaseCancel 147;
                 EvWriteActivity 100
                   (mkActivityVals None None (Some started) (Some None) None);
                 EvCreateActivity (fresh (dom (activities Ward.discharged_from_free_bed)))
                   patient_move]
             ++ pre
             ++ [EvBaseComplete (fresh (dom (activities Ward.discharged_from_free_bed)))]
       ∧ (true = false →
          ∃ pre1 pre2,
            pre = pre1
                    ++ [EvBaseSubmit
                          (fresh (dom (activities Ward.discharged_from_free_bed)))
                          {[ "location_id" := Some 6 ]}]
                    ++ pre2)).
Proof.
  split.
  - apply (discharge_cancel_reopens 0 Ward.discharged_twice 143 243 10 100 200 2 1
             Ward.discharge_143 Ward.closed_spell_100
             (Ward.discharge_row 143) Ward.closed_spell_row_200
             (mkLocation "Bed 1" "B1" "bed" (Some 1) false));
      try reflexivity.
    + by eexists.
    + assert (map_Forall (λ r dr, fld dr "activity_id" = Some 100 → r = 200)
                (records Ward.discharged_twice)) as Hall by compute_done.
      intros r dr Hr. exact (Hall r dr Hr).
    + compute_done.
  - apply (discharge_cancel_reopens 0 Ward.discharged_from_free_bed 147 247 10 100 200
             6 6 Ward.discharge_147 Ward.closed_spell_100
             Ward.discharge_row_247 Ward.closed_spell_row_200
             (mkLocation "Bed 3" "B3" "bed" (Some 5) true));
      try reflexivity.
    + by eexists.
    + assert (map_Forall (λ r dr, fld dr "activity_id" = Some 100 → r = 200)
                (records Ward.discharged_from_free_bed)) as Hall by compute_done.
      intros r dr Hr. exact (Hall r dr Hr).
    + compute_done.
Defined.

(** ** Bed swap: completion *)

Lemma elem_of_patient_ids s l p :
  p ∈ patient_ids s l ↔
  ∃ pt, patients s !! p = Some pt ∧ current_location_id pt = Some l.
Proof.
  unfold patient_ids. rewrite list_elem_of_fmap. split.
  - intros [[q pt] [-> Hin]]. apply elem_of_search in Hin as [Hq Hl].
    exists pt. split; [done|]. by apply bool_decide_eq_true in Hl.
  - intros (pt & Hp & Hl). exists (p, pt). split; [done|].
    apply elem_of_search. split; [done|]. by apply bool_decide_eq_true.
Qed.

Lemma occupant_ok s l p :
  head (patient_ids s l) = Some p →
  nh_clinical_patient_swap_beds.occupant (Some l) s = Ok p s.
Proof.
  intros Hh. unfold nh_clinical_patient_swap_beds.occupant. msimpl.
  by destruct (patient_ids s l); simplify_eq/=.
Qed.

Lemma spell_activity_id_ok s sid d :
  records s !! sid = Some d →
  spell_activity_id (Some sid) s = Ok (fld d "activity_id") s.
Proof.
  intros Hd. unfold spell_activity_id.
  by rewrite (bind_ok _ _ _ _ _ (browse_record_ok s sid d Hd)).
Qed.

(** C3: swap [complete] creates, for the first patient of each of the two
    beds, a movement to the other bed under the patient's own open spell and
    with the swap as creator, completes the two movements and calls the base
    completion last; afterwards each patient's current location is the other
    bed. *)
Theorem swap_complete_exchanges (n : nat) (s : Store) (aid rid A B X Y sx sy PX PY : Z)
    (a apx apy : Activity) (d dsx dsy : Data) :
  activities s !! aid = Some a →
  data_model a = patient_swap_beds →
  terminal (state a) = false →
  data_ref a = Some rid →
  records s !! rid = Some d →
  fld d "location1_id" = Some A →
  fld d "location2_id" = Some B →
  A ≠ B →
  head (patient_ids s A) = Some X →
  head (patient_ids s B) = Some Y →
  open_spells s (Some X) = [sx] →
  open_spells s (Some Y) = [sy] →
  records s !! sx = Some dsx → d_model dsx = spell →
  fld dsx "patient_id" = Some X → fld dsx "activity_id" = Some PX →
  activities s !! PX = Some apx → data_model apx = spell →
  terminal (state apx) = false → data_ref apx = Some sx →
  records s !! sy = Some dsy → d_model dsy = spell →
  fld dsy "patient_id" = Some Y → fld dsy "activity_id" = Some PY →
  activities s !! PY = Some apy → data_model apy = spell →
  terminal (state apy) = false → data_ref apy = Some sy →
  rows_have_activities s →
  ∃ s' m1 m2 r1 r2 am1 am2 dm1 dm2 mid1 mid2,
    nh_clinical_patient_swap_beds.complete nh_activity.submit
      (nh_activity.complete (S n)) aid s = Ok tt s'
    ∧ m1 ≠ m2 ∧ activities s !! m1 = None ∧ activities s !! m2 = None
    ∧ patients s' !! X = Some (mkPatient (Some B))
    ∧ patients s' !! Y = Some (mkPatient (Some A))
    ∧ (activities s' !! m1 = Some am1 ∧ data_model am1 = patient_move ∧
       state am1 = completed ∧ parent_id am1 = Some PX ∧ creator_id am1 = Some aid ∧
       data_ref am1 = Some r1 ∧ records s' !! r1 = Some dm1 ∧
       fld dm1 "patient_id" = Some X ∧ fld dm1 "location_id" = Some B)
    ∧ (activities s' !! m2 = Some am2 ∧ data_model am2 = patient_move ∧
       state am2 = completed ∧ parent_id am2 = Some PY ∧ creator_id am2 = Some aid ∧
       data_ref am2 = Some r2 ∧ records s' !! r2 = Some dm2 ∧
       fld dm2 "patient_id" = Some Y ∧ fld dm2 "location_id" = Some A)
    ∧ (∃ a', activities s' !! aid = Some a' ∧ state a' = completed)
    ∧ journal s'
      = journal s
          ++ [EvCreateActivity m1 patient_move;
              EvWriteActivity m1 (mkActivityVals (Some (Some PX)) None None None None);
              EvBaseSubmit m1 (<["location_id" := Some B]> {[ "patient_id" := Some X ]});
              EvCreateRecord r1 patient_move;
              EvWriteActivity m1 (linked r1)]
          ++ [EvCreateActivity m2 patient_move;
              EvWriteActivity m2 (mkActivityVals (Some (Some PY)) None None None None);
              EvBaseSubmit m2 (<["location_id" := Some A]> {[ "patient_id" := Some Y ]});
              EvCreateRecord r2 patient_move;
              EvWriteActivity m2 (linked r2)]
          ++ mid1 ++ [EvBaseComplete m1]
          ++ mid2 ++ [EvBaseComplete m2; EvBaseComplete aid].
Proof.
  intros Ha Hm Hst Hr Hd HA HB HAB HX HY HopX HopY Hsx Hsxm Hsxp Hsxa HPX HPXm HPXst HPXr
    Hsy Hsym Hsyp Hsya HPY HPYm HPYst HPYr Hwf.
  assert (X ≠ Y) as HXY.
  { intros ->. apply head_Some_elem_of, elem_of_patient_ids in HX as (p1 & Hp1 & Hl1).
    apply head_Some_elem_of, elem_of_patient_ids in HY as (p2 & Hp2 & Hl2).
    congruence. }
  assert (is_Some (patients s !! X)) as HpX.
  { apply head_Some_elem_of, elem_of_patient_ids in HX as (p1 & Hp1 & _). eauto. }
  assert (is_Some (patients s !! Y)) as HpY.
  { apply head_Some_elem_of, elem_of_patient_ids in HY as (p1 & Hp1 & _). eauto. }
  assert (sx ≠ sy) as Hsxy by (intros ->; congruence).
  assert (PX ≠ PY) as HPXY by (intros ->; congruence).
  assert (PX ≠ aid) as HPXaid.
  { intros ->. congruence. }
  assert (PY ≠ aid) as HPYaid.
  { intros ->. congruence. }
  set (m1 := fresh (dom (activities s))). set (r1 := fresh (dom (records s))).
  set (vals1 := (<["location_id" := Some B]> {[ "patient_id" := Some X ]}) : Vals).
  set (vals2 := (<["location_id" := Some A]> {[ "patient_id" := Some Y ]}) : Vals).
  unfold nh_clinical_patient_swap_beds.complete.
  rewrite (bind_ok _ _ _ _ _ (data_field_ok s aid a rid d _ Ha Hr Hd)), HA.
  rewrite (bind_ok _ _ _ _ _ (data_field_ok s aid a rid d _ Ha Hr Hd)), HB.
  rewrite (bind_ok _ _ _ _ _ (occupant_ok s A X HX)).
  rewrite (bind_ok _ _ _ _ _ (occupant_ok s B Y HY)).
  rewrite (bind_ok _ _ _ _ _ (get_by_patient_id_unset_found s _ _ HopX)).
  rewrite (bind_ok _ _ _ _ _ (get_by_patient_id_unset_found s _ _ HopY)).
  rewrite (bind_ok _ _ _ _ _ (spell_activity_id_ok s sx dsx Hsx)), Hsxa.
  assert (open_spells (activity_created patient_move (Some PX) (Some aid) s) (Some X)
          = [sx]) as Hop1.
  { apply (open_spells_after s _ (Some X) sx dsx PX apx); try done.
    - unfold activity_created. cbn [activities]. fold m1.
      rewrite lookup_insert_ne; [done|]. apply not_eq_sym. by eapply fresh_activity_ne.
    - intros r dr ar x Hdr Hdrm Hdrp Hdra Hx Hxs.
      apply (open_spells_singleton_iff _ _ _ HopX).
      unfold activity_created in Hx. cbn [activities] in Hx. fold m1 in Hx.
      rewrite lookup_insert in Hx. case_decide as Hc1.
      { subst ar. by destruct (rows_have_activities_fresh s r dr Hwf Hdr). }
      exists dr, ar, x. by repeat split. }
  assert (vals1 !! "patient_id" = Some (Some X)) as Hv1 by done.
  assert (vals1 !! "parent_id" = None) as Hv1' by done.
  rewrite (bind_ok _ _ _ _ _
             (create_move_ok s (Some PX) (Some aid) vals1 (Some X) sx dsx
                Hv1 Hv1' Hop1 Hsx)).
  rewrite Hsxa. fold m1.
  set (s1 := move_created (Some PX) (Some aid) vals1 s).
  set (am1 := move_activity (Some PX) (Some aid) r1).
  assert (activities s1 = <[m1 := am1]> (activities s)) as Hact1 by done.
  assert (records s1 = <[r1 := move_row m1 vals1]> (records s)) as Hrec1 by done.
  assert (patients s1 = patients s) as Hpat1 by done.
  assert (journal s1 = journal s
            ++ [EvCreateActivity m1 patient_move;
                EvWriteActivity m1 (mkActivityVals (Some (Some PX)) None None None None);
                EvBaseSubmit m1 vals1;
                EvCreateRecord r1 patient_move;
                EvWriteActivity m1 (linked r1)]) as Hj1 by done.
  assert (activities s !! m1 = None) as Hm1 by apply fresh_activity_None.
  assert (records s !! r1 = None) as Hr1 by apply fresh_record_None.
  set (m2 := fresh (dom (activities s1))). set (r2 := fresh (dom (records s1))).
  assert (activities s1 !! m2 = None) as Hm2 by apply fresh_activity_None.
  assert (records s1 !! r2 = None) as Hr2 by apply fresh_record_None.
  assert (m2 ≠ m1) as Hm21.
  { intros Heq. rewrite Heq, Hact1, lookup_insert_eq in Hm2. done. }
  assert (r2 ≠ r1) as Hr21.
  { intros Heq. rewrite Heq, Hrec1, lookup_insert_eq in Hr2. done. }
  assert (activities s !! m2 = None) as Hm2s.
  { rewrite Hact1, lookup_insert_ne in Hm2; [done|by apply not_eq_sym]. }
  assert (records s !! r2 = None) as Hr2s.
  { rewrite Hrec1, lookup_insert_ne in Hr2; [done|by apply not_eq_sym]. }
  assert (∀ i x, activities s !! i = Some x → i ≠ m1 ∧ i ≠ m2) as Hold.
  { intros i x Hi. split; intros ->; congruence. }
  assert (∀ i x, records s !! i = Some x → i ≠ r1 ∧ i ≠ r2) as Holdr.
  { intros i x Hi. split; intros ->; congruence. }
  destruct (Hold _ _ HPX) as [HPXm1 HPXm2]. destruct (Hold _ _ HPY) as [HPYm1 HPYm2].
  destruct (Hold _ _ Ha) as [Haidm1 Haidm2].
  destruct (Holdr _ _ Hsx) as [Hsxr1 Hsxr2]. destruct (Holdr _ _ Hsy) as [Hsyr1 Hsyr2].
  assert (records s1 !! sy = Some dsy) as Hsy1
    by (rewrite Hrec1; by rewrite lookup_insert_ne).
  rewrite (bind_ok _ _ _ _ _ (spell_activity_id_ok s1 sy dsy Hsy1)), Hsya.
  assert (open_spells (activity_created patient_move (Some PY) (Some aid) s1) (Some Y)
          = [sy]) as Hop2.
  { apply (open_spells_after s _ (Some Y) sy dsy PY apy); try done.
    - intros r dr Hdrm. unfold activity_created. cbn [records]. rewrite Hrec1.
      rewrite lookup_insert. case_decide as Hc.
      + subst r. split; [intros [= <-]; done|congruence].
      + done.
    - unfold activity_created. cbn [activities]. fold m2. rewrite Hact1.
      by rewrite !lookup_insert_ne.
    - intros r dr ar x Hdr Hdrm Hdrp Hdra Hx Hxs.
      apply (open_spells_singleton_iff _ _ _ HopY).
      unfold activity_created in Hx. cbn [activities] in Hx. fold m2 in Hx.
      rewrite Hact1 in Hx.
      destruct (Hwf r dr Hdr) as [Hnone|[y Hy]]; [congruence|].
      rewrite Hdra in Hy. simpl in Hy. destruct (Hold _ _ Hy) as [Hn1 Hn2].
      rewrite !lookup_insert_ne in Hx by done.
      exists dr, ar, x. by repeat split. }
  assert (vals2 !! "patient_id" = Some (Some Y)) as Hv2 by done.
  assert (vals2 !! "parent_id" = None) as Hv2' by done.
  rewrite (bind_ok _ _ _ _ _
             (create_move_ok s1 (Some PY) (Some aid) vals2 (Some Y) sy dsy
                Hv2 Hv2' Hop2 Hsy1)).
  rewrite Hsya. fold m2.
  set (s2 := move_created (Some PY) (Some aid) vals2 s1).
  set (am2 := move_activity (Some PY) (Some aid) r2).
  assert (activities s2 = <[m2 := am2]> (<[m1 := am1]> (activities s))) as Hact2
    by (unfold s2; by rewrite move_created_activities, Hact1).
  assert (records s2 = <[r2 := move_row m2 vals2]> (<[r1 := move_row m1 vals1]> (records s)))
    as Hrec2 by (unfold s2; by rewrite move_created_records, Hrec1).
  assert (patients s2 = patients s) as Hpat2 by done.
  assert (journal s2 = journal s1
            ++ [EvCreateActivity m2 patient_move;
                EvWriteActivity m2 (mkActivityVals (Some (Some PY)) None None None None);
                EvBaseSubmit m2 vals2;
                EvCreateRecord r2 patient_move;
                EvWriteActivity m2 (linked r2)]) as Hj2 by done.
  clearbody s2. clearbody s1. clear Hop1 Hop2.
  assert (activities s2 !! m1 = Some am1) as Hm1s2.
  { rewrite Hact2. rewrite lookup_insert_ne by done. apply lookup_insert_eq. }
  assert (records s2 !! r1 = Some (move_row m1 vals1)) as Hr1s2.
  { rewrite Hrec2. rewrite lookup_insert_ne by done. apply lookup_insert_eq. }
  assert (parent_ready s2 am1 r1 (Some (PX, sx, dsx))) as Hready1.
  { split; [done|]. split; [done|]. exists apx.
    rewrite Hact2, Hrec2. rewrite !lookup_insert_ne by done. by repeat split. }
  assert (is_Some (patients s2 !! X)) as HpX2 by (by rewrite Hpat2).
  rewrite (bind_ok _ _ _ _ _
             (eq_trans (complete_move_dispatch n s2 m1 am1 Hm1s2 eq_refl)
                (move_complete_ok s2 m1 am1 r1 (move_row m1 vals1) X B
                   (Some (PX, sx, dsx))
                   Hm1s2 eq_refl eq_refl eq_refl Hr1s2 eq_refl eq_refl HpX2 Hready1))).
  set (s3 := move_completed m1 am1 r1 (move_row m1 vals1) X B (Some (PX, sx, dsx)) s2).
  set (am1' := set_state completed (next_sequence s2) (Some (clock s2)) am1).
  assert (activities s3 = <[m1 := am1']> (activities s2)) as Hact3 by done.
  assert (patients s3 = <[X := mkPatient (Some B)]> (patients s)) as Hpat3
    by (unfold s3; by rewrite move_completed_patients, Hpat2).
  destruct (move_completed_row m1 am1 r1 (move_row m1 vals1) X B PX sx dsx s2)
    as (dm1 & Hdm1 & Hdm1k); [done|]. fold s3 in Hdm1.
  destruct (move_completed_journal m1 am1 r1 (move_row m1 vals1) X B
              (Some (PX, sx, dsx)) s2) as (mid1 & Hj3). fold s3 in Hj3.
  assert (records s3 !! r2 = Some (move_row m2 vals2)) as Hr2s3.
  { unfold s3. rewrite move_completed_records_ne; [|done|simpl; by apply not_eq_sym].
    rewrite Hrec2. apply lookup_insert_eq. }
  assert (records s3 !! sy = Some dsy) as Hsy3.
  { unfold s3. rewrite move_completed_records_ne; [|done|simpl; by apply not_eq_sym].
    rewrite Hrec2. by rewrite !lookup_insert_ne. }
  clearbody s3.
  assert (activities s3 !! m2 = Some am2) as Hm2s3.
  { rewrite Hact3, Hact2. rewrite lookup_insert_ne by (by apply not_eq_sym).
    apply lookup_insert_eq. }
  assert (parent_ready s3 am2 r2 (Some (PY, sy, dsy))) as Hready2.
  { split; [done|]. split; [done|]. exists apy.
    rewrite Hact3, Hact2. rewrite !lookup_insert_ne by done. by repeat split. }
  assert (is_Some (patients s3 !! Y)) as HpY3.
  { rewrite Hpat3. rewrite lookup_insert_ne by done. done. }
  rewrite (bind_ok _ _ _ _ _
             (eq_trans (complete_move_dispatch n s3 m2 am2 Hm2s3 eq_refl)
                (move_complete_ok s3 m2 am2 r2 (move_row m2 vals2) Y A
                   (Some (PY, sy, dsy))
                   Hm2s3 eq_refl eq_refl eq_refl Hr2s3 eq_refl eq_refl HpY3 Hready2))).
  set (s4 := move_completed m2 am2 r2 (move_row m2 vals2) Y A (Some (PY, sy, dsy)) s3).
  set (am2' := set_state completed (next_sequence s3) (Some (clock s3)) am2).
  assert (activities s4 = <[m2 := am2']> (activities s3)) as Hact4 by done.
  assert (patients s4 = <[Y := mkPatient (Some A)]> (patients s3)) as Hpat4 by done.
  destruct (move_completed_row m2 am2 r2 (move_row m2 vals2) Y A PY sy dsy s3)
    as (dm2 & Hdm2 & Hdm2k); [done|]. fold s4 in Hdm2.
  destruct (move_completed_journal m2 am2 r2 (move_row m2 vals2) Y A
              (Some (PY, sy, dsy)) s3) as (mid2 & Hj4). fold s4 in Hj4.
  assert (records s4 !! r1 = Some dm1) as Hr1s4.
  { unfold s4. rewrite move_completed_records_ne; [done|by apply not_eq_sym|].
    simpl. by apply not_eq_sym. }
  clearbody s4.
  assert (activities s4 !! aid = Some a) as Ha4.
  { rewrite Hact4, Hact3, Hact2. by rewrite !lookup_insert_ne by done. }
  rewrite (base_complete_ok s4 aid a Ha4 Hst).
  eexists _, m1, m2, r1, r2, am1', am2', dm1, dm2, mid1, mid2.
  split; [done|]. cbn [activities records patients journal].
  split; [by apply not_eq_sym|]. split; [done|]. split; [done|].
  split. { rewrite Hpat4, Hpat3. rewrite lookup_insert_ne by (by apply not_eq_sym).
           apply lookup_insert_eq. }
  split. { rewrite Hpat4. apply lookup_insert_eq. }
  split.
  { rewrite lookup_insert_ne by done. rewrite Hact4.
    rewrite lookup_insert_ne by done. rewrite Hact3.
    split; [apply lookup_insert_eq|]. repeat split; try done.
    - rewrite Hdm1k by done. by rewrite fld_move_row.
    - rewrite Hdm1k by done. by rewrite fld_move_row. }
  split.
  { rewrite lookup_insert_ne by done. rewrite Hact4.
    split; [apply lookup_insert_eq|]. repeat split; try done.
    - rewrite Hdm2k by done. by rewrite fld_move_row.
    - rewrite Hdm2k by done. by rewrite fld_move_row. }
  split. { eexists. split; [apply lookup_insert_eq|done]. }
  rewrite Hj4, Hj3, Hj2, Hj1. by rewrite <-?app_assoc.
Qed.

Lemma swap_complete_exchanges_witness :
  ∃ s' m1 m2 r1 r2 am1 am2 dm1 dm2 mid1 mid2,
    nh_clinical_patient_swap_beds.complete nh_activity.submit
      (nh_activity.complete 1) 121 Ward.swap_submitted = Ok tt s'
    ∧ m1 ≠ m2 ∧ activities Ward.swap_submitted !! m1 = None
    ∧ activities Ward.swap_submitted !! m2 = None
    ∧ patients s' !! 10 = Some (mkPatient (Some 3))
    ∧ patients s' !! 11 = Some (mkPatient (Some 2))
    ∧ (activities s' !! m1 = Some am1 ∧ data_model am1 = patient_move ∧
       state am1 = completed ∧ parent_id am1 = Some 100 ∧ creator_id am1 = Some 121 ∧
       data_ref am1 = Some r1 ∧ records s' !! r1 = Some dm1 ∧
       fld dm1 "patient_id" = Some 10 ∧ fld dm1 "location_id" = Some 3)
    ∧ (activities s' !! m2 = Some am2 ∧ data_model am2 = patient_move ∧
       state am2 = completed ∧ parent_id am2 = Some 101 ∧ creator_id am2 = Some 121 ∧
       data_ref am2 = Some r2 ∧ records s' !! r2 = Some dm2 ∧
       fld dm2 "patient_id" = Some 11 ∧ fld dm2 "location_id" = Some 2)
    ∧ (∃ a', activities s' !! 121 = Some a' ∧ state a' = completed)
    ∧ journal s'
      = journal Ward.swap_submitted
          ++ [EvCreateActivity m1 patient_move;
              EvWriteActivity m1 (mkActivityVals (Some (Some 100)) None None None None);
              EvBaseSubmit m1 (<["location_id" := Some 3]> {[ "patient_id" := Some 10 ]});
              EvCreateRecord r1 patient_move;
              EvWriteActivity m1 (linked r1)]
          ++ [EvCreateActivity m2 patient_move;
              EvWriteActivity m2 (mkActivityVals (Some (Some 101)) None None None None);
              EvBaseSubmit m2 (<["location_id" := Some 2]> {[ "patient_id" := Some 11 ]});
              EvCreateRecord r2 patient_move;
              EvWriteActivity m2 (linked r2)]
          ++ mid1 ++ [EvBaseComplete m1]
          ++ mid2 ++ [EvBaseComplete m2; EvBaseComplete 121].
Proof.
  apply (swap_complete_exchanges 0 Ward.swap_submitted 121 221 2 3 10 11 200 201
           100 101 Ward.swap_121 Ward.spell_of_10 Ward.spell_of_11
           Ward.swap_row_221 Ward.spell_row_10 Ward.spell_row_11);
    try reflexivity.
  - discriminate.
  - compute_done.
Defined.

(** * Further properties of the operations *)

(** ** Movement *)

(** X1: a movement whose payload has no destination (or that has no payload
    at all) cannot be completed: [complete] raises "There is no destination
    location!" before it writes anything. *)
Theorem move_complete_requires_destination (sub : Z → Vals → M unit)
    (s : Store) (aid : Z) (a : Activity) :
  activities s !! aid = Some a →
  (∀ rid d, data_ref a = Some rid → records s !! rid = Some d →
     fld d "location_id" = None) →
  nh_clinical_patient_move.complete sub aid s
  = Raise (except_osv "Patient Move Error!" "There is no destination location!") s.
Proof.
  intros Ha Hno. unfold nh_clinical_patient_move.complete.
  rewrite (bind_ok _ _ _ _ _ (browse_ok _ _ _ Ha)).
  unfold bind at 1. unfold gets at 1.
  assert (activity_field s a "location_id" = None) as ->; [|done].
  unfold activity_field, payload.
  destruct (data_ref a) as [rid|]; simpl; [|done].
  destruct (records s !! rid) as [d|] eqn:Hd; simpl; [|done].
  by apply (Hno rid d).
Qed.

Lemma move_complete_requires_destination_witness :
  nh_clinical_patient_move.complete nh_activity.submit 105 Ward.moving_nowhere
  = Raise (except_osv "Patient Move Error!" "There is no destination location!")
          Ward.moving_nowhere.
Proof.
  apply (move_complete_requires_destination nh_activity.submit Ward.moving_nowhere 105
           Ward.move_105).
  - reflexivity.
  - intros rid d [= <-] Hd. vm_compute in Hd. by injection Hd as <-.
Defined.

(** X2: a completed movement puts the patient at the destination, marks the
    activity completed at the current time and, when the movement has a
    parent spell, writes the destination on the spell's row and nothing else
    of it; the locations are not touched. *)
Theorem move_complete_moves_patient s aid a rid d pid dest par :
  activities s !! aid = Some a →
  data_model a = patient_move →
  terminal (state a) = false →
  data_ref a = Some rid →
  records s !! rid = Some d →
  fld d "patient_id" = Some pid →
  fld d "location_id" = Some dest →
  is_Some (patients s !! pid) →
  parent_ready s a rid par →
  ∃ s' a',
    nh_clinical_patient_move.complete nh_activity.submit aid s = Ok tt s' ∧
    patients s' = <[pid := mkPatient (Some dest)]> (patients s) ∧
    activities s' !! aid = Some a' ∧ state a' = completed ∧
    date_terminated a' = Some (clock s) ∧ parent_id a' = parent_id a ∧
    locations s' = locations s ∧
    match par with
    | Some (P, rp, dp) =>
        ∃ dp', records s' !! rp = Some dp' ∧ fld dp' "location_id" = Some dest ∧
               ∀ k, k ≠ "location_id" → fld dp' k = fld dp k
    | None => True
    end.
Proof.
  intros Ha Hm Hst Hr Hd Hpid Hdest Hpat Hpar.
  exists (move_completed aid a rid d pid dest par s).
  exists (set_state completed (next_sequence s) (Some (clock s)) a).
  split; [by apply move_complete_ok|]. split; [done|].
  split; [apply lookup_insert_eq|]. split; [done|]. split; [done|]. split; [done|].
  split; [done|].
  destruct par as [[[P rp] dp]|]; [|done].
  destruct Hpar as (_ & Hne & _).
  exists (written {[ "location_id" := Some dest ]} dp).
  split; [by apply move_completed_parent_row|].
  split; [apply fld_written_singleton|].
  intros k Hk. by apply fld_written_singleton_ne.
Qed.

Lemma move_complete_moves_patient_witness :
  ∃ s' a',
    nh_clinical_patient_move.complete nh_activity.submit 104 Ward.moving = Ok tt s' ∧
    patients s' = <[10 := mkPatient (Some 6)]> (patients Ward.moving) ∧
    activities s' !! 104 = Some a' ∧ state a' = completed ∧
    date_terminated a' = Some (clock Ward.moving) ∧
    parent_id a' = parent_id Ward.move_104 ∧
    locations s' = locations Ward.moving ∧
    ∃ dp', records s' !! 200 = Some dp' ∧ fld dp' "location_id" = Some 6 ∧
           ∀ k, k ≠ "location_id" → fld dp' k = fld Ward.spell_row_10 k.
Proof.
  apply (move_complete_moves_patient Ward.moving 104 Ward.move_104 204
           Ward.move_row_204 10 6 (Some (100, 200, Ward.spell_row_10)));
    try reflexivity.
  - by eexists.
  - split; [reflexivity|]. split; [done|].
    exists Ward.spell_of_10. repeat split; reflexivity.
Defined.

(** ** Bed swap *)

(** X3: swap [complete] takes the first patient of each bed without
    checking that there is one: when either bed holds no patient it fails
    with an [IndexError] before any movement is created. *)
Theorem swap_complete_empty_bed (sub : Z → Vals → M unit) (comp : Z → M unit)
    (s : Store) (aid rid A B : Z) (a : Activity) (d : Data) :
  activities s !! aid = Some a →
  data_ref a = Some rid →
  records s !! rid = Some d →
  fld d "location1_id" = Some A →
  fld d "location2_id" = Some B →
  patient_ids s A = [] ∨ patient_ids s B = [] →
  nh_clinical_patient_swap_beds.complete sub comp aid s
  = Raise (engine_error "IndexError") s.
Proof.
  intros Ha Hr Hd HA HB Hempty. unfold nh_clinical_patient_swap_beds.complete.
  rewrite (bind_ok _ _ _ _ _ (data_field_ok s aid a rid d _ Ha Hr Hd)), HA.
  rewrite (bind_ok _ _ _ _ _ (data_field_ok s aid a rid d _ Ha Hr Hd)), HB.
  unfold nh_clinical_patient_swap_beds.occupant. msimpl.
  destruct (patient_ids s A) as [|x xs]; [done|]. simpl.
  destruct Hempty as [?| ->]; done.
Qed.

Lemma swap_complete_empty_bed_witness :
  nh_clinical_patient_swap_beds.complete nh_activity.submit (nh_activity.complete 1)
    122 Ward.swap_with_free_bed
  = Raise (engine_error "IndexError") Ward.swap_with_free_bed.
Proof.
  apply (swap_complete_empty_bed nh_activity.submit (nh_activity.complete 1)
           Ward.swap_with_free_bed 122 222 2 6 Ward.swap_122 Ward.swap_row_222);
    try reflexivity.
  right. vm_compute. reflexivity.
Defined.

(** ** Submitting *)

(** The activity and the payload row after the base [submit]. *)
Lemma submitted_row m aid a (vals : Vals) s :
  activities s !! aid = Some a →
  (∀ rid, data_ref a = Some rid → is_Some (records s !! rid)) →
  ∃ a' rid d',
    activities (submitted m aid a vals s) !! aid = Some a' ∧
    data_ref a' = Some rid ∧ parent_id a' = parent_id a ∧ state a' = state a ∧
    records (submitted m aid a vals s) !! rid = Some d' ∧
    ∀ k v, k ≠ "activity_id" → vals !! k = Some v → fld d' k = v.
Proof.
  intros Ha Hd. unfold submitted. destruct (data_ref a) as [rid|] eqn:Hr.
  - destruct (Hd rid eq_refl) as [d Hrd].
    exists a, rid, (mkData (d_model d) (vals ∪ d_fields d)). simpl.
    split; [done|]. split; [done|]. split; [done|]. split; [done|].
    split; [rewrite lookup_alter, decide_True by done; by rewrite Hrd|].
    intros k v _ Hk. unfold fld. simpl.
    by rewrite (lookup_union_Some_l _ _ _ _ Hk).
  - eexists _, _, _. simpl.
    split; [apply lookup_insert_eq|]. split; [done|]. split; [done|]. split; [done|].
    split; [apply lookup_insert_eq|].
    intros k v Hne Hk. unfold fld. simpl. rewrite lookup_insert_ne by done.
    by rewrite Hk.
Qed.

Lemma elem_of_available_location_ids s (usages : list string) l :
  get_available_location_ids usages s
  = Ok ((search (λ _ loc, bool_decide (usage loc ∈ usages) && is_available loc)
                (locations s)).*1) s
  ∧ (l ∈ (search (λ _ loc, bool_decide (usage loc ∈ usages) && is_available loc)
                 (locations s)).*1
     ↔ ∃ loc, locations s !! l = Some loc ∧ usage loc ∈ usages ∧ is_available loc = true).
Proof.
  split; [done|]. rewrite list_elem_of_fmap. split.
  - intros [[i loc] [-> Hin]]. apply elem_of_search in Hin as [Hi Hp].
    apply andb_true_iff in Hp as [Hu Hav]. apply bool_decide_eq_true in Hu.
    by exists loc.
  - intros (loc & Hl & Hu & Hav). exists (l, loc). split; [done|].
    apply elem_of_search. split; [done|]. simpl.
    by rewrite bool_decide_eq_true_2, Hav.
Qed.

(** X4: placement [submit] tests the submitted [location_id] for truth, so
    a missing one, [False] and the id 0 all skip the check and go to the base
    [submit] unchanged.  Any other destination that is not a bed with its
    availability flag set is refused with "Location id=... is not available",
    the store untouched; a destination that is an available bed goes to the
    base [submit] unchanged. *)
Theorem placement_submit_availability (s : Store) (aid : Z) (vals : Vals) :
  (∀ l, vals_get vals "location_id" = Some l → l ≠ 0 →
     (∀ loc, locations s !! l = Some loc →
        usage loc ≠ "bed" ∨ is_available loc = false) →
     NhClinicalPatientPlacement.submit aid vals s
     = Raise (except_osv "Patient Placement Error!"
                ("Location id=" +:+ pretty l +:+ " is not available")) s)
  ∧ (∀ l loc, vals_get vals "location_id" = Some l →
       locations s !! l = Some loc → usage loc = "bed" → is_available loc = true →
       NhClinicalPatientPlacement.submit aid vals s
       = base_submit NhClinicalPatientPlacement.create aid vals s)
  ∧ (vals_get vals "location_id" = None ∨ vals_get vals "location_id" = Some 0 →
     NhClinicalPatientPlacement.submit aid vals s
     = base_submit NhClinicalPatientPlacement.create aid vals s).
Proof.
  unfold NhClinicalPatientPlacement.submit. split; [|split].
  - intros l -> Hl0 Hno. unfold truthy. rewrite bool_decide_eq_true_2 by done.
    destruct (elem_of_available_location_ids s ["bed"] l) as [Hrun Hiff].
    unfold bind. rewrite Hrun.
    rewrite bool_decide_eq_false_2; [done|].
    intros (loc & Hl & Hu & Hav)%Hiff. apply list_elem_of_singleton in Hu.
    destruct (Hno loc Hl); congruence.
  - intros l loc -> Hl Hu Hav. unfold truthy. case_bool_decide; [|done].
    destruct (elem_of_available_location_ids s ["bed"] l) as [Hrun Hiff].
    unfold bind. rewrite Hrun.
    rewrite bool_decide_eq_true_2; [done|].
    apply Hiff. exists loc. split; [done|]. split; [|done].
    rewrite Hu. apply list_elem_of_singleton. done.
  - by intros [-> | ->].
Qed.

Lemma placement_submit_availability_witness :
  NhClinicalPatientPlacement.submit 130
    (Ward.fields [("location_id", Some 2)]) Ward.placing
  = Raise (except_osv "Patient Placement Error!"
             ("Location id=" +:+ pretty 2 +:+ " is not available")) Ward.placing
  ∧ NhClinicalPatientPlacement.submit 130
      (Ward.fields [("location_id", Some 6)]) Ward.placing
    = base_submit NhClinicalPatientPlacement.create 130
        (Ward.fields [("location_id", Some 6)]) Ward.placing
  ∧ NhClinicalPatientPlacement.submit 130
      (Ward.fields [("location_id", Some 0)]) Ward.placing
    = base_submit NhClinicalPatientPlacement.create 130
        (Ward.fields [("location_id", Some 0)]) Ward.placing.
Proof.
  split; [|split].
  - apply (proj1 (placement_submit_availability Ward.placing 130 _) 2);
      [reflexivity|done|].
    intros loc Hl. vm_compute in Hl. injection Hl as <-. by right.
  - apply (proj1 (proj2 (placement_submit_availability Ward.placing 130 _)) 6
             (mkLocation "Bed 3" "B3" "bed" (Some 5) true)); reflexivity.
  - apply (proj2 (proj2 (placement_submit_availability Ward.placing 130 _))).
    by right.
Defined.

Lemma open_spells_head_row s pidv sid rest :
  open_spells s pidv = sid :: rest → ∃ dsp, records s !! sid = Some dsp.
Proof.
  intros Hl. assert (sid ∈ open_spells s pidv) as Hin by (rewrite Hl; left).
  apply elem_of_open_spells in Hin as (d & _ & _ & Hd & _). eauto.
Qed.

Lemma bind_assoc {A B C} (m : M A) (k1 : A → M B) (k2 : B → M C) s :
  bind (bind m k1) k2 s = bind m (λ x, bind (k1 x) k2) s.
Proof. unfold bind. by destruct (m s). Qed.

Lemma get_by_patient_id_unset s pidv :
  get_by_patient_id pidv None s = Ok (head (open_spells s pidv)) s.
Proof. unfold get_by_patient_id. msimpl. by destruct (open_spells s pidv). Qed.

(** X5: movement [submit] with a [patient_id] and no [parent_id] among the
    values binds the movement to the activity of the patient's open spell,
    whatever parent it had; without an open spell it keeps its parent and
    goes on.  Either way the values end on the payload row of the movement.
    With a [parent_id] among the values, or without [patient_id], it is the
    base [submit] alone. *)
Theorem move_submit_binds_spell (s : Store) (aid : Z) (a : Activity) (vals : Vals) :
  activities s !! aid = Some a →
  terminal (state a) = false →
  (∀ rid, data_ref a = Some rid → is_Some (records s !! rid)) →
  (∀ pidv, vals !! "patient_id" = Some pidv → vals !! "parent_id" = None →
     ∃ s' a' rid d',
       nh_clinical_patient_move.submit aid vals s = Ok tt s' ∧
       activities s' !! aid = Some a' ∧ data_ref a' = Some rid ∧
       records s' !! rid = Some d' ∧
       (∀ k v, k ≠ "activity_id" → vals !! k = Some v → fld d' k = v) ∧
       match open_spells s pidv with
       | sid :: _ => ∃ dsp, records s !! sid = Some dsp ∧
                            parent_id a' = fld dsp "activity_id"
       | [] => parent_id a' = parent_id a
       end)
  ∧ (vals !! "patient_id" = None ∨ is_Some (vals !! "parent_id") →
     nh_clinical_patient_move.submit aid vals s
     = base_submit (create_record patient_move) aid vals s).
Proof.
  intros Ha Hst Hd. unfold nh_clinical_patient_move.submit, has_key. split.
  - intros pidv Hp Hnp.
    rewrite bool_decide_eq_true_2 by (by rewrite Hp).
    rewrite bool_decide_eq_false_2 by (rewrite Hnp; by intros [? ?]).
    cbn [andb negb]. unfold vals_get. rewrite Hp. cbn [default].
    rewrite bind_assoc. rewrite (bind_ok _ _ _ _ _ (get_by_patient_id_unset s pidv)).
    destruct (open_spells s pidv) as [|sid rest] eqn:Hop.
    + cbn [head]. unfold bind at 1, ret at 1.
      rewrite (base_submit_ok s aid a patient_move vals Ha Hst Hd).
      destruct (submitted_row patient_move aid a vals s Ha Hd)
        as (a' & rid & d' & Ha' & Hr' & Hp' & _ & Hd' & Hk).
      by exists (submitted patient_move aid a vals s), a', rid, d'.
    + destruct (open_spells_head_row s pidv sid rest Hop) as [dsp Hdsp].
      cbn [head]. rewrite bind_assoc.
      rewrite (bind_ok _ _ _ _ _ (browse_record_ok s sid dsp Hdsp)).
      rewrite (bind_ok _ _ _ _ _ (write_activity_ok s aid a _ Ha)).
      set (a1 := apply_vals _ _ a).
      match goal with |- ∃ _ _ _ _, base_submit _ _ _ ?x = _ ∧ _ => set (s1 := x) end.
      assert (activities s1 !! aid = Some a1) as Ha1 by apply lookup_insert_eq.
      assert (∀ rid, data_ref a1 = Some rid → is_Some (records s1 !! rid)) as Hd1
        by done.
      rewrite (base_submit_ok s1 aid a1 patient_move vals Ha1 Hst Hd1).
      destruct (submitted_row patient_move aid a1 vals s1 Ha1 Hd1)
        as (a' & rid & d' & Ha' & Hr' & Hp' & _ & Hd' & Hk).
      exists (submitted patient_move aid a1 vals s1), a', rid, d'.
      repeat split; try done. exists dsp. split; [done|]. by rewrite Hp'.
  - intros [Hp|Hpar].
    + rewrite bool_decide_eq_false_2 by (rewrite Hp; by intros [? ?]). done.
    + rewrite (bool_decide_eq_true_2 _ Hpar). by rewrite andb_false_r.
Qed.

Lemma move_submit_binds_spell_witness :
  ∃ s' a' rid d',
    nh_clinical_patient_move.submit 110
      (Ward.fields [("patient_id", Some 10); ("location_id", Some 6)])
      (Ward.with_activity 110 (Ward.blank patient_move) Ward.ward) = Ok tt s' ∧
    activities s' !! 110 = Some a' ∧ data_ref a' = Some rid ∧
    records s' !! rid = Some d' ∧
    (∀ k v, k ≠ "activity_id" →
       Ward.fields [("patient_id", Some 10); ("location_id", Some 6)] !! k = Some v →
       fld d' k = v) ∧
    match open_spells (Ward.with_activity 110 (Ward.blank patient_move) Ward.ward)
            (Some 10) with
    | sid :: _ =>
        ∃ dsp, records (Ward.with_activity 110 (Ward.blank patient_move) Ward.ward)
                 !! sid = Some dsp ∧
               parent_id a' = fld dsp "activity_id"
    | [] => parent_id a' = parent_id (Ward.blank patient_move)
    end.
Proof.
  apply (proj1 (move_submit_binds_spell
                  (Ward.with_activity 110 (Ward.blank patient_move) Ward.ward) 110
                  (Ward.blank patient_move) _ eq_refl eq_refl
                  (λ rid (H : None = Some rid), ltac:(discriminate H)))
           (Some 10)); reflexivity.
Defined.

(** ** Discharge: submission *)

(** X6: discharge [submit] without [patient_id] among the values raises
    "Patient required for discharge!" with the store untouched.  For a
    patient with an open spell it binds the discharge to the activity of
    that spell and takes [location_id] from the spell's row, whatever
    location was submitted; the other values end on the payload row. *)
Theorem discharge_submit_binds_spell (s : Store) (aid : Z) (vals : Vals) :
  (vals !! "patient_id" = None →
   nh_clinical_patient_discharge.submit aid vals s
   = Raise (except_osv "Discharge Error!" "Patient required for discharge!") s)
  ∧ (∀ a pidv sid rest dsp,
       vals !! "patient_id" = Some pidv →
       open_spells s pidv = sid :: rest →
       records s !! sid = Some dsp →
       activities s !! aid = Some a →
       terminal (state a) = false →
       (∀ rid, data_ref a = Some rid → is_Some (records s !! rid)) →
       ∃ s' a' rid d',
         nh_clinical_patient_discharge.submit aid vals s = Ok tt s' ∧
         activities s' !! aid = Some a' ∧
         parent_id a' = fld dsp "activity_id" ∧
         data_ref a' = Some rid ∧ records s' !! rid = Some d' ∧
         fld d' "location_id" = fld dsp "location_id" ∧
         (∀ k v, k ≠ "activity_id" → k ≠ "location_id" → vals !! k = Some v →
            fld d' k = v)).
Proof.
  unfold nh_clinical_patient_discharge.submit. split; [by intros ->|].
  intros a pidv sid rest dsp Hp Hop Hdsp Ha Hst Hd. rewrite Hp.
  assert (get_by_patient_id pidv (Some false) s = Ok (Some sid) s) as Hget.
  { unfold get_by_patient_id. msimpl. by rewrite Hop. }
  rewrite (bind_ok _ _ _ _ _ Hget).
  unfold the_id, bind at 1, ret at 1.
  rewrite (bind_ok _ _ _ _ _ (browse_record_ok s sid dsp Hdsp)).
  rewrite (bind_ok _ _ _ _ _ (spell_activity_id_ok s sid dsp Hdsp)).
  rewrite (bind_ok _ _ _ _ _ (write_activity_ok s aid a _ Ha)).
  set (a1 := apply_vals _ _ a).
  match goal with |- ∃ _ _ _ _, base_submit _ _ _ ?x = _ ∧ _ => set (s1 := x) end.
  set (data := <["location_id" := fld dsp "location_id"]> vals).
  assert (activities s1 !! aid = Some a1) as Ha1 by apply lookup_insert_eq.
  assert (∀ rid, data_ref a1 = Some rid → is_Some (records s1 !! rid)) as Hd1 by done.
  rewrite (base_submit_ok s1 aid a1 patient_discharge data Ha1 Hst Hd1).
  destruct (submitted_row patient_discharge aid a1 data s1 Ha1 Hd1)
    as (a' & rid & d' & Ha' & Hr' & Hp' & _ & Hd' & Hk).
  exists (submitted patient_discharge aid a1 data s1), a', rid, d'.
  split; [done|]. split; [done|]. split; [by rewrite Hp'|]. split; [done|].
  split; [done|]. split.
  - apply Hk; [done|]. apply lookup_insert_eq.
  - intros k v Hk1 Hk2 Hv. apply Hk; [done|]. unfold data.
    by rewrite lookup_insert_ne.
Qed.

Lemma discharge_submit_binds_spell_witness :
  ∃ s' a' rid d',
    nh_clinical_patient_discharge.submit 110
      (Ward.fields [("patient_id", Some 10); ("location_id", Some 6)])
      (Ward.with_activity 110 (Ward.blank patient_discharge) Ward.ward) = Ok tt s' ∧
    activities s' !! 110 = Some a' ∧
    parent_id a' = fld Ward.spell_row_10 "activity_id" ∧
    data_ref a' = Some rid ∧ records s' !! rid = Some d' ∧
    fld d' "location_id" = fld Ward.spell_row_10 "location_id" ∧
    (∀ k v, k ≠ "activity_id" → k ≠ "location_id" →
       Ward.fields [("patient_id", Some 10); ("location_id", Some 6)] !! k = Some v →
       fld d' k = v).
Proof.
  apply (proj2 (discharge_submit_binds_spell
                  (Ward.with_activity 110 (Ward.blank patient_discharge) Ward.ward) 110 _)
           (Ward.blank patient_discharge) (Some 10) 200 [] Ward.spell_row_10);
    try reflexivity.
  intros rid Hr. discriminate Hr.
Defined.

(** ** The two [get_last] *)

Global Instance date_terminated_desc_sequence_desc_total :
  Total date_terminated_desc_sequence_desc.
Proof.
  intros [i a] [j b]. unfold date_terminated_desc_sequence_desc. simpl.
  destruct (date_terminated a) as [t1|], (date_terminated b) as [t2|];
    repeat case_decide; simplify_eq; simpl; try lia; try tauto.
Qed.

Global Instance date_terminated_desc_sequence_desc_trans :
  Transitive date_terminated_desc_sequence_desc.
Proof.
  intros [i a] [j b] [k c]. unfold date_terminated_desc_sequence_desc. simpl.
  destruct (date_terminated a) as [t1|], (date_terminated b) as [t2|],
    (date_terminated c) as [t3|];
    repeat case_decide; simplify_eq; simpl; try lia; try tauto.
  intros ??. assert (t2 = t3) by lia. congruence.
Qed.

Lemma elem_of_completed_discharges s pidv i a :
  (i, a) ∈ nh_clinical_patient_discharge.completed_discharges s pidv
  ↔ is_completed_discharge s pidv i a.
Proof.
  unfold nh_clinical_patient_discharge.completed_discharges, is_completed_discharge.
  rewrite merge_sort_Permutation, elem_of_search.
  rewrite !andb_true_iff, !bool_decide_eq_true. tauto.
Qed.

Lemma elem_of_active_admissions s pidv i a :
  (i, a) ∈ nh_clinical_patient_admission.active_admissions s pidv
  ↔ is_active_admission s pidv i a.
Proof.
  unfold nh_clinical_patient_admission.active_admissions, is_active_admission.
  rewrite merge_sort_Permutation, elem_of_search.
  rewrite !andb_true_iff, !bool_decide_eq_true. tauto.
Qed.

(** The head of a list sorted latest first comes before all the others. *)
Lemma latest_first (l : list (Z * Activity)) x :
  Sorted date_terminated_desc_sequence_desc l → head l = Some x →
  ∀ y, y ∈ l → date_terminated_desc_sequence_desc x y.
Proof.
  intros Hs Hh y Hy.
  destruct (head_sorted_max date_terminated_desc_sequence_desc l x Hs Hh y Hy)
    as [->|?]; [|done].
  destruct (total date_terminated_desc_sequence_desc x x); done.
Qed.

(** X7: discharge [get_last] never changes the store.  With the flag
    ['True'] it raises "Patient Already Discharged!" exactly when the patient
    has a completed discharge under a completed parent; with ['False'] it
    raises "Discharge Not Found!" exactly when there is none; unset, it never
    raises.  When it returns a discharge this is one of them, and none of
    the others comes later (by termination date, then sequence). *)
Theorem discharge_get_last_tristate (s : Store) (pidv : Value) :
  ((∃ i a, is_completed_discharge s pidv i a) →
     (∃ msg, nh_clinical_patient_discharge.get_last pidv (Some true) s
             = Raise (except_osv "Patient Already Discharged!" msg) s)
     ∧ ∀ exception, exception ≠ Some true →
         ∃ i a, nh_clinical_patient_discharge.get_last pidv exception s = Ok (Some i) s
                ∧ is_completed_discharge s pidv i a
                ∧ ∀ j b, is_completed_discharge s pidv j b →
                         date_terminated_desc_sequence_desc (i, a) (j, b))
  ∧ ((∀ i a, ¬ is_completed_discharge s pidv i a) →
     nh_clinical_patient_discharge.get_last pidv (Some true) s = Ok None s
     ∧ nh_clinical_patient_discharge.get_last pidv None s = Ok None s
     ∧ ∃ msg, nh_clinical_patient_discharge.get_last pidv (Some false) s
              = Raise (except_osv "Discharge Not Found!" msg) s).
Proof.
  unfold nh_clinical_patient_discharge.get_last. msimpl.
  pose proof (elem_of_completed_discharges s pidv) as Hin.
  assert (Sorted date_terminated_desc_sequence_desc
            (nh_clinical_patient_discharge.completed_discharges s pidv)) as Hsorted
    by apply (Sorted_merge_sort _).
  destruct (nh_clinical_patient_discharge.completed_discharges s pidv)
    as [|[i a] l] eqn:Hl; simpl.
  - split.
    + intros (i & a & Hia%Hin). by apply elem_of_nil in Hia.
    + intros _. eauto.
  - split.
    + intros _. split; [eauto|]. intros exception Hex. exists i, a. split.
      { destruct exception as [[]|]; done. }
      split; [apply Hin; left|].
      intros j b Hjb%Hin. by apply (latest_first _ _ Hsorted eq_refl).
    + intros Hno. destruct (Hno i a). apply Hin. left.
Qed.

(** X8: admission [get_last] never changes the store.  With the flag
    ['True'] it raises "Patient Already Admitted!" exactly when the patient
    has a completed admission under a started parent; with ['False'] it
    raises "Admission Not Found!" exactly when there is none; unset, it never
    raises.  When it returns an admission this is one of them, and none of
    the others comes later (by termination date, then sequence). *)
Theorem admission_get_last_tristate (s : Store) (pidv : Value) :
  ((∃ i a, is_active_admission s pidv i a) →
     (∃ msg, nh_clinical_patient_admission.get_last pidv (Some true) s
             = Raise (except_osv "Patient Already Admitted!" msg) s)
     ∧ ∀ exception, exception ≠ Some true →
         ∃ i a, nh_clinical_patient_admission.get_last pidv exception s = Ok (Some i) s
                ∧ is_active_admission s pidv i a
                ∧ ∀ j b, is_active_admission s pidv j b →
                         date_terminated_desc_sequence_desc (i, a) (j, b))
  ∧ ((∀ i a, ¬ is_active_admission s pidv i a) →
     nh_clinical_patient_admission.get_last pidv (Some true) s = Ok None s
     ∧ nh_clinical_patient_admission.get_last pidv None s = Ok None s
     ∧ ∃ msg, nh_clinical_patient_admission.get_last pidv (Some false) s
              = Raise (except_osv "Admission Not Found!" msg) s).
Proof.
  unfold nh_clinical_patient_admission.get_last. msimpl.
  pose proof (elem_of_active_admissions s pidv) as Hin.
  assert (Sorted date_terminated_desc_sequence_desc
            (nh_clinical_patient_admission.active_admissions s pidv)) as Hsorted
    by apply (Sorted_merge_sort _).
  destruct (nh_clinical_patient_admission.active_admissions s pidv)
    as [|[i a] l] eqn:Hl; simpl.
  - split.
    + intros (i & a & Hia%Hin). by apply elem_of_nil in Hia.
    + intros _. eauto.
  - split.
    + intros _. split; [eauto|]. intros exception Hex. exists i, a. split.
      { destruct exception as [[]|]; done. }
      split; [apply Hin; left|].
      intros j b Hjb%Hin. by apply (latest_first _ _ Hsorted eq_refl).
    + intros Hno. destruct (Hno i a). apply Hin. left.
Qed.

Lemma discharge_get_last_tristate_witness :
  ∃ i a, nh_clinical_patient_discharge.get_last (Some 10) None Ward.discharged_twice
         = Ok (Some i) Ward.discharged_twice
         ∧ is_completed_discharge Ward.discharged_twice (Some 10) i a
         ∧ ∀ j b, is_completed_discharge Ward.discharged_twice (Some 10) j b →
                  date_terminated_desc_sequence_desc (i, a) (j, b).
Proof.
  apply (proj1 (discharge_get_last_tristate Ward.discharged_twice (Some 10))).
  - exists 143, Ward.discharge_143. repeat split; reflexivity.
  - discriminate.
Defined.

Lemma admission_get_last_tristate_witness :
  ∃ msg, nh_clinical_patient_admission.get_last (Some 10) (Some true) Ward.admitted
         = Raise (except_osv "Patient Already Admitted!" msg) Ward.admitted.
Proof.
  apply (proj1 (admission_get_last_tristate Ward.admitted (Some 10))).
  exists 145, Ward.admission_145. repeat split; reflexivity.
Defined.

(** ** Placement: at most one open placement *)

Lemma cancel_rows_patients (l : list Z) : ∀ s s',
  for_each l cancel_row s = Ok tt s' → patients s' = patients s.
Proof.
  induction l as [|p l IH]; intros s s' Hrun.
  - by injection Hrun as <-.
  - simpl in Hrun. unfold bind in Hrun at 1.
    destruct (cancel_row p s) as [[] s1|] eqn:Hp; [|done].
    rewrite (IH _ _ Hrun). revert Hp. unfold cancel_row, browse_record. msimpl.
    destruct (records s !! p) as [d|]; [|done]. unfold the_id.
    destruct (fld d "activity_id") as [aid|]; [|done]. msimpl.
    unfold NhClinicalPatientPlacement.cancel, base_cancel, browse. msimpl.
    destruct (activities s !! aid) as [a|]; [|done]. msimpl.
    destruct (bool_decide (state a = cancelled)); [done|].
    by intros [= <-].
Qed.

Lemma cancel_open_placements_spec s pidv (keep : option Z) :
  (∀ r1 r2 d1 d2 aid, records s !! r1 = Some d1 → records s !! r2 = Some d2 →
     fld d1 "activity_id" = Some aid → fld d2 "activity_id" = Some aid → r1 = r2) →
  ∃ s',
    NhClinicalPatientPlacement.cancel_open_placements pidv keep s = Ok tt s' ∧
    records s' = records s ∧ patients s' = patients s ∧
    (∀ r d, (r, d) ∈ NhClinicalPatientPlacement.open_placements s' pidv →
            keep = Some r ∧ (r, d) ∈ NhClinicalPatientPlacement.open_placements s pidv) ∧
    (∀ r d aid a, (r, d) ∈ NhClinicalPatientPlacement.open_placements s pidv →
       keep ≠ Some r → fld d "activity_id" = Some aid → activities s !! aid = Some a →
       ∃ a', activities s' !! aid = Some a' ∧ state a' = cancelled) ∧
    (∀ aid, (∀ r d, (r, d) ∈ NhClinicalPatientPlacement.open_placements s pidv →
                    keep ≠ Some r → fld d "activity_id" ≠ Some aid) →
            activities s' !! aid = activities s !! aid).
Proof.
  intros Hinj. unfold NhClinicalPatientPlacement.cancel_open_placements.
  unfold bind at 1. unfold gets at 1.
  set (l := match keep with
            | Some k => filter (λ p, p ≠ k)
                          (NhClinicalPatientPlacement.open_placements s pidv).*1
            | None => (NhClinicalPatientPlacement.open_placements s pidv).*1
            end).
  assert (∀ p, p ∈ l ↔ keep ≠ Some p ∧
            ∃ d, (p, d) ∈ NhClinicalPatientPlacement.open_placements s pidv) as Hl.
  { intros p. unfold l. destruct keep as [k|].
    - rewrite list_elem_of_filter, list_elem_of_fmap. split.
      + intros [Hne [[q d] [-> Hin]]]. split; [congruence|]. by exists d.
      + intros [Hne [d Hd]]. split; [congruence|]. by exists (p, d).
    - rewrite list_elem_of_fmap. split.
      + intros [[q d] [-> Hin]]. split; [done|]. by exists d.
      + intros [_ [d Hd]]. by exists (p, d). }
  assert (NoDup l) as Hnd.
  { unfold l. destruct keep; [apply NoDup_filter|]; apply NoDup_search. }
  destruct (cancel_rows_ok l s Hnd) as (s' & Hrun & Hrec & Hcan & Hframe).
  - intros p [_ [d Hd]]%Hl.
    apply elem_of_open_placements in Hd as (Hd & _ & _ & aid & a & Haid & Ha & Hst).
    exists d, aid, a. repeat split; try done. intros Hc. by rewrite Hc in Hst.
  - intros p1 p2 d1 d2 aid _ _. apply Hinj.
  - exists s'. split; [exact Hrun|]. split; [done|].
    assert (patients s' = patients s) as Hpat by (by eapply cancel_rows_patients).
    split; [done|]. split; [|split].
    + intros r d Hopen.
      apply elem_of_open_placements in Hopen
        as (Hd & Hm & Hp & aid & a' & Haid & Ha' & Hst').
      rewrite Hrec in Hd.
      destruct (decide (r ∈ l)) as [Hr|Hr].
      { destruct (Hcan r d aid Hr Hd Haid) as (x & Hx & Hxs).
        rewrite Hx in Ha'. injection Ha' as <-. by rewrite Hxs in Hst'. }
      assert (activities s' !! aid = activities s !! aid) as Hsame.
      { apply Hframe. intros p dp Hp' Hdp Hc. apply Hr.
        by rewrite (Hinj r p d dp aid). }
      rewrite Hsame in Ha'.
      assert ((r, d) ∈ NhClinicalPatientPlacement.open_placements s pidv) as Hopen.
      { apply elem_of_open_placements. repeat split; try done. by exists aid, a'. }
      split; [|done].
      destruct (decide (keep = Some r)) as [|Hk]; [done|].
      destruct Hr. apply Hl. split; [done|]. by exists d.
    + intros r d aid a Hopen Hk Haid Ha. apply (Hcan r d aid); [|by apply
        elem_of_open_placements in Hopen as (? & _)|done].
      apply Hl. split; [done|]. by exists d.
    + intros aid Hno. apply Hframe. intros p d [Hk [d' Hd']]%Hl Hd.
      assert (d' = d) as ->.
      { apply elem_of_open_placements in Hd' as (Hd' & _). congruence. }
      by apply (Hno p d).
Qed.

Lemma NoDup_all_equal {A} (l : list A) (x : A) :
  NoDup l → (∀ y, y ∈ l → y = x) → x ∈ l → l = [x].
Proof.
  intros Hnd Hall Hx. destruct l as [|y l]; [by apply elem_of_nil in Hx|].
  assert (y = x) as -> by (apply Hall; left).
  destruct l as [|z l]; [done|].
  assert (z = x) as -> by (apply Hall; right; left).
  apply NoDup_cons in Hnd as [Hn _]. destruct Hn. left.
Qed.

(** X9: [cancel_open_placements] called with no placement to keep leaves
    the patient without any open placement: every placement of the patient
    that was neither completed nor cancelled is cancelled; the rows, the
    patients and the activities of everything else stay as they were.  No two
    rows share an activity. *)
Theorem cancel_open_placements_closes_all (s : Store) (pidv : Value) :
  (∀ r1 r2 d1 d2 aid, records s !! r1 = Some d1 → records s !! r2 = Some d2 →
     fld d1 "activity_id" = Some aid → fld d2 "activity_id" = Some aid → r1 = r2) →
  ∃ s',
    NhClinicalPatientPlacement.cancel_open_placements pidv None s = Ok tt s' ∧
    records s' = records s ∧ patients s' = patients s ∧
    NhClinicalPatientPlacement.open_placements s' pidv = [] ∧
    (∀ r d aid a, (r, d) ∈ NhClinicalPatientPlacement.open_placements s pidv →
       fld d "activity_id" = Some aid → activities s !! aid = Some a →
       ∃ a', activities s' !! aid = Some a' ∧ state a' = cancelled) ∧
    (∀ aid, (∀ r d, (r, d) ∈ NhClinicalPatientPlacement.open_placements s pidv →
                    fld d "activity_id" ≠ Some aid) →
            activities s' !! aid = activities s !! aid).
Proof.
  intros Hinj.
  destruct (cancel_open_placements_spec s pidv None Hinj)
    as (s' & Hrun & Hrec & Hpat & Hopen & Hcan & Hframe).
  exists s'. split; [done|]. split; [done|]. split; [done|]. split; [|split].
  - destruct (NhClinicalPatientPlacement.open_placements s' pidv) as [|[r d] l] eqn:Hl;
      [done|].
    destruct (Hopen r d) as [Hk _]; [left|done].
  - intros r d aid a Hin. by apply (Hcan r d aid a).
  - intros aid Hno. apply Hframe. intros r d Hin _. by apply (Hno r d).
Qed.

Lemma cancel_open_placements_closes_all_witness :
  ∃ s',
    NhClinicalPatientPlacement.cancel_open_placements (Some 10) None Ward.placing_again
    = Ok tt s' ∧
    records s' = records Ward.placing_again ∧ patients s' = patients Ward.placing_again ∧
    NhClinicalPatientPlacement.open_placements s' (Some 10) = [] ∧
    (∀ r d aid a,
       (r, d) ∈ NhClinicalPatientPlacement.open_placements Ward.placing_again (Some 10) →
       fld d "activity_id" = Some aid → activities Ward.placing_again !! aid = Some a →
       ∃ a', activities s' !! aid = Some a' ∧ state a' = cancelled) ∧
    (∀ aid,
       (∀ r d,
          (r, d) ∈ NhClinicalPatientPlacement.open_placements Ward.placing_again (Some 10) →
          fld d "activity_id" ≠ Some aid) →
       activities s' !! aid = activities Ward.placing_again !! aid).
Proof.
  apply (cancel_open_placements_closes_all Ward.placing_again (Some 10)).
  assert (map_Forall (λ r1 d1, map_Forall (λ r2 d2,
            fld d1 "activity_id" = fld d2 "activity_id" →
            fld d1 "activity_id" = None ∨ r1 = r2) (records Ward.placing_again))
            (records Ward.placing_again)) as Hall by compute_done.
  intros r1 r2 d1 d2 aid H1 H2 Ha1 Ha2.
  destruct (Hall r1 d1 H1 r2 d2 H2) as [Hn|Heq]; [congruence|congruence|done].
Defined.

(** X10: after [create] the patient has at most one open placement, the
    new one: any placement of the patient that is neither completed nor
    cancelled is the row just created, and when the activity of the new
    placement is not terminal the open placements of the patient are exactly
    that row.  No row shares its activity with another or has the activity of
    the new placement. *)
Theorem placement_create_leaves_one_open (s : Store) (vals : Vals) (pidv : Value) :
  vals !! "patient_id" = Some pidv →
  (∀ r d aid, records s !! r = Some d → fld d "activity_id" = Some aid →
     vals_get vals "activity_id" ≠ Some aid) →
  (∀ r1 r2 d1 d2 aid, records s !! r1 = Some d1 → records s !! r2 = Some d2 →
     fld d1 "activity_id" = Some aid → fld d2 "activity_id" = Some aid → r1 = r2) →
  ∃ s',
    NhClinicalPatientPlacement.create vals s = Ok (fresh (dom (records s))) s' ∧
    (∀ r d, (r, d) ∈ NhClinicalPatientPlacement.open_placements s' pidv →
            r = fresh (dom (records s))) ∧
    (∀ aid a, vals_get vals "activity_id" = Some aid → activities s !! aid = Some a →
       terminal (state a) = false →
       (NhClinicalPatientPlacement.open_placements s' pidv).*1
       = [fresh (dom (records s))]).
Proof.
  intros Hv Hnew Hinj. unfold NhClinicalPatientPlacement.create.
  rewrite (bind_ok _ _ _ _ _ (create_record_ok s patient_placement vals)).
  rewrite Hv. set (new := fresh (dom (records s))).
  pose proof (fresh_record_None s) as Hfresh. fold new in Hfresh.
  set (row := mkData patient_placement vals).
  match goal with |- ∃ _, bind _ _ ?x = _ ∧ _ => set (s1 := x) end.
  assert (records s1 = <[new := row]> (records s)) as Hrec1 by done.
  assert (∀ r1 r2 d1 d2 aid, records s1 !! r1 = Some d1 → records s1 !! r2 = Some d2 →
            fld d1 "activity_id" = Some aid → fld d2 "activity_id" = Some aid → r1 = r2)
    as Hinj1.
  { intros r1 r2 d1 d2 aid. rewrite Hrec1, !lookup_insert.
    repeat case_decide; subst; try done.
    - intros [= <-] H2 Ha1 Ha2. by destruct (Hnew r2 d2 aid).
    - intros H1 [= <-] Ha1 Ha2. by destruct (Hnew r1 d1 aid).
    - apply Hinj. }
  destruct (cancel_open_placements_spec s1 pidv (Some new) Hinj1)
    as (s' & Hrun & Hrec & Hpat & Hopen & Hcan & Hframe).
  exists s'. unfold bind. rewrite Hrun. split; [done|]. split.
  - intros r d Hin. destruct (Hopen r d Hin) as [[= ->] _]. done.
  - intros aid a Haid Ha Hst.
    apply NoDup_all_equal; [apply NoDup_search| |].
    + intros y [[r d] [-> Hin]]%list_elem_of_fmap.
      destruct (Hopen r d Hin) as [[= ->] _]. done.
    + apply list_elem_of_fmap. exists (new, row). split; [done|].
      apply elem_of_open_placements. rewrite Hrec, Hrec1.
      split; [apply lookup_insert_eq|]. split; [done|].
      split; [unfold fld, row; simpl; by rewrite Hv|].
      exists aid, a. split; [done|]. split; [|done].
      rewrite Hframe; [done|].
      intros r d Hin Hk Hc.
      apply elem_of_open_placements in Hin as (Hd & _).
      assert (r ≠ new) as Hne by congruence.
      rewrite Hrec1, lookup_insert_ne in Hd by done.
      by destruct (Hnew r d aid).
Qed.

Lemma placement_create_leaves_one_open_witness :
  ∃ s',
    NhClinicalPatientPlacement.create Ward.new_placement_vals Ward.placing_again
    = Ok (fresh (dom (records Ward.placing_again))) s' ∧
    (∀ r d, (r, d) ∈ NhClinicalPatientPlacement.open_placements s' (Some 10) →
            r = fresh (dom (records Ward.placing_again))) ∧
    (∀ aid a, vals_get Ward.new_placement_vals "activity_id" = Some aid →
       activities Ward.placing_again !! aid = Some a →
       terminal (state a) = false →
       (NhClinicalPatientPlacement.open_placements s' (Some 10)).*1
       = [fresh (dom (records Ward.placing_again))]).
Proof.
  apply (placement_create_leaves_one_open Ward.placing_again Ward.new_placement_vals
           (Some 10)).
  - reflexivity.
  - assert (map_Forall (λ _ d, fld d "activity_id" ≠ Some 132)
              (records Ward.placing_again)) as Hall by compute_done.
    intros r d aid Hr Haid Hv. apply (Hall r d Hr).
    rewrite Haid, <-Hv. reflexivity.
  - assert (map_Forall (λ r1 d1, map_Forall (λ r2 d2,
              fld d1 "activity_id" = fld d2 "activity_id" →
              fld d1 "activity_id" = None ∨ r1 = r2) (records Ward.placing_again))
              (records Ward.placing_again)) as Hall by compute_done.
    intros r1 r2 d1 d2 aid H1 H2 Ha1 Ha2.
    destruct (Hall r1 d1 H1 r2 d2 H2) as [Hn|Heq]; [congruence|congruence|done].
Defined.

(** ** Placement: completion *)

(** X11: completing a placement with a location, for a patient with one
    open spell, completes the placement first, then creates under the spell a
    movement to the location with the placement as creator and completes it,
    writes the location on the spell's row and fires the policy trigger with
    the location, in this order; the patient ends at the location. *)
Theorem placement_complete_places (n : nat) (s : Store) (aid rid pid P rp L : Z)
    (a ap : Activity) (d dp : Data) :
  activities s !! aid = Some a →
  data_model a = patient_placement →
  terminal (state a) = false →
  data_ref a = Some rid →
  records s !! rid = Some d →
  d_model d = patient_placement →
  fld d "patient_id" = Some pid →
  fld d "location_id" = Some L →
  is_Some (patients s !! pid) →
  open_spells s (Some pid) = [rp] →
  records s !! rp = Some dp →
  d_model dp = spell →
  fld dp "patient_id" = Some pid →
  fld dp "activity_id" = Some P →
  activities s !! P = Some ap →
  data_model ap = spell →
  terminal (state ap) = false →
  data_ref ap = Some rp →
  rows_have_activities s →
  let m := fresh (dom (activities s)) in
  let rm := fresh (dom (records s)) in
  ∃ s' mid,
    NhClinicalPatientPlacement.complete nh_activity.submit
      (nh_activity.complete (S n)) aid s = Ok tt s'
    ∧ (∃ a', activities s' !! aid = Some a' ∧ state a' = completed)
    ∧ (∃ am dm, activities s' !! m = Some am ∧ data_model am = patient_move ∧
                state am = completed ∧ parent_id am = Some P ∧
                creator_id am = Some aid ∧ data_ref am = Some rm ∧
                records s' !! rm = Some dm ∧ fld dm "patient_id" = Some pid ∧
                fld dm "location_id" = Some L)
    ∧ patients s' !! pid = Some (mkPatient (Some L))
    ∧ (∃ dp', records s' !! rp = Some dp' ∧ fld dp' "location_id" = Some L ∧
              ∀ k, k ≠ "location_id" → fld dp' k = fld dp k)
    ∧ activities s' !! P = Some ap
    ∧ journal s'
      = journal s
          ++ [EvBaseComplete aid; EvCreateActivity m patient_move]
          ++ mid
          ++ [EvBaseComplete m;
              EvBaseSubmit P {[ "location_id" := Some L ]};
              EvWriteRecord rp {[ "location_id" := Some L ]};
              EvTriggerPolicy aid (Some L)].
Proof.
  intros Ha Hm Hst Hr Hd Hdm Hpid HL Hpat Hop Hdp Hdpm Hdpp Hdpa HP HPm HPst HPr
    Hwf m rm.
  assert (P ≠ aid) as HPaid by (intros ->; congruence).
  assert (rp ≠ rid) as Hrprid by (intros ->; congruence).
  unfold NhClinicalPatientPlacement.complete.
  rewrite (bind_ok _ _ _ _ _ (data_field_ok s aid a rid d _ Ha Hr Hd)), HL.
  rewrite (bind_ok _ _ _ _ _ (base_complete_ok s aid a Ha Hst)).
  set (a1 := set_state completed (next_sequence s) (Some (clock s)) a).
  match goal with |- ∃ _ _, bind _ _ ?x = _ ∧ _ => set (s1 := x) end.
  assert (activities s1 = <[aid := a1]> (activities s)) as Hact1 by done.
  assert (records s1 = records s) as Hrec1 by done.
  assert (activities s1 !! aid = Some a1) as Ha1 by apply lookup_insert_eq.
  assert (activities s1 !! P = Some ap) as HP1 by (simpl; by rewrite lookup_insert_ne).
  assert (records s1 !! rid = Some d) as Hd1 by done.
  assert (records s1 !! rp = Some dp) as Hdp1 by done.
  assert (dom (activities s1) = dom (activities s)) as Hdom1
    by (by eapply dom_insert_existing).
  assert (journal s1 = journal s ++ [EvBaseComplete aid]) as Hj1 by done.
  assert (is_Some (patients s1 !! pid)) as Hpat1 by done.
  rewrite (bind_ok _ _ _ _ _ (data_field_ok s1 aid a1 rid d _ Ha1 Hr Hd1)), Hpid.
  rewrite (bind_ok _ _ _ _ _ (data_field_ok s1 aid a1 rid d _ Ha1 Hr Hd1)), HL.
  assert (∀ r dr ar x, records s !! r = Some dr → d_model dr = spell →
            fld dr "patient_id" = Some pid → fld dr "activity_id" = Some ar →
            (activities s1 !! ar = Some x ∨
             activities (activity_created patient_move (Some P) (Some aid) s1) !! ar
             = Some x) →
            terminal (state x) = false → r = rp) as Huniq.
  { intros r dr ar x Hdr Hdrm Hdrp Hdra Hx Hxs.
    apply (open_spells_singleton_iff _ _ _ Hop).
    assert (activities s1 !! ar = Some x) as Hx1.
    { destruct Hx as [Hx|Hx]; [done|].
      unfold activity_created in Hx. cbn [activities] in Hx.
      rewrite Hdom1 in Hx. fold m in Hx.
      rewrite lookup_insert in Hx. case_decide as Hc1; [|done].
      subst ar. by destruct (rows_have_activities_fresh s r dr Hwf Hdr). }
    rewrite Hact1, lookup_insert in Hx1. case_decide as Hc2.
    { by simplify_eq. }
    exists dr, ar, x. by repeat split. }
  assert (open_spells s1 (Some pid) = [rp]) as Hop1.
  { apply (open_spells_after s s1 (Some pid) rp dp P ap); try done.
    intros r dr ar x ? ? ? ? ? ?. apply (Huniq r dr ar x); auto. }
  rewrite (bind_ok _ _ _ _ _ (get_by_patient_id_unset_found s1 _ _ Hop1)).
  rewrite (bind_ok _ _ _ _ _ (spell_activity_id_ok s1 rp dp Hdp1)), Hdpa.
  set (vals := (<["patient_id" := Some pid]> {[ "location_id" := Some L ]}) : Vals).
  assert (open_spells (activity_created patient_move (Some P) (Some aid) s1) (Some pid)
          = [rp]) as Hop2.
  { apply (open_spells_after s _ (Some pid) rp dp P ap); try done.
    - unfold activity_created. cbn [activities]. rewrite lookup_insert_ne; [done|].
      apply not_eq_sym. by apply (fresh_activity_ne s1 P ap).
    - intros r dr ar x ? ? ? ? ? ?. apply (Huniq r dr ar x); auto. }
  assert (vals !! "patient_id" = Some (Some pid)) as Hv1 by done.
  assert (vals !! "parent_id" = None) as Hv2 by done.
  rewrite (bind_ok _ _ _ _ _
             (create_move_ok s1 (Some P) (Some aid) vals (Some pid) rp dp
                Hv1 Hv2 Hop2 Hdp1)).
  rewrite Hdpa.
  assert (vals_get vals "patient_id" = Some pid) as Hg1 by done.
  assert (vals_get vals "location_id" = Some L) as Hg2 by done.
  rewrite (bind_ok _ _ _ _ _
             (complete_created_move n s1 P (Some aid) vals pid L ap rp dp
                Hg1 Hg2 Hpat1 HP1 HPm HPst HPr Hdp1)).
  rewrite Hdom1. change (fresh (dom (records s1))) with rm. fold m.
  set (s2 := move_created (Some P) (Some aid) vals s1).
  set (am := move_activity (Some P) (Some aid) rm).
  set (s3 := move_completed m am rm (move_row m vals) pid L (Some (P, rp, dp)) s2).
  assert (m ≠ P) as HmP by (apply not_eq_sym; by eapply fresh_activity_ne).
  assert (m ≠ aid) as Hmaid by (apply not_eq_sym; by eapply fresh_activity_ne).
  assert (rm ≠ rp) as Hrmrp by (apply not_eq_sym; by eapply fresh_record_ne).
  assert (activities s2 = <[m := am]> (<[aid := a1]> (activities s))) as Hact2.
  { unfold s2. rewrite move_created_activities, Hdom1. done. }
  assert (journal s2 = journal s
            ++ [EvBaseComplete aid; EvCreateActivity m patient_move]
            ++ [EvWriteActivity m (mkActivityVals (Some (Some P)) None None None None);
                EvBaseSubmit m vals; EvCreateRecord rm patient_move;
                EvWriteActivity m (linked rm)]) as Hj2.
  { unfold s2, move_created. rewrite Hdom1. simpl. by rewrite <-app_assoc. }
  set (am3 := set_state completed (next_sequence s2) (Some (clock s2)) am).
  assert (activities s3 = <[m := am3]> (activities s2)) as Hact3 by done.
  destruct (move_completed_row m am rm (move_row m vals) pid L P rp dp s2)
    as (dm' & Hdm' & Hdmk); [done|]. fold s3 in Hdm'.
  destruct (move_completed_journal m am rm (move_row m vals) pid L
              (Some (P, rp, dp)) s2) as (mid & Hj3). fold s3 in Hj3.
  pose proof (move_completed_parent_row m am rm (move_row m vals) pid L P rp dp s2
                (not_eq_sym Hrmrp)) as Hrp3. fold s3 in Hrp3.
  assert (patients s3 !! pid = Some (mkPatient (Some L))) as Hpat3.
  { unfold s3. rewrite move_completed_patients. apply lookup_insert_eq. }
  clearbody s3. clearbody s2. clear Hop1 Hop2 Huniq.
  unfold the_id, bind at 1, ret at 1.
  assert (activities s3 !! P = Some ap) as HP3.
  { rewrite Hact3, Hact2. by rewrite !lookup_insert_ne. }
  rewrite (bind_ok _ _ _ _ _
             (spell_submit_ok s3 P ap rp _ {[ "location_id" := Some L ]}
                HP3 HPm HPst HPr Hrp3)).
  unfold trigger_policy, modify.
  eexists.
  exists ([EvWriteActivity m (mkActivityVals (Some (Some P)) None None None None);
           EvBaseSubmit m vals; EvCreateRecord rm patient_move;
           EvWriteActivity m (linked rm)] ++ mid).
  split; [done|]. cbn [log activities records patients journal].
  rewrite Hact3, Hact2.
  split. { exists a1. rewrite !lookup_insert_ne by (by apply not_eq_sym).
           split; [apply lookup_insert_eq|done]. }
  split.
  { exists am3, dm'. split; [apply lookup_insert_eq|].
    rewrite lookup_insert_ne by (by apply not_eq_sym).
    repeat split; try done.
    - rewrite Hdmk by done. by rewrite fld_move_row.
    - rewrite Hdmk by done. by rewrite fld_move_row. }
  split; [done|]. split.
  { eexists. split; [apply lookup_insert_eq|]. split.
    - apply fld_written_singleton.
    - intros k Hk. by rewrite !fld_written_singleton_ne. }
  split. { by rewrite !lookup_insert_ne by (by apply not_eq_sym). }
  rewrite Hj3, Hj2. by rewrite <-?app_assoc.
Qed.

Lemma placement_complete_places_witness :
  ∃ s' mid,
    NhClinicalPatientPlacement.complete nh_activity.submit
      (nh_activity.complete 1) 133 Ward.placing_admitted = Ok tt s'
    ∧ (∃ a', activities s' !! 133 = Some a' ∧ state a' = completed)
    ∧ (∃ am dm, activities s' !! fresh (dom (activities Ward.placing_admitted)) = Some am ∧
                data_model am = patient_move ∧
                state am = completed ∧ parent_id am = Some 100 ∧
                creator_id am = Some 133 ∧
                data_ref am = Some (fresh (dom (records Ward.placing_admitted))) ∧
                records s' !! fresh (dom (records Ward.placing_admitted)) = Some dm ∧
                fld dm "patient_id" = Some 10 ∧
                fld dm "location_id" = Some 6)
    ∧ patients s' !! 10 = Some (mkPatient (Some 6))
    ∧ (∃ dp', records s' !! 200 = Some dp' ∧ fld dp' "location_id" = Some 6 ∧
              ∀ k, k ≠ "location_id" → fld dp' k = fld Ward.spell_row_10 k)
    ∧ activities s' !! 100 = Some Ward.spell_of_10
    ∧ journal s'
      = journal Ward.placing_admitted
          ++ [EvBaseComplete 133;
              EvCreateActivity (fresh (dom (activities Ward.placing_admitted))) patient_move]
          ++ mid
          ++ [EvBaseComplete (fresh (dom (activities Ward.placing_admitted)));
              EvBaseSubmit 100 {[ "location_id" := Some 6 ]};
              EvWriteRecord 200 {[ "location_id" := Some 6 ]};
              EvTriggerPolicy 133 (Some 6)].
Proof.
  apply (placement_complete_places 0 Ward.placing_admitted 133 233 10 100 200 6
           Ward.placement_133 Ward.spell_of_10 Ward.placement_row_233 Ward.spell_row_10);
    try reflexivity.
  - by eexists.
  - compute_done.
Defined.

(** ** The placement form *)

Lemma reaches_below locs fuel root i :
  NhClinicalPatientPlacement.reaches locs fuel root (Some i) = true →
  below locs root i.
Proof.
  revert i. induction fuel as [|fuel IH]; intros i; simpl; [done|].
  case_bool_decide as Hi; [intros _; subst; constructor|].
  destruct (locs !! i) as [loc|] eqn:Hloc; [|done].
  destruct (loc_parent_id loc) as [p|] eqn:Hp.
  - intros H. eapply below_up; eauto.
  - by destruct fuel.
Qed.

Lemma set_selections_map sel (pre rest : NhClinicalPatientPlacement.Forms) :
  foldl (λ dicts field,
           match dicts !! field with
           | Some f =>
               if bool_decide (NhClinicalPatientPlacement.field_name f = "location_id")
               then <[field := NhClinicalPatientPlacement.set_selection f sel]> dicts
               else dicts
           | None => dicts
           end) (pre ++ rest) (seq (length pre) (length rest))
  = pre ++ (with_selection sel <$> rest).
Proof.
  revert pre. induction rest as [|x rest IH]; intros pre; [done|].
  cbn [length seq foldl fmap list_fmap].
  rewrite lookup_app_r by lia. replace (length pre - length pre)%nat with 0%nat by lia.
  cbn [lookup list_lookup].
  specialize (IH (pre ++ [with_selection sel x])).
  rewrite length_app, <-app_assoc in IH. cbn [length app] in IH.
  replace (length pre + 1)%nat with (S (length pre)) in IH by lia.
  rewrite <-app_assoc in IH. cbn [app] in IH. rewrite <-IH. f_equal.
  unfold with_selection. case_bool_decide; [|done].
  rewrite insert_app_r_alt by lia.
  replace (length pre - length pre)%nat with 0%nat by lia. done.
Qed.


Global Instance id_asc_trans {A} : Transitive (@id_asc A).
Proof. intros x y z. unfold id_asc. lia. Qed.

Lemma StronglySorted_filter_list {A} (R : relation A) (P : A → Prop)
    `{!∀ x, Decision (P x)} (l : list A) :
  StronglySorted R l → StronglySorted R (filter P l).
Proof.
  induction 1 as [|x l Hs IH Hall]; [constructor|].
  rewrite filter_cons. case_decide; [|done].
  constructor; [done|]. rewrite Forall_forall in *.
  intros y Hy%list_elem_of_filter. apply Hall, Hy.
Qed.

Lemma search_sorted {A} (dom : Z → A → bool) (m : gmap Z A) :
  StronglySorted id_asc (search dom m).
Proof.
  unfold search. apply StronglySorted_filter_list.
  unfold rows. apply StronglySorted_merge_sort; apply _.
Qed.

Lemma search_last_max {A} (dom : Z → A → bool) (m : gmap Z A) i ids :
  (reverse (search dom m)).*1 = i :: ids →
  (∃ a, m !! i = Some a ∧ dom i a = true)
  ∧ ∀ j b, m !! j = Some b → dom j b = true → j ≤ i.
Proof.
  intros Hrev.
  destruct (reverse (search dom m)) as [|[i' a] l] eqn:Hr; simplify_eq/=.
  assert (search dom m = reverse l ++ [(i, a)]) as Hs.
  { rewrite <-(reverse_involutive (search dom m)), Hr. by rewrite reverse_cons. }
  assert ((i, a) ∈ search dom m) as Hin by (rewrite Hs; apply elem_of_app; right; by apply list_elem_of_singleton).
  apply elem_of_search in Hin. split; [by exists a|].
  intros j b Hj Hd.
  assert ((j, b) ∈ search dom m) as Hjin by (by apply elem_of_search).
  pose proof (search_sorted dom m) as Hsorted. rewrite Hs in Hsorted, Hjin.
  apply elem_of_app in Hjin as [Hjin|Hjin].
  - apply (StronglySorted_app_1_elem_of _ _ _ (j, b) (i, a)) in Hsorted;
      [done|done|by apply list_elem_of_singleton].
  - apply list_elem_of_singleton in Hjin. simplify_eq. done.
Qed.

Lemma reaches_mono locs fuel fuel' root l :
  (fuel ≤ fuel')%nat →
  NhClinicalPatientPlacement.reaches locs fuel root l = true →
  NhClinicalPatientPlacement.reaches locs fuel' root l = true.
Proof.
  revert fuel' l. induction fuel as [|fuel IH]; intros fuel' l Hle; [done|].
  destruct fuel' as [|fuel']; [lia|]. simpl.
  destruct l as [i|]; [|done]. case_bool_decide; [done|].
  destruct (locs !! i) as [loc|]; [|done]. apply IH. lia.
Qed.

Lemma below_walk locs root i : below locs root i → ∃ n, walk locs root n i.
Proof.
  induction 1 as [|i loc p Hi Hp _ [n IH]]; [exists 0%nat; constructor|].
  destruct (decide (i = root)) as [->|Hne]; [exists 0%nat; constructor|].
  exists (S n). by eapply walk_up.
Qed.

Lemma walk_det locs root n m i :
  walk locs root n i → walk locs root m i → n = m.
Proof.
  intros Hn. revert m. induction Hn as [|n i loc p Hne Hi Hp _ IH]; intros m Hm.
  - by inversion Hm.
  - inversion Hm; simplify_eq. f_equal. auto.
Qed.

Lemma walk_reaches locs root n i :
  walk locs root n i →
  NhClinicalPatientPlacement.reaches locs (S n) root (Some i) = true.
Proof.
  induction 1 as [|n i loc p Hne Hi Hp _ IH]; simpl.
  - by rewrite bool_decide_eq_true_2.
  - rewrite bool_decide_eq_false_2 by done. rewrite Hi, Hp. exact IH.
Qed.

Lemma walk_path locs root n i :
  walk locs root n i →
  ∃ path, length path = n ∧ NoDup path
          ∧ ∀ x, x ∈ path →
              is_Some (locs !! x) ∧ ∃ m, (m ≤ n)%nat ∧ walk locs root m x.
Proof.
  induction 1 as [|n i loc p Hne Hi Hp Hw (path & Hlen & Hnd & Hall)].
  - exists []. split; [done|]. split; [constructor|]. by intros x ?%elem_of_nil.
  - exists (i :: path). split; [by simpl; f_equal|]. split.
    + apply NoDup_cons. split; [|done]. intros Hin.
      destruct (Hall _ Hin) as (_ & m & Hm & Hwm).
      assert (m = S n) by (eapply walk_det; [done|by eapply walk_up]). lia.
    + intros x [->|Hin]%elem_of_cons.
      * split; [done|]. exists (S n). split; [lia|by eapply walk_up].
      * destruct (Hall _ Hin) as (Hx & m & Hm & Hwm). split; [done|].
        exists m. split; [lia|done].
Qed.

Lemma walk_short locs root n i : walk locs root n i → (n ≤ size locs)%nat.
Proof.
  intros (path & <- & Hnd & Hall)%walk_path.
  rewrite <-size_dom. unfold size, set_size. simpl.
  apply submseteq_length, NoDup_submseteq; [done|].
  intros x Hx. apply elem_of_elements, elem_of_dom. by apply Hall.
Qed.

Lemma child_of_below locs r p :
  NhClinicalPatientPlacement.child_of locs (Some r) (Some p) = true ↔ below locs r p.
Proof.
  unfold NhClinicalPatientPlacement.child_of. split; [apply reaches_below|].
  intros [n Hn]%below_walk.
  eapply reaches_mono; [|by apply walk_reaches].
  apply walk_short in Hn. lia.
Qed.

Lemma open_placement_dom s patient_id a :
  bool_decide (activity_field s a "patient_id" = Some patient_id)
  && negb (terminal (state a)) && bool_decide (data_model a = patient_placement) = true
  ↔ is_open_placement_of s patient_id a.
Proof.
  unfold is_open_placement_of.
  rewrite !andb_true_iff, !bool_decide_eq_true, negb_true_iff.
  destruct (state a); simpl; intuition congruence.
Qed.

Lemma latest_open_placement_head s patient_id pa a :
  latest_open_placement s patient_id pa a →
  ∃ ids,
    (reverse
       (search (λ _ a,
          bool_decide (activity_field s a "patient_id" = Some patient_id)
          && negb (terminal (state a))
          && bool_decide (data_model a = patient_placement))
          (activities s))).*1 = pa :: ids.
Proof.
  intros (Ha & Hopen & Hmax).
  match goal with |- ∃ ids, (reverse (search ?dom ?m)).*1 = _ => set (f := dom) end.
  assert ((pa, a) ∈ search f (activities s)) as Hin
    by (apply elem_of_search; split; [done|by apply open_placement_dom]).
  destruct ((reverse (search f (activities s))).*1) as [|i ids] eqn:Hrev.
  { apply fmap_nil_inv in Hrev.
    rewrite <-(reverse_involutive (search f _)), Hrev in Hin.
    by apply elem_of_nil in Hin. }
  exists ids. f_equal.
  apply search_last_max in Hrev as [(b & Hb & Hdb) Hle].
  specialize (Hle pa a Ha (proj2 (open_placement_dom _ _ _) Hopen)).
  specialize (Hmax i b Hb (proj1 (open_placement_dom _ _ _) Hdb)). lia.
Qed.

(** X12: for a patient whose latest (highest id) open placement has a
    payload row with a suggested location, [get_form_description] returns,
    leaves the store as it was, and sets on every [location_id] dictionary of
    the class attribute a selection that lists exactly the available beds
    that are the suggested location itself or lie below it, each with its
    name. *)
Theorem form_description_lists_beds (s : Store) (patient_id pa root : Z)
    (a : Activity) (d : Data) (dicts : NhClinicalPatientPlacement.Forms) :
  latest_open_placement s patient_id pa a →
  payload s a = Some d →
  fld d "suggested_location_id" = Some root →
  ∃ sel,
    NhClinicalPatientPlacement.get_form_description patient_id dicts s
    = Ok (seq 0 (length dicts), with_selection sel <$> dicts) s
    ∧ ∀ l nm,
        (l, nm) ∈ sel ↔
        ∃ loc,
          locations s !! l = Some loc ∧ usage loc = "bed"
          ∧ is_available loc = true ∧ nm = loc_name loc
          ∧ below (locations s) root l.
Proof.
  intros Hlatest Hpay Hroot.
  destruct (latest_open_placement_head _ _ _ _ Hlatest) as [ids Hids].
  destruct Hlatest as (Ha & _ & _).
  unfold payload in Hpay.
  destruct (data_ref a) as [rid|] eqn:Hr; [|done]. simpl in Hpay.
  eexists. split.
  - unfold NhClinicalPatientPlacement.get_form_description.
    unfold bind at 1. unfold gets at 1. rewrite Hids.
    unfold NhClinicalPatientPlacement.get_activity_location_id.
    unfold bind. rewrite (data_field_ok _ _ _ _ _ _ Ha Hr Hpay).
    msimpl. f_equal. f_equal.
    apply (set_selections_map _ [] dicts).
  - intros l nm. rewrite list_elem_of_fmap, Hroot. split.
    + intros (l' & [= -> ->] & Hin).
      apply list_elem_of_fmap in Hin as ([l'' loc] & -> & Hin).
      apply elem_of_search in Hin as [Hloc Hdom]. simpl.
      rewrite !andb_true_iff, bool_decide_eq_true in Hdom.
      destruct Hdom as [[Hbed Hchild] Hav].
      exists loc. apply child_of_below in Hchild.
      unfold location_name. rewrite Hloc. done.
    + intros (loc & Hloc & Hbed & Hav & -> & Hbelow).
      exists l. split; [unfold location_name; by rewrite Hloc|].
      apply list_elem_of_fmap. exists (l, loc). split; [done|].
      apply elem_of_search. split; [done|].
      rewrite !andb_true_iff, bool_decide_eq_true.
      split; [split; [done|by apply child_of_below]|done].
Qed.

Lemma form_description_lists_beds_witness :
  (∃ sel,
     NhClinicalPatientPlacement.get_form_description 10
       NhClinicalPatientPlacement.form_description Ward.placing_admitted
     = Ok (seq 0 (length NhClinicalPatientPlacement.form_description),
           with_selection sel <$> NhClinicalPatientPlacement.form_description)
          Ward.placing_admitted
     ∧ ∀ l nm,
         (l, nm) ∈ sel ↔
         ∃ loc,
           locations Ward.placing_admitted !! l = Some loc ∧ usage loc = "bed"
           ∧ is_available loc = true ∧ nm = loc_name loc
           ∧ below (locations Ward.placing_admitted) 5 l)
  ∧ (∃ sel,
       NhClinicalPatientPlacement.get_form_description 11
         NhClinicalPatientPlacement.form_description Ward.placing_at_bed
       = Ok (seq 0 (length NhClinicalPatientPlacement.form_description),
             with_selection sel <$> NhClinicalPatientPlacement.form_description)
            Ward.placing_at_bed
       ∧ ∀ l nm,
           (l, nm) ∈ sel ↔
           ∃ loc,
             locations Ward.placing_at_bed !! l = Some loc ∧ usage loc = "bed"
             ∧ is_available loc = true ∧ nm = loc_name loc
             ∧ below (locations Ward.placing_at_bed) 6 l)
  ∧ NhClinicalPatientPlacement.get_form_description 10
      NhClinicalPatientPlacement.form_description Ward.placing_admitted
    = Ok ([0%nat],
          [NhClinicalPatientPlacement.mkFormField "location_id" "selection"
             "Location" false (Some [(6, "Bed 3")])])
         Ward.placing_admitted
  ∧ NhClinicalPatientPlacement.get_form_description 11
      NhClinicalPatientPlacement.form_description Ward.placing_at_bed
    = Ok ([0%nat],
          [NhClinicalPatientPlacement.mkFormField "location_id" "selection"
             "Location" false (Some [(6, "Bed 3")])])
         Ward.placing_at_bed.
Proof.
  split; [|split; [|split; vm_compute; reflexivity]].
  - apply (form_description_lists_beds Ward.placing_admitted 10 133 5
             Ward.placement_133 Ward.placement_row_233
             NhClinicalPatientPlacement.form_description); [|reflexivity..].
    split; [reflexivity|]. split; [by repeat split|].
    assert (map_Forall (λ pb b,
              data_model b = patient_placement ∧ state b ≠ completed
              ∧ state b ≠ cancelled
              ∧ activity_field Ward.placing_admitted b "patient_id" = Some 10 →
              pb ≤ 133) (activities Ward.placing_admitted)) as Hall
      by compute_done.
    intros pb b Hb Hopen. exact (Hall pb b Hb Hopen).
  - apply (form_description_lists_beds Ward.placing_at_bed 11 134 6
             Ward.placement_134 Ward.placement_row_234
             NhClinicalPatientPlacement.form_description); [|reflexivity..].
    split; [reflexivity|]. split; [by repeat split|].
    assert (map_Forall (λ pb b,
              data_model b = patient_placement ∧ state b ≠ completed
              ∧ state b ≠ cancelled
              ∧ activity_field Ward.placing_at_bed b "patient_id" = Some 11 →
              pb ≤ 134) (activities Ward.placing_at_bed)) as Hall
      by compute_done.
    intros pb b Hb Hopen. exact (Hall pb b Hb Hopen).
Defined.

(** X13: for a patient without an open placement, [get_form_description]
    returns with the store as it was and sets the empty selection on every
    [location_id] dictionary. *)
Theorem form_description_no_placement (s : Store) (patient_id : Z)
    (dicts : NhClinicalPatientPlacement.Forms) :
  (∀ pa a, activities s !! pa = Some a → ¬ is_open_placement_of s patient_id a) →
  NhClinicalPatientPlacement.get_form_description patient_id dicts s
  = Ok (seq 0 (length dicts), with_selection [] <$> dicts) s.
Proof.
  intros Hnone. unfold NhClinicalPatientPlacement.get_form_description.
  unfold bind at 1. unfold gets at 1.
  match goal with |- context [search ?dom (activities s)] =>
    assert (search dom (activities s) = []) as ->
  end.
  { apply search_nil. intros pa a Ha. apply not_true_is_false.
    intros Hopen%open_placement_dom. by eapply Hnone. }
  msimpl. f_equal. f_equal. apply (set_selections_map _ [] dicts).
Qed.

Lemma form_description_no_placement_witness :
  NhClinicalPatientPlacement.get_form_description 11
    NhClinicalPatientPlacement.form_description Ward.placing_admitted
  = Ok (seq 0 (length NhClinicalPatientPlacement.form_description),
        with_selection [] <$> NhClinicalPatientPlacement.form_description)
       Ward.placing_admitted.
Proof.
  apply (form_description_no_placement Ward.placing_admitted 11
           NhClinicalPatientPlacement.form_description).
  assert (map_Forall (λ _ b,
            ¬ (data_model b = patient_placement ∧ state b ≠ completed
               ∧ state b ≠ cancelled
               ∧ activity_field Ward.placing_admitted b "patient_id" = Some 11))
            (activities Ward.placing_admitted)) as Hall
    by compute_done.
  intros pa a Ha. exact (Hall pa a Ha).
Defined.



